(** * orbkit.read: the four quantum-chemistry file readers

    A shallow embedding of [orbkit/read.py] (Python 2) and the properties
    of its readers: [main_read], [read_molden], [read_gamess],
    [read_gaussian_fchk] and [read_gaussian_log].

    Conventions of the embedding:
    - a file is the list of its lines as [readlines()] returns them, each
      line carrying its terminating newline;
    - a Python exception is a value of [Py.exn]; a function that can raise
      returns [Py.result];
    - a local variable that is not bound on every path is an [option]
      field of the reader's state, and reading it while unbound raises
      [NameError];
    - floating-point numbers are exact rationals kept in lowest terms
      (rounding, infinities and NaN are outside the model);
    - a numpy array is the list of its entries, with numpy's index rules. *)

From Stdlib Require Import ZArith QArith Qreduction Lia Bool.
From Stdlib Require Import Ascii String DecimalString.
From stdpp Require Import base option list strings gmap.

Local Open Scope string_scope.
Local Open Scope Z_scope.
Local Open Scope list_scope.

(* ===================================================================== *)
(** * Python primitives used by the readers *)
(* ===================================================================== *)

Module Py.

(** Exceptions the readers can raise. *)
Inductive exn : Type :=
| IOError (msg : string)
| IndexError
| ValueError
| KeyError (key : string)
| NameError (var : string)
| TypeError
| AttributeError
| ZeroDivisionError
| EOFError.

Inductive result (A : Type) : Type :=
| Ok (a : A)
| Raise (e : exn).
Arguments Ok {A} a.
Arguments Raise {A} e.

Definition bind {A B} (m : result A) (k : A -> result B) : result B :=
  match m with
  | Ok a => k a
  | Raise e => Raise e
  end.

Definition is_ok {A} (m : result A) : bool :=
  match m with Ok _ => true | Raise _ => false end.

(** Reading a local variable: [NameError] while it is unbound. *)
Definition var {A} (name : string) (v : option A) : result A :=
  match v with
  | Some a => Ok a
  | None => Raise (NameError name)
  end.

(** Reading a dictionary entry: [KeyError] while the key is absent. *)
Definition key {A} (name : string) (v : option A) : result A :=
  match v with
  | Some a => Ok a
  | None => Raise (KeyError name)
  end.

(** A loop body run over a list, left to right, stopping at the first
    exception. *)
Fixpoint foldM {A S} (f : S -> A -> result S) (l : list A) (s : S)
  : result S :=
  match l with
  | [] => Ok s
  | x :: l' => bind (f s x) (foldM f l')
  end.

Fixpoint mapM {A B} (f : A -> result B) (l : list A) : result (list B) :=
  match l with
  | [] => Ok []
  | x :: l' =>
      bind (f x) (fun y => bind (mapM f l') (fun ys => Ok (y :: ys)))
  end.

(** ** Characters and strings *)

Definition nl : string := String (ascii_of_nat 10) EmptyString.

(** The characters [str.split()] treats as separators. *)
Definition is_space (c : ascii) : bool :=
  let n := nat_of_ascii c in
  ((9 <=? n) && (n <=? 13))%nat || (n =? 32)%nat.

Definition is_digit (c : ascii) : bool :=
  let n := nat_of_ascii c in ((48 <=? n) && (n <=? 57))%nat.

Definition digit_val (c : ascii) : Z := Z.of_nat (nat_of_ascii c) - 48.

Definition lower_char (c : ascii) : ascii :=
  let n := nat_of_ascii c in
  if ((65 <=? n) && (n <=? 90))%nat then ascii_of_nat (n + 32) else c.

(** [sub in s] *)
Fixpoint contains (sub s : string) : bool :=
  String.prefix sub s ||
  match s with
  | EmptyString => false
  | String _ s' => contains sub s'
  end.

Definition snoc (s : string) (c : ascii) : string :=
  s +:+ String c EmptyString.

(** [s.split()] *)
Fixpoint split_go (cur : string) (s : string) : list string :=
  match s with
  | EmptyString => if String.eqb cur "" then [] else [cur]
  | String c s' =>
      if is_space c
      then (if String.eqb cur "" then split_go "" s'
            else cur :: split_go "" s')
      else split_go (snoc cur c) s'
  end.
Definition split (s : string) : list string := split_go "" s.

(** [s.split(sep)] for a non-empty [sep] *)
Fixpoint split_on_go (sep : string) (skip : nat) (cur : string) (s : string)
  : list string :=
  match s with
  | EmptyString => [cur]
  | String c s' =>
      match skip with
      | S k => split_on_go sep k cur s'
      | O =>
          if String.prefix sep s
          then cur :: split_on_go sep (String.length sep - 1) "" s'
          else split_on_go sep 0 (snoc cur c) s'
      end
  end.
Definition split_on (sep s : string) : list string := split_on_go sep 0 "" s.

(** [s.replace(old, new)] for a non-empty [old] *)
Fixpoint replace_go (old new : string) (skip : nat) (s : string) : string :=
  match s with
  | EmptyString => EmptyString
  | String c s' =>
      match skip with
      | S k => replace_go old new k s'
      | O =>
          if String.prefix old s
          then new +:+ replace_go old new (String.length old - 1) s'
          else String c (replace_go old new 0 s')
      end
  end.
Definition replace (old new s : string) : string := replace_go old new 0 s.

(** [s.lower()] *)
Fixpoint lower (s : string) : string :=
  match s with
  | EmptyString => EmptyString
  | String c s' => String (lower_char c) (lower s')
  end.

(** [s[n:]] and [s[:n]] for [n >= 0] *)
Fixpoint sdrop (n : nat) (s : string) : string :=
  match n, s with
  | O, _ => s
  | S k, String _ s' => sdrop k s'
  | S _, EmptyString => EmptyString
  end.
Fixpoint stake (n : nat) (s : string) : string :=
  match n, s with
  | S k, String c s' => String c (stake k s')
  | _, _ => EmptyString
  end.
(** [s[:-1]] *)
Definition drop_last (s : string) : string := stake (String.length s - 1) s.

(** [s.strip()] *)
Fixpoint lstrip (s : string) : string :=
  match s with
  | String c s' => if is_space c then lstrip s' else s
  | EmptyString => EmptyString
  end.
Definition strip (s : string) : string :=
  String.rev (lstrip (String.rev (lstrip s))).

(** ** Numbers *)

(** The digits at the front of a string, and what follows them. *)
Fixpoint span_digits (s : string) : string * string :=
  match s with
  | String c s' =>
      if is_digit c
      then let '(d, r) := span_digits s' in (String c d, r)
      else (EmptyString, s)
  | EmptyString => (EmptyString, EmptyString)
  end.

Fixpoint digits_val (acc : Z) (s : string) : Z :=
  match s with
  | String c s' => digits_val (10 * acc + digit_val c) s'
  | EmptyString => acc
  end.

(** An optional sign: [true] for minus. *)
Definition take_sign (s : string) : bool * string :=
  match s with
  | String "-" s' => (true, s')
  | String "+" s' => (false, s')
  | _ => (false, s)
  end.

Definition signed (neg : bool) (z : Z) : Z := if neg then - z else z.

(** [int(s)]: blanks around an optionally signed run of decimal digits. *)
Definition int (s : string) : result Z :=
  let '(neg, r) := take_sign (strip s) in
  let '(d, rest) := span_digits r in
  if String.eqb d "" then Raise ValueError
  else if String.eqb rest "" then Ok (signed neg (digits_val 0 d))
  else Raise ValueError.

(** ['%d' % n] *)
Definition fmt_d (n : Z) : string := NilZero.string_of_int (Z.to_int n).

(** Floats: exact rationals in lowest terms. *)
Definition float_of_Q (q : Q) : Q := Qred q.
Definition fmul (a b : Q) : Q := Qred (a * b).
Definition fadd (a b : Q) : Q := Qred (a + b).
Definition fdiv (a b : Q) : Q := Qred (a / b).
Definition float_of_Z (z : Z) : Q := inject_Z z.
Definition fgt (a b : Q) : bool := negb (Qle_bool a b).

(** The value [m * 10^e] of a decimal literal. *)
Definition scale10 (m e : Z) : Q :=
  if 0 <=? e then inject_Z (m * 10 ^ e)
  else Qred (Qmake m (Z.to_pos (10 ^ (- e)))).

(** The exponent part of a float literal: nothing, or [e]/[E], an optional
    sign and at least one digit, up to the end of the string. *)
Definition float_exponent (s : string) : option Z :=
  match s with
  | EmptyString => Some 0
  | String c s' =>
      if orb (Ascii.eqb c "e") (Ascii.eqb c "E") then
        let '(neg, r) := take_sign s' in
        let '(d, rest) := span_digits r in
        if String.eqb d "" then None
        else if String.eqb rest "" then Some (signed neg (digits_val 0 d))
        else None
      else None
  end.

(** [float(s)] on decimal literals: blanks, an optional sign, digits with
    an optional point (at least one digit in all) and an optional
    exponent. Every other string raises [ValueError]. *)
Definition float (s : string) : result Q :=
  let '(neg, r) := take_sign (strip s) in
  let '(ip, r1) := span_digits r in
  let '(fp, r2) :=
    match r1 with
    | String "." r1' => span_digits r1'
    | _ => (EmptyString, r1)
    end in
  if String.eqb (ip +:+ fp) "" then Raise ValueError
  else
    match float_exponent r2 with
    | Some e =>
        Ok (scale10 (signed neg (digits_val 0 (ip +:+ fp)))
                    (e - Z.of_nat (String.length fp)))
    | None => Raise ValueError
    end.

(** ** Sequences *)

(** Python's index rule: [-len <= i < len], negatives count from the end. *)
Definition norm_index (len : nat) (i : Z) : option nat :=
  if 0 <=? i then
    if i <? Z.of_nat len then Some (Z.to_nat i) else None
  else
    if - Z.of_nat len <=? i then Some (Z.to_nat (Z.of_nat len + i))
    else None.

(** [l[i]] *)
Definition getitem {A} (l : list A) (i : Z) : result A :=
  match norm_index (length l) i with
  | Some n =>
      match l !! n with
      | Some x => Ok x
      | None => Raise IndexError
      end
  | None => Raise IndexError
  end.

(** [l[i] = x] *)
Definition setitem {A} (l : list A) (i : Z) (x : A) : result (list A) :=
  match norm_index (length l) i with
  | Some n => Ok (<[n := x]> l)
  | None => Raise IndexError
  end.

(** [l[i] = f(l[i])], for updates of a nested entry *)
Definition alteritem {A} (l : list A) (i : Z) (f : A -> result A)
  : result (list A) :=
  bind (getitem l i) (fun x => bind (f x) (fun y => setitem l i y)).

(** [numpy.zeros(n)] *)
Definition zeros (n : Z) : result (list Q) :=
  if n <? 0 then Raise ValueError else Ok (repeat 0%Q (Z.to_nat n)).

(** [numpy.zeros((n, m))] *)
Definition zeros2 (n m : Z) : result (list (list Q)) :=
  if (n <? 0) || (m <? 0) then Raise ValueError
  else Ok (repeat (repeat 0%Q (Z.to_nat m)) (Z.to_nat n)).

(** [range(n)] *)
Definition range (n : Z) : list Z := map Z.of_nat (seq 0 (Z.to_nat n)).

(** Truth of a Python integer. *)
Definition truthy (z : Z) : bool := negb (z =? 0).

End Py.

Import Py.

Declare Scope py_scope.
Notation "'let*' x ':=' e 'in' k" := (Py.bind e (fun x => k))
  (at level 10, x pattern, e at level 100, k at level 200) : py_scope.
Notation "e1 ;;; e2" := (Py.bind e1 (fun _ => e2))
  (at level 100, e2 at level 200, right associativity) : py_scope.
Local Open Scope py_scope.

(* ===================================================================== *)
(** * Collaborators of the readers *)
(* ===================================================================== *)

Module Core.

(** Modelled from the spec: [orbkit.core] ([orbit], [lquant], [l_deg]) is
    imported by read.py and is not among the sources. The spec describes
    it as the lookup from a shell-type symbol to its angular-momentum
    quantum number and to the number of basis functions of the shell; the
    Gaussian .log reader insists on Cartesian functions (6D, 10F), which
    fixes the count of a shell of quantum number [l] to
    [(l+1)(l+2)/2]. *)
Definition orbit : string := "spdfghi".

Fixpoint index_of (c : ascii) (s : string) (i : Z) : option Z :=
  match s with
  | EmptyString => None
  | String d s' => if Ascii.eqb c d then Some i else index_of c s' (i + 1)
  end.

(** [lquant[t]] *)
Definition lquant (t : string) : result Z :=
  match t with
  | String c EmptyString => Py.key t (index_of c orbit 0)
  | _ => Raise (KeyError t)
  end.

(** [l_deg(l)] *)
Definition l_deg (l : Z) : Z := (l + 1) * (l + 2) / 2.

(** [orbit[i]] *)
Definition orbit_at (i : Z) : result string :=
  let* c := Py.getitem (list_ascii_of_string orbit) i in
  Ok (String c EmptyString).

(** [l_deg(lquant[t])] *)
Definition degeneracy (t : string) : result Z :=
  let* l := lquant t in Ok (l_deg l).

End Core.

Module QC.

(** An entry of a [geo_info] row: the readers store strings and integers
    side by side. *)
Inductive pyval : Type :=
| VStr (s : string)
| VInt (z : Z).

(** A shell of [ao_spec]: a dictionary with the keys ['atom'], ['type'],
    ['pnum'] and ['coeffs'], any of which may still be missing. *)
Record AO : Type := mkAO {
  ao_atom : option Z;
  ao_type : option string;
  ao_pnum : option Z;
  ao_coeffs : option (list (list Q))
}.

(** An orbital of [mo_spec]: a dictionary with the keys ['coeffs'],
    ['energy'], ['occ_num'] and ['sym']. *)
Record MO : Type := mkMO {
  mo_coeffs : list Q;
  mo_energy : option Q;
  mo_occ_num : option Q;
  mo_sym : option string
}.

(** Modelled from the spec: the class [QCinfo] of [orbkit.qcinfo] is not
    among the sources. The spec's record: total energy (undefined until a
    reader sets it), geometry labels and coordinates, shells, orbitals and
    the optional transition-dipole arrays. *)
Record QCinfo : Type := mkQC {
  geo_info : list (list pyval);
  geo_spec : list (list Q);
  ao_spec : list AO;
  mo_spec : list MO;
  etot : option Q;
  tdm_multiplicity : option (list Q);
  tdm_energy : option (list Q);
  tdm_dipole : option (list (list Q));
  tdm_transition_dipole : option (list (list (list Q)))
}.

(** [QCinfo()] *)
Definition new : QCinfo := mkQC [] [] [] [] None None None None None.

Definition set_geo_info v q :=
  mkQC v (geo_spec q) (ao_spec q) (mo_spec q) (etot q) (tdm_multiplicity q)
       (tdm_energy q) (tdm_dipole q) (tdm_transition_dipole q).
Definition set_geo_spec v q :=
  mkQC (geo_info q) v (ao_spec q) (mo_spec q) (etot q) (tdm_multiplicity q)
       (tdm_energy q) (tdm_dipole q) (tdm_transition_dipole q).
Definition set_ao_spec v q :=
  mkQC (geo_info q) (geo_spec q) v (mo_spec q) (etot q) (tdm_multiplicity q)
       (tdm_energy q) (tdm_dipole q) (tdm_transition_dipole q).
Definition set_mo_spec v q :=
  mkQC (geo_info q) (geo_spec q) (ao_spec q) v (etot q) (tdm_multiplicity q)
       (tdm_energy q) (tdm_dipole q) (tdm_transition_dipole q).
Definition set_etot v q :=
  mkQC (geo_info q) (geo_spec q) (ao_spec q) (mo_spec q) (Some v)
       (tdm_multiplicity q) (tdm_energy q) (tdm_dipole q)
       (tdm_transition_dipole q).

Definition set_mo_coeffs v m :=
  mkMO v (mo_energy m) (mo_occ_num m) (mo_sym m).
Definition set_mo_energy v m :=
  mkMO (mo_coeffs m) (Some v) (mo_occ_num m) (mo_sym m).
Definition set_mo_occ_num v m :=
  mkMO (mo_coeffs m) (mo_energy m) (Some v) (mo_sym m).
Definition set_mo_sym v m :=
  mkMO (mo_coeffs m) (mo_energy m) (mo_occ_num m) (Some v).

(** The closing step shared by three readers:
<<
    mo_range = copy.deepcopy(qc.mo_spec)
    qc.mo_spec = []
    for ii_mo in mo_range:
      if ii_mo['occ_num'] > 0.0000001:
        qc.mo_spec.append(ii_mo)
>> *)
Definition occ_threshold : Q := 1 # 10000000.

Definition keep_occupied (acc : list MO) (m : MO) : result (list MO) :=
  let* o := Py.key "occ_num" (mo_occ_num m) in
  Ok (if Py.fgt o occ_threshold then acc ++ [m] else acc).

Definition occupied_only (q : QCinfo) : result QCinfo :=
  let* kept := Py.foldM keep_occupied (mo_spec q) [] in
  Ok (set_mo_spec kept q).

(** [sum(l_deg(lquant[shell['type']]) for shell in ao_spec)] *)
Definition basis_size (aos : list AO) : result Z :=
  Py.foldM (fun acc a =>
              let* t := Py.key "type" (ao_type a) in
              let* d := Core.degeneracy t in
              Ok (acc + d)) aos 0.

End QC.

(** The files a reader can open: the lines of each existing file. *)
Definition filesystem : Type := string -> option (list string).

(** [open(filename, 'r')] followed by [readlines()] *)
Definition read_lines (fs : filesystem) (filename : string)
  : result (list string) :=
  match fs filename with
  | Some ls => Ok ls
  | None => Raise (IOError "No such file or directory")
  end.

(* ===================================================================== *)
(** * read_molden *)
(* ===================================================================== *)

Module Molden.
Import QC.

(** The values [sec_flag] takes in [read_molden]. *)
Inductive section : Type :=
| SecFalse | SecNone | GeoInfo | AoInfo | MoInfo.

Definition section_eqb (a b : section) : bool :=
  match a, b with
  | SecFalse, SecFalse | SecNone, SecNone | GeoInfo, GeoInfo
  | AoInfo, AoInfo | MoInfo, MoInfo => true
  | _, _ => false
  end.

(** The local variables of [read_molden] that live across lines, and the
    text [display] has received so far (oldest first). *)
Record state : Type := mkState {
  qc : option QCinfo;
  sec_flag : option section;
  aa_to_au : option Q;
  bNew : option bool;
  at_num : option Z;
  ao_num : option Z;
  basis_count : Z;
  out : list string
}.

Definition init : state := mkState None None None None None None 0 [].

Definition set_qc v s :=
  mkState (Some v) (sec_flag s) (aa_to_au s) (bNew s) (at_num s) (ao_num s)
          (basis_count s) (out s).
Definition set_sec_flag v s :=
  mkState (qc s) (Some v) (aa_to_au s) (bNew s) (at_num s) (ao_num s)
          (basis_count s) (out s).
Definition set_aa_to_au v s :=
  mkState (qc s) (sec_flag s) (Some v) (bNew s) (at_num s) (ao_num s)
          (basis_count s) (out s).
Definition set_bNew v s :=
  mkState (qc s) (sec_flag s) (aa_to_au s) (Some v) (at_num s) (ao_num s)
          (basis_count s) (out s).
Definition set_at_num v s :=
  mkState (qc s) (sec_flag s) (aa_to_au s) (bNew s) (Some v) (ao_num s)
          (basis_count s) (out s).
Definition set_ao_num v s :=
  mkState (qc s) (sec_flag s) (aa_to_au s) (bNew s) (at_num s) (Some v)
          (basis_count s) (out s).
Definition set_basis_count v s :=
  mkState (qc s) (sec_flag s) (aa_to_au s) (bNew s) (at_num s) (ao_num s)
          v (out s).
Definition display msg s :=
  mkState (qc s) (sec_flag s) (aa_to_au s) (bNew s) (at_num s) (ao_num s)
          (basis_count s) (out s ++ [msg]).

(** [1/0.52917720859] *)
Definition angstroem_to_bohr : Q := Py.fdiv 1 (52917720859 # 100000000000).

(** The keys of [synonyms]. *)
Inductive mo_key : Type := KSym | KEne | KOccup.

Definition mo_key_of (k : string) : option mo_key :=
  if String.eqb k "Sym" then Some KSym
  else if String.eqb k "Ene" then Some KEne
  else if String.eqb k "Occup" then Some KOccup
  else None.

(** [re.search(r'\d+', s).group()] *)
Fixpoint first_digits (s : string) : option string :=
  match s with
  | EmptyString => None
  | String c s' =>
      if Py.is_digit c then Some (fst (Py.span_digits s))
      else first_digits s'
  end.

(** A row written into a numpy row of length 2: same length, or a single
    value repeated. *)
Definition broadcast2 (v : list Q) : result (list Q) :=
  match v with
  | [x] => Ok [x; x]
  | [x; y] => Ok [x; y]
  | _ => Raise ValueError
  end.

(** Lines of the [[Atoms]] section. *)
Definition geo_line (thisline : list string) (s : state) : result state :=
  let* q := Py.var "qc" (qc s) in
  let q := set_geo_info (geo_info q ++ [map VStr (take 3 thisline)]) q in
  let* xyz := Py.mapM (fun ii => let* x := Py.float ii in
                                 let* a := Py.var "aa_to_au" (aa_to_au s) in
                                 Ok (Py.fmul x a)) (drop 3 thisline) in
  Ok (set_qc (set_geo_spec (geo_spec q ++ [xyz]) q) s).

(** Lines of the [[GTO]] section. *)
Definition ao_line (line : string) (thisline : list string) (s : state)
  : result state :=
  match thisline with
  | [] => Ok (set_bNew true s)
  | _ =>
      let* b := Py.var "bNew" (bNew s) in
      if b then
        let s := set_bNew false s in
        let* t0 := Py.getitem thisline 0 in
        let* n := Py.int t0 in
        Ok (set_ao_num 0 (set_at_num (n - 1) s))
      else if (length thisline =? 3)%nat then
        let s := set_ao_num 0 s in
        let* ao_type := Py.getitem thisline 0 in
        let* t1 := Py.getitem thisline 1 in
        let* pnum := Py.int t1 in
        let* d := Core.degeneracy ao_type in
        let s := set_basis_count (basis_count s + d) s in
        let* q := Py.var "qc" (qc s) in
        let* at_num := Py.var "at_num" (at_num s) in
        let* z := Py.zeros2 pnum 2 in
        let shell := mkAO (Some at_num) (Some ao_type) (Some pnum) (Some z) in
        Ok (set_qc (set_ao_spec (ao_spec q ++ [shell]) q) s)
      else
        let* coeffs := Py.mapM Py.float (Py.split (Py.replace "D" "e" line)) in
        let* q := Py.var "qc" (qc s) in
        let* n := Py.var "ao_num" (ao_num s) in
        let* aos :=
          Py.alteritem (ao_spec q) (-1) (fun a =>
            let* c := Py.key "coeffs" (ao_coeffs a) in
            let* row := broadcast2 coeffs in
            let* c' := Py.setitem c n row in
            Ok (mkAO (ao_atom a) (ao_type a) (ao_pnum a) (Some c'))) in
        Ok (set_ao_num (n + 1) (set_qc (set_ao_spec aos q) s))
  end.

(** The [key=value] lines of the [[MO]] section. *)
Definition mo_info_line (line : string) (s : state) : result state :=
  let* b := Py.var "bNew" (bNew s) in
  let* s :=
    if b then
      let* q := Py.var "qc" (qc s) in
      let* z := Py.zeros (basis_count s) in
      let m := mkMO z None None
                 (Some (Py.fmt_d (Z.of_nat (length (mo_spec q)) + 1) +:+ ".1")) in
      Ok (set_bNew false (set_qc (set_mo_spec (mo_spec q ++ [m]) q) s))
    else Ok s in
  let info := Py.split_on "=" (Py.replace " " "" (Py.replace Py.nl "" line)) in
  let* i0 := Py.getitem info 0 in
  match mo_key_of i0 with
  | None => Ok s
  | Some k =>
      let* i1 := Py.getitem info 1 in
      let* upd :=
        match k with
        | KEne => let* v := Py.float i1 in Ok (set_mo_energy v)
        | KOccup => let* v := Py.float i1 in Ok (set_mo_occ_num v)
        | KSym =>
            if negb (Py.contains "." i1) then
              match first_digits i1 with
              | None => Raise AttributeError
              | Some a =>
                  if String.eqb a i1 then Ok (set_mo_sym (a +:+ ".1"))
                  else Ok (set_mo_sym (Py.replace a (a +:+ ".") i1))
              end
            else Ok (set_mo_sym i1)
        end in
      let* q := Py.var "qc" (qc s) in
      let* mos := Py.alteritem (mo_spec q) (-1) (fun m => Ok (upd m)) in
      Ok (set_qc (set_mo_spec mos q) s)
  end.

(** The text of the diagnostic of a coefficient that does not convert. *)
Definition coefficient_message (index : Z) (sym : string) : string :=
  "Error in coefficient " +:+ Py.fmt_d index +:+ " of MO " +:+ sym +:+ "!"
  +:+ Py.nl +:+ "Setting this coefficient to zero...".

(** The coefficient lines of the [[MO]] section:
<<
    bNew = True
    index = int(thisline[0])-1
    try:
      qc.mo_spec[-1]['coeffs'][index] = float(thisline[1])
    except ValueError:
      display('Error in coefficient %d of MO %s!' % (index,
        qc.mo_spec[-1]['sym']) + '\nSetting this coefficient to zero...')
>> *)
Definition mo_coeff_line (thisline : list string) (s : state) : result state :=
  let s := set_bNew true s in
  let* t0 := Py.getitem thisline 0 in
  let* n := Py.int t0 in
  let index := n - 1 in
  let attempt :=
    let* t1 := Py.getitem thisline 1 in
    let* v := Py.float t1 in
    let* q := Py.var "qc" (qc s) in
    let* mos :=
      Py.alteritem (mo_spec q) (-1) (fun m =>
        let* c := Py.setitem (mo_coeffs m) index v in
        Ok (set_mo_coeffs c m)) in
    Ok (set_qc (set_mo_spec mos q) s) in
  match attempt with
  | Raise ValueError =>
      let* q := Py.var "qc" (qc s) in
      let* m := Py.getitem (mo_spec q) (-1) in
      let* sym := Py.key "sym" (mo_sym m) in
      Ok (display (coefficient_message index sym) s)
  | r => r
  end.

Definition mo_line (line : string) (thisline : list string) (s : state)
  : result state :=
  if Py.contains "=" line then mo_info_line line s
  else if Py.contains "[" line then Ok (set_sec_flag SecNone s)
  else mo_coeff_line thisline s.

(** The body of the loop over the lines of the file. *)
Definition step (s : state) (line : string) : result state :=
  let thisline := Py.split line in
  if Py.contains "[Molden Format]" line then
    Ok (set_sec_flag SecFalse (set_qc QC.new s))
  else if Py.contains "_ENERGY=" line then
    let* t1 := Py.getitem thisline 1 in
    let* e := Py.float t1 in
    let* q := Py.var "qc" (qc s) in
    Ok (set_qc (set_etot e q) s)
  else if Py.contains "[Atoms]" line then
    let s := set_sec_flag GeoInfo s in
    if Py.contains "Angs" line then Ok (set_aa_to_au angstroem_to_bohr s)
    else Ok (set_aa_to_au 1%Q s)
  else if Py.contains "[GTO]" line then
    Ok (set_bNew true (set_sec_flag AoInfo s))
  else if Py.contains "[MO]" line then
    Ok (set_bNew true (set_sec_flag MoInfo s))
  else if Py.contains "[STO]" line then
    Raise (IOError "Not a valid input file")
  else
    let* f := Py.var "sec_flag" (sec_flag s) in
    match f with
    | GeoInfo => geo_line thisline s
    | AoInfo => ao_line line thisline s
    | MoInfo => mo_line line thisline s
    | SecFalse | SecNone => Ok s
    end.

(** The loop over the whole file. *)
Definition run (flines : list string) : result state :=
  Py.foldM step flines init.

(** [read_molden(filename, all_mo)].  A file without the line
    [[Molden Format]] ends in [TypeError]: in the message handed to
    [display], [%] binds tighter than [+] and finds no conversion in the
    second string, so the [raise IOError] after it is never reached. *)
Definition read_molden (fs : filesystem) (filename : string) (all_mo : bool)
  : result QCinfo :=
  let* flines := read_lines fs filename in
  if negb (existsb (String.eqb ("[Molden Format]" +:+ Py.nl)) flines)
  then Raise TypeError
  else
    let* s := run flines in
    let* q := Py.var "qc" (qc s) in
    if negb all_mo then QC.occupied_only q else Ok q.

End Molden.

(* ===================================================================== *)
(** * read_gamess *)
(* ===================================================================== *)

Module Gamess.
Import QC.

(** The values [sec_flag] takes in [read_gamess]. *)
Inductive section : Type :=
| SecFalse | SecNone | GeoInfo | AoInfo | MoInfo | TdmInfo.

(** The values [tdm_flag] takes. *)
Inductive tdm_section : Type :=
| TdmNone | StateInfo | TransitionInfo.

(** An entry of the working list [AO]: a dictionary with the keys
    ['atom_type'], ['type'], ['pnum'] and ['coeffs']. The atom type is the
    token of the last one-token line, or still the empty list the section
    header assigned ([None]). *)
Record shell : Type := mkShell {
  sh_atom_type : option string;
  sh_type : string;
  sh_pnum : Z;
  sh_coeffs : list (list Q)
}.

(** The variables of the geometry section. *)
Record geo_vars : Type := mkGeo {
  aa_to_au : option Q;
  atom_count : option Z;
  geo_skip : Z
}.

(** The variables of the basis-set section. *)
Record ao_vars : Type := mkAoV {
  ao_skip : Z;
  at_type : option (option string);
  new_ao : option bool;
  ao_type : option string
}.

(** The variables of the eigenvector section. *)
Record mo_vars : Type := mkMoV {
  mo_skip : option Z;
  init_mo : option bool;
  mo_new : option bool;
  ene : option bool;
  len_mo : option Z;
  init_len : option Z
}.

(** The variables of the transition-dipole section. [tdm_state_dipole] is
    unbound, [None] or an array. *)
Record tdm_vars : Type := mkTdm {
  tdm_flag : option tdm_section;
  tdm_nstates : option Z;
  tdm_state_dipole : option (option (list (list Q)));
  tdm_state : option Z;
  tdm_trans_states : option (Z * Z);
  tdm_state_multiplicity : option (list Q);
  tdm_state_energy : option (list Q);
  tdm_tdm : option (list (list (list Q)))
}.

(** The local variables of [read_gamess] that live across lines
    ([element_list], [element_count] and [basis_count] are assigned once
    and never read), and what [print] has written. *)
Record state : Type := mkState {
  qc : QCinfo;
  occ : list Z;
  AO : list (list shell);
  sec_flag : section;
  blast : bool;
  gs_multi : option Z;
  geo : geo_vars;
  ao : ao_vars;
  mo : mo_vars;
  tdm : tdm_vars;
  out : list string
}.

Definition init : state :=
  mkState QC.new [] [] SecFalse false None
          (mkGeo None None 0)
          (mkAoV 0 None None None)
          (mkMoV None None None None None None)
          (mkTdm None None None None None None None None)
          [].

Definition set_aa_to_au v r :=
  mkGeo (Some v) (atom_count r) (geo_skip r).
Definition set_atom_count v r :=
  mkGeo (aa_to_au r) (Some v) (geo_skip r).
Definition set_geo_skip v r :=
  mkGeo (aa_to_au r) (atom_count r) v.

Definition set_ao_skip v r :=
  mkAoV v (at_type r) (new_ao r) (ao_type r).
Definition set_at_type v r :=
  mkAoV (ao_skip r) (Some v) (new_ao r) (ao_type r).
Definition set_new_ao v r :=
  mkAoV (ao_skip r) (at_type r) (Some v) (ao_type r).
Definition set_ao_type v r :=
  mkAoV (ao_skip r) (at_type r) (new_ao r) (Some v).

Definition set_mo_skip v r :=
  mkMoV (Some v) (init_mo r) (mo_new r) (ene r) (len_mo r) (init_len r).
Definition set_init_mo v r :=
  mkMoV (mo_skip r) (Some v) (mo_new r) (ene r) (len_mo r) (init_len r).
Definition set_mo_new v r :=
  mkMoV (mo_skip r) (init_mo r) (Some v) (ene r) (len_mo r) (init_len r).
Definition set_ene v r :=
  mkMoV (mo_skip r) (init_mo r) (mo_new r) (Some v) (len_mo r)
    (init_len r).
Definition set_len_mo v r :=
  mkMoV (mo_skip r) (init_mo r) (mo_new r) (ene r) (Some v) (init_len r).
Definition set_init_len v r :=
  mkMoV (mo_skip r) (init_mo r) (mo_new r) (ene r) (len_mo r) (Some v).

Definition set_tdm_flag v r :=
  mkTdm (Some v) (tdm_nstates r) (tdm_state_dipole r) (tdm_state r)
    (tdm_trans_states r) (tdm_state_multiplicity r) (tdm_state_energy r)
    (tdm_tdm r).
Definition set_tdm_nstates v r :=
  mkTdm (tdm_flag r) (Some v) (tdm_state_dipole r) (tdm_state r)
    (tdm_trans_states r) (tdm_state_multiplicity r) (tdm_state_energy r)
    (tdm_tdm r).
Definition set_tdm_state_dipole v r :=
  mkTdm (tdm_flag r) (tdm_nstates r) (Some v) (tdm_state r)
    (tdm_trans_states r) (tdm_state_multiplicity r) (tdm_state_energy r)
    (tdm_tdm r).
Definition set_tdm_state v r :=
  mkTdm (tdm_flag r) (tdm_nstates r) (tdm_state_dipole r) (Some v)
    (tdm_trans_states r) (tdm_state_multiplicity r) (tdm_state_energy r)
    (tdm_tdm r).
Definition set_tdm_trans_states v r :=
  mkTdm (tdm_flag r) (tdm_nstates r) (tdm_state_dipole r) (tdm_state r)
    (Some v) (tdm_state_multiplicity r) (tdm_state_energy r) (tdm_tdm r).
Definition set_tdm_state_multiplicity v r :=
  mkTdm (tdm_flag r) (tdm_nstates r) (tdm_state_dipole r) (tdm_state r)
    (tdm_trans_states r) (Some v) (tdm_state_energy r) (tdm_tdm r).
Definition set_tdm_state_energy v r :=
  mkTdm (tdm_flag r) (tdm_nstates r) (tdm_state_dipole r) (tdm_state r)
    (tdm_trans_states r) (tdm_state_multiplicity r) (Some v) (tdm_tdm r).
Definition set_tdm_tdm v r :=
  mkTdm (tdm_flag r) (tdm_nstates r) (tdm_state_dipole r) (tdm_state r)
    (tdm_trans_states r) (tdm_state_multiplicity r) (tdm_state_energy r)
    (Some v).

Definition set_qc v r :=
  mkState v (occ r) (AO r) (sec_flag r) (blast r) (gs_multi r) (geo r)
    (ao r) (mo r) (tdm r) (out r).
Definition set_occ v r :=
  mkState (qc r) v (AO r) (sec_flag r) (blast r) (gs_multi r) (geo r)
    (ao r) (mo r) (tdm r) (out r).
Definition set_AO v r :=
  mkState (qc r) (occ r) v (sec_flag r) (blast r) (gs_multi r) (geo r)
    (ao r) (mo r) (tdm r) (out r).
Definition set_sec_flag v r :=
  mkState (qc r) (occ r) (AO r) v (blast r) (gs_multi r) (geo r) (ao r)
    (mo r) (tdm r) (out r).
Definition set_blast v r :=
  mkState (qc r) (occ r) (AO r) (sec_flag r) v (gs_multi r) (geo r)
    (ao r) (mo r) (tdm r) (out r).
Definition set_gs_multi v r :=
  mkState (qc r) (occ r) (AO r) (sec_flag r) (blast r) (Some v) (geo r)
    (ao r) (mo r) (tdm r) (out r).
Definition set_geo v r :=
  mkState (qc r) (occ r) (AO r) (sec_flag r) (blast r) (gs_multi r) v
    (ao r) (mo r) (tdm r) (out r).
Definition set_ao v r :=
  mkState (qc r) (occ r) (AO r) (sec_flag r) (blast r) (gs_multi r)
    (geo r) v (mo r) (tdm r) (out r).
Definition set_mo v r :=
  mkState (qc r) (occ r) (AO r) (sec_flag r) (blast r) (gs_multi r)
    (geo r) (ao r) v (tdm r) (out r).
Definition set_tdm v r :=
  mkState (qc r) (occ r) (AO r) (sec_flag r) (blast r) (gs_multi r)
    (geo r) (ao r) (mo r) v (out r).
Definition set_out v r :=
  mkState (qc r) (occ r) (AO r) (sec_flag r) (blast r) (gs_multi r)
    (geo r) (ao r) (mo r) (tdm r) v.

(** Helpers to update one variable of a group. *)
Definition on_geo (f : geo_vars -> geo_vars) (s : state) : state :=
  set_geo (f (geo s)) s.
Definition on_ao (f : ao_vars -> ao_vars) (s : state) : state :=
  set_ao (f (ao s)) s.
Definition on_mo (f : mo_vars -> mo_vars) (s : state) : state :=
  set_mo (f (mo s)) s.
Definition on_tdm (f : tdm_vars -> tdm_vars) (s : state) : state :=
  set_tdm (f (tdm s)) s.

(** [1/0.52917720859] *)
Definition angstroem_to_bohr : Q := Py.fdiv 1 (52917720859 # 100000000000).

(** [0.393430307] *)
Definition debye_to_au : Q := 393430307 # 1000000000.

(** Lines of the geometry section. *)
Definition geo_line (line : string) (thisline : list string) (s : state)
  : result state :=
  if negb (Py.truthy (geo_skip (geo s))) then
    if String.eqb line Py.nl then Ok (set_sec_flag SecNone s)
    else
      let* t0 := Py.getitem thisline 0 in
      let* n := Py.var "atom_count" (atom_count (geo s)) in
      let* t1 := Py.getitem thisline 1 in
      let q := set_geo_info (geo_info (qc s) ++ [[VStr t0; VInt n; VStr t1]])
                            (qc s) in
      let* xyz := Py.mapM (fun ii =>
                    let* x := Py.float ii in
                    let* a := Py.var "aa_to_au" (aa_to_au (geo s)) in
                    Ok (Py.fmul x a)) (drop 2 thisline) in
      let q := set_geo_spec (geo_spec q ++ [xyz]) q in
      Ok (on_geo (set_atom_count (n + 1)) (set_qc q s))
  else Ok (on_geo (set_geo_skip (geo_skip (geo s) - 1)) s).

(** The characters of a string, each as a string. *)
Definition chars (t : string) : list string :=
  map (fun c => String c EmptyString) (list_ascii_of_string t).

(** Opening the shells of one line: one shell per character of
    [ao_type], sharing the exponent [coeffs[0]]. *)
Definition open_shells (at_type : option string) (ao_type : string)
    (coeffs : list Q) (atom : list shell) : result (list shell) :=
  Py.foldM (fun acc '(i_ao, t_ao) =>
              let* e := Py.getitem coeffs 0 in
              let* c := Py.getitem coeffs (1 + i_ao) in
              Ok (acc ++ [mkShell at_type t_ao 1 [[e; c]]]))
           (zip (Py.range (Z.of_nat (length (chars ao_type)))) (chars ao_type))
           atom.

(** One more primitive for each of the last [len(ao_type)] shells. *)
Definition extend_shells (ao_type : string) (coeffs : list Q)
    (atom : list shell) : result (list shell) :=
  let n := Z.of_nat (String.length ao_type) in
  Py.foldM (fun acc i_ao =>
              Py.alteritem acc (- n + i_ao) (fun sh =>
                let* e := Py.getitem coeffs 0 in
                let* c := Py.getitem coeffs (1 + i_ao) in
                Ok (mkShell (sh_atom_type sh) (sh_type sh) (sh_pnum sh + 1)
                            (sh_coeffs sh ++ [[e; c]]))))
           (Py.range n) atom.

(** Lines of the basis-set section. *)
Definition ao_line (line : string) (thisline : list string) (s : state)
  : result state :=
  if negb (Py.truthy (ao_skip (ao s))) then
    if Py.contains " TOTAL NUMBER OF BASIS SET SHELLS" line then
      Ok (set_sec_flag SecNone s)
    else
      match thisline with
      | [t0] =>
          Ok (on_ao (fun a => set_new_ao false (set_at_type (Some t0) a))
                    (set_AO (AO s ++ [[]]) s))
      | _ =>
          let* blank :=
            match thisline with
            | [] => let* b := Py.var "new_ao" (new_ao (ao s)) in Ok (negb b)
            | _ => Ok false
            end in
          if (blank : bool) then Ok (on_ao (set_new_ao true) s)
          else
            let* coeffs := Py.mapM Py.float (drop 3 thisline) in
            let* fresh := Py.var "new_ao" (new_ao (ao s)) in
            if (fresh : bool) then
              let* t1 := Py.getitem thisline 1 in
              let ty := Py.replace "l" "sp" (Py.lower t1) in
              let s := on_ao (set_ao_type ty) s in
              let* aos :=
                match chars ty with
                | [] => Ok (AO s)
                | _ =>
                    let* a := Py.var "at_type" (at_type (ao s)) in
                    Py.alteritem (AO s) (-1) (open_shells a ty coeffs)
                end in
              Ok (on_ao (set_new_ao false) (set_AO aos s))
            else
              let* ty := Py.var "ao_type" (ao_type (ao s)) in
              let* aos :=
                match chars ty with
                | [] => Ok (AO s)
                | _ => Py.alteritem (AO s) (-1) (extend_shells ty coeffs)
                end in
              Ok (set_AO aos s)
      end
  else Ok (on_ao (set_ao_skip (ao_skip (ao s) - 1)) s).

(** [range(init_len, 0, -1)] *)
Definition countdown (n : Z) : list Z := rev (map (fun i => i + 1) (Py.range n)).

(** [for ii in range(init_len,0,-1): qc.mo_spec[-ii] = f(ii, qc.mo_spec[-ii])] *)
Definition each_of_block (init_len : Z) (f : Z -> MO -> result MO)
    (mos : list MO) : result (list MO) :=
  Py.foldM (fun acc ii => Py.alteritem acc (- ii) (f ii))
           (countdown init_len) mos.

(** Lines of the eigenvector section. *)
Definition mo_line (line : string) (thisline : list string) (s : state)
  : result state :=
  let* skip := Py.var "mo_skip" (mo_skip (mo s)) in
  if negb (Py.truthy skip) then
    if Py.contains "...... END OF RHF CALCULATION ......" line then
      Ok (set_sec_flag SecNone s)
    else
      match thisline with
      | [] =>
          let s := if blast s then set_blast false (set_sec_flag SecNone s)
                   else s in
          Ok (on_mo (fun m => set_ene false (set_mo_new false
                                (set_init_mo true m)))
                    (set_blast true s))
      | _ =>
          let* im := Py.var "init_mo" (init_mo (mo s)) in
          let* opening :=
            if (im : bool)
            then let* mn := Py.var "mo_new" (mo_new (mo s)) in Ok (negb mn)
            else Ok false in
          if (opening : bool) then
            let n := Z.of_nat (length thisline) in
            let fresh := repeat (mkMO [] (Some 0%Q) (Some 0%Q) (Some ""))
                                (length thisline) in
            let q := set_mo_spec (mo_spec (qc s) ++ fresh) (qc s) in
            Ok (set_blast false
                  (on_mo (fun m => set_mo_new true (set_init_mo false
                                     (set_init_len n m)))
                         (set_qc q s)))
          else
            let* il := Py.var "init_len" (init_len (mo s)) in
            if Z.of_nat (length thisline) =? il then
              let* e := Py.var "ene" (ene (mo s)) in
              if negb e then
                let* mos := each_of_block il (fun ii m =>
                              let* t := Py.getitem thisline (il - ii) in
                              let* v := Py.float t in
                              Ok (set_mo_energy v m)) (mo_spec (qc s)) in
                Ok (on_mo (set_ene true) (set_qc (set_mo_spec mos (qc s)) s))
              else
                let* (mos, lm) :=
                  Py.foldM (fun '(acc, lm) ii =>
                              let* lm := Py.var "len_mo" lm in
                              let lm := lm + 1 in
                              let* acc := Py.alteritem acc (- ii) (fun m =>
                                let* t := Py.getitem thisline (il - ii) in
                                Ok (set_mo_sym
                                      (Py.fmt_d (lm - 1) +:+ "." +:+ t) m)) in
                              Ok (acc, Some lm))
                           (countdown il) (mo_spec (qc s), len_mo (mo s)) in
                Ok (set_mo (mkMoV (mo_skip (mo s)) (init_mo (mo s))
                                  (mo_new (mo s)) (ene (mo s)) lm
                                  (init_len (mo s)))
                           (set_qc (set_mo_spec mos (qc s)) s))
            else
              let* mn := Py.var "mo_new" (mo_new (mo s)) in
              if negb im && mn then
                let* mos := each_of_block il (fun ii m =>
                              let* t := Py.getitem
                                          (Py.split (Py.sdrop 16 line))
                                          (il - ii) in
                              let* v := Py.float t in
                              Ok (set_mo_coeffs (mo_coeffs m ++ [v]) m))
                            (mo_spec (qc s)) in
                Ok (set_qc (set_mo_spec mos (qc s)) s)
              else Ok s
      end
  else Ok (on_mo (set_mo_skip (skip - 1)) s).

(** [numpy.zeros((n, m, k))] *)
Definition zeros3 (n m k : Z) : result (list (list (list Q))) :=
  if (n <? 0) || (m <? 0) || (k <? 0) then Raise ValueError
  else Ok (repeat (repeat (repeat 0%Q (Z.to_nat k)) (Z.to_nat m))
                  (Z.to_nat n)).

(** [[float(t[i]), float(t[i+1]), float(t[i+2])]] *)
Definition three_floats (t : list string) (i : Z) : result (list Q) :=
  let* a := Py.getitem t i in
  let* x := Py.float a in
  let* b := Py.getitem t (i + 1) in
  let* y := Py.float b in
  let* c := Py.getitem t (i + 2) in
  let* z := Py.float c in
  Ok [x; y; z].

(** [if cond: body] *)
Definition when (c : bool) (body : state -> result state) (s : state)
  : result state :=
  if c then body s else Ok s.

(** Allocation of the arrays on the first line of the section. *)
Definition tdm_allocate (s : state) : result state :=
  let* d := Py.var "tdm_state_dipole" (tdm_state_dipole (tdm s)) in
  match d with
  | Some _ => Ok s
  | None =>
      let* n := Py.var "tdm_nstates" (tdm_nstates (tdm s)) in
      let* dip := Py.zeros2 (n + 1) 3 in
      let* mul := Py.zeros (n + 1) in
      let* en := Py.zeros (n + 1) in
      let* tr := zeros3 n (n + 1) 3 in
      Ok (on_tdm (fun t => set_tdm_tdm tr (set_tdm_state_energy en
                   (set_tdm_state_multiplicity mul
                     (set_tdm_state_dipole (Some dip) t)))) s)
  end.

(** The ground-state dipole, given in debye:
<<
    tdm_state_dipole[0,:] = numpy.multiply([float(line_dummy[4]),
        float(line_dummy[5]), float(line_dummy[6])],0.393430307)
>> *)
Definition tdm_ground_dipole (line : string) (s : state) : result state :=
  let* v := three_floats (Py.split line) 4 in
  let* d := Py.var "tdm_state_dipole" (tdm_state_dipole (tdm s)) in
  let* d := Py.key "array" d in
  let* d' := Py.setitem d 0 (map (fun x => Py.fmul x debye_to_au) v) in
  Ok (on_tdm (set_tdm_state_dipole (Some d')) s).

Definition tdm_state_header (line : string) (s : state) : result state :=
  let* t := Py.getitem (Py.split_on "STATE" line) 1 in
  let* n := Py.int t in
  Ok (on_tdm (fun t => set_tdm_flag StateInfo (set_tdm_state n t)) s).

Definition tdm_ground_transition (line : string) (s : state)
  : result state :=
  let* t := Py.getitem (Py.split_on "EXCITED STATE" line) 1 in
  let* n := Py.int t in
  Ok (on_tdm (fun t => set_tdm_flag TransitionInfo
                         (set_tdm_trans_states (0, n) t)) s).

Definition tdm_excited_transition (line : string) (s : state)
  : result state :=
  let* line_dummy := Py.getitem (Py.split_on "STATES" line) 1 in
  let* a := Py.getitem (Py.split_on "AND" line_dummy) 0 in
  let* i := Py.int a in
  let* b := Py.getitem (Py.split_on "AND" line_dummy) 1 in
  let* j := Py.int b in
  Ok (on_tdm (fun t => set_tdm_flag TransitionInfo
                         (set_tdm_trans_states (i, j) t)) s).

Definition tdm_state_multiplicity_line (line : string) (s : state)
  : result state :=
  let* t := Py.getitem (Py.split_on "=" line) 1 in
  let* m := Py.int t in
  let* arr := Py.var "tdm_state_multiplicity"
                (tdm_state_multiplicity (tdm s)) in
  let* i := Py.var "tdm_state" (tdm_state (tdm s)) in
  let* arr' := Py.setitem arr i (Py.float_of_Z m) in
  Ok (on_tdm (set_tdm_state_multiplicity arr') s).

Definition tdm_state_energy_line (line : string) (s : state)
  : result state :=
  let* t := Py.getitem (Py.split_on "=" line) 1 in
  let* e := Py.float t in
  let* arr := Py.var "tdm_state_energy" (tdm_state_energy (tdm s)) in
  let* i := Py.var "tdm_state" (tdm_state (tdm s)) in
  let* arr' := Py.setitem arr i e in
  Ok (on_tdm (set_tdm_state_energy arr') s).

(** The dipole of an excited state, stored as read:
<<
    tdm_state_dipole[tdm_state,:] = [float(line_dummy[3]),
        float(line_dummy[4]), float(line_dummy[5])]
>> *)
Definition tdm_state_dipole_line (line : string) (s : state)
  : result state :=
  let* v := three_floats (Py.split line) 3 in
  let* d := Py.var "tdm_state_dipole" (tdm_state_dipole (tdm s)) in
  let* d := Py.key "array" d in
  let* i := Py.var "tdm_state" (tdm_state (tdm s)) in
  let* d' := Py.setitem d i v in
  Ok (on_tdm (set_tdm_state_dipole (Some d')) s).

(** A transition dipole, stored as read:
<<
    tdm_tdm[tdm_trans_states[0],tdm_trans_states[1],:] = [...]
>> *)
Definition tdm_transition_dipole_line (line : string) (s : state)
  : result state :=
  let* v := three_floats (Py.split line) 3 in
  let* tr := Py.var "tdm_tdm" (tdm_tdm (tdm s)) in
  let* ij := Py.var "tdm_trans_states" (tdm_trans_states (tdm s)) in
  let* tr' := Py.alteritem tr (fst ij) (fun row => Py.setitem row (snd ij) v) in
  Ok (on_tdm (set_tdm_tdm tr') s).

(** The four tests of the transition-dipole section that change its
    mode, in the order of the source. *)
Definition tdm_markers (line : string) (s : state) : result state :=
  let* s := when (Py.contains
                    "EXPECTATION VALUE DIPOLE MOMENT FOR EXCITED STATE" line)
                 (tdm_state_header line) s in
  let* s := when (Py.contains
                    "TRANSITION FROM THE GROUND STATE TO EXCITED STATE" line)
                 (tdm_ground_transition line) s in
  let* s := when (Py.contains "TRANSITION BETWEEN EXCITED STATES" line)
                 (tdm_excited_transition line) s in
  when (Py.contains
          "CIS NATURAL ORBITAL OCCUPATION NUMBERS FOR EXCITED STATE" line)
       (fun s => Ok (on_tdm (set_tdm_flag TdmNone)
                            (set_sec_flag SecNone s))) s.

(** The tests that read values, by the mode the markers have left. The
    conditions ['STATE DIPOLE' and 'E*BOHR' in line] and
    ['TRANSITION DIPOLE' and 'E*BOHR' in line] are, by the precedence of
    [and], the test ['E*BOHR' in line]. *)
Definition tdm_values (line : string) (s : state) : result state :=
  let* f := Py.var "tdm_flag" (tdm_flag (tdm s)) in
  match f with
  | StateInfo =>
      let* s := when (Py.contains "STATE MULTIPLICITY" line)
                     (tdm_state_multiplicity_line line) s in
      let* s := when (Py.contains "STATE ENERGY" line)
                     (tdm_state_energy_line line) s in
      when (Py.contains "E*BOHR" line) (tdm_state_dipole_line line) s
  | TransitionInfo =>
      when (Py.contains "E*BOHR" line) (tdm_transition_dipole_line line) s
  | TdmNone => Ok s
  end.

(** Lines of the transition-dipole section. *)
Definition tdm_line (line : string) (s : state) : result state :=
  let* s := tdm_allocate s in
  let* s := when (Py.contains "GROUND STATE (SCF) DIPOLE=" line)
                 (tdm_ground_dipole line) s in
  let* s := tdm_markers line s in
  tdm_values line s.

(** [occ.append(int(thisline[-1]))] *)
Definition count_line (thisline : list string) (s : state) : result state :=
  let* t := Py.getitem thisline (-1) in
  let* n := Py.int t in
  Ok (set_occ (occ s ++ [n]) s).

(** The body of the loop over the lines of the file. *)
Definition step (s : state) (line : string) : result state :=
  let thisline := Py.split line in
  if Py.contains " ATOM      ATOMIC                      COORDINATES" line
  then
    let s := set_sec_flag GeoInfo s in
    let s := on_geo (fun g => set_atom_count 1 (set_geo_skip 1 g)) s in
    if Py.contains "(BOHR)" line then Ok (on_geo (set_aa_to_au 1%Q) s)
    else Ok (on_geo (set_aa_to_au angstroem_to_bohr) s)
  else if Py.contains "ATOMIC BASIS SET" line then
    Ok (on_ao (fun a => set_at_type None (set_ao_skip 6 a))
              (set_sec_flag AoInfo s))
  else if Py.contains "          EIGENVECTORS" line then
    Ok (on_mo (fun _ => mkMoV (Some 1) (Some false) (Some false) (Some false)
                              (Some 0) (init_len (mo s)))
              (set_sec_flag MoInfo s))
  else if Py.contains "CIS TRANSITION DIPOLE MOMENTS AND" line then
    Ok (on_tdm (set_tdm_flag TdmNone) (set_sec_flag TdmInfo s))
  else if Py.contains "NUMBER OF STATES REQUESTED" line then
    let* t := Py.getitem (Py.split_on "=" line) 1 in
    let* n := Py.int t in
    Ok (on_tdm (fun t => set_tdm_state_dipole None (set_tdm_nstates n t)) s)
  else if Py.contains "SPIN MULTIPLICITY" line then
    let* t := Py.getitem thisline 3 in
    let* n := Py.int t in
    Ok (set_gs_multi n s)
  else if Py.contains "FINAL" line then
    let* t := Py.getitem thisline 4 in
    let* e := Py.float t in
    Ok (set_qc (set_etot e (qc s)) s)
  else if Py.contains " NUMBER OF OCCUPIED ORBITALS (ALPHA)          =" line
  then count_line thisline s
  else if Py.contains " NUMBER OF OCCUPIED ORBITALS (BETA )          =" line
  then count_line thisline s
  else if Py.contains "          ECP POTENTIALS" line then
    Ok (set_occ [] s)
  else if Py.contains
            " NUMBER OF OCCUPIED ORBITALS (ALPHA) KEPT IS    =" line
  then count_line thisline s
  else if Py.contains
            " NUMBER OF OCCUPIED ORBITALS (BETA ) KEPT IS    =" line
  then count_line thisline s
  else
    match sec_flag s with
    | GeoInfo => geo_line line thisline s
    | AoInfo => ao_line line thisline s
    | MoInfo => mo_line line thisline s
    | TdmInfo => tdm_line line s
    | SecFalse | SecNone => Ok s
    end.

(** The loop over the whole file. *)
Definition run (flines : list string) : result state :=
  Py.foldM step flines init.

(** [a != b] on the ['coeffs'] lists of two shells. *)
Definition row_eqb (a b : list Q) : bool :=
  (length a =? length b)%nat && forallb (fun '(x, y) => Qeq_bool x y) (zip a b).
Definition coeffs_eqb (a b : list (list Q)) : bool :=
  (length a =? length b)%nat && forallb (fun '(x, y) => row_eqb x y) (zip a b).

(** One atom of [AO] against the basis sets kept so far:
<<
    if not AO[ii][0]['atom_type'] in basis_set.keys():
      basis_set[AO[ii][0]['atom_type']] = AO[ii]
    else:
      for jj in range(len(AO[ii])):
        if AO[ii][jj]['coeffs'] != \
           basis_set[AO[ii][0]['atom_type']][jj]['coeffs']:
          raise IOError('Different basis sets for the same atom.')
>>
    An atom type that is still the empty list cannot be a dictionary key
    ([TypeError]). *)
Definition check_atom (basis_set : gmap string (list shell))
    (atom : list shell) : result (gmap string (list shell)) :=
  let* first := Py.getitem atom 0 in
  match sh_atom_type first with
  | None => Raise TypeError
  | Some k =>
      match basis_set !! k with
      | None => Ok (<[k := atom]> basis_set)
      | Some kept =>
          Py.foldM (fun _ jj =>
                      let* a := Py.getitem atom jj in
                      let* b := Py.getitem kept jj in
                      if negb (coeffs_eqb (sh_coeffs a) (sh_coeffs b))
                      then Raise (IOError
                                    "Different basis sets for the same atom.")
                      else Ok tt)
                   (Py.range (Z.of_nat (length atom))) tt ;;;
          Ok basis_set
      end
  end.

(** The check of the whole list [AO]. *)
Definition check_basis (AO : list (list shell))
  : result (gmap string (list shell)) :=
  Py.foldM check_atom AO ∅.

(** The shells of each atom of the geometry, from the basis set kept for
    its label. *)
Definition complement_atom (basis_set : gmap string (list shell))
    (aos : list QC.AO) (row : list pyval) : result (list QC.AO) :=
  let* label := Py.getitem row 0 in
  match label with
  | VInt _ => Raise TypeError
  | VStr k =>
      let* shells := Py.key k (basis_set !! k) in
      Py.foldM (fun acc sh =>
                  let* serial := Py.getitem row 1 in
                  match serial with
                  | VStr _ => Raise TypeError
                  | VInt n =>
                      Ok (acc ++ [mkAO (Some (n - 1)) (Some (sh_type sh))
                                       (Some (sh_pnum sh))
                                       (Some (sh_coeffs sh))])
                  end) shells aos
  end.

Definition complement (basis_set : gmap string (list shell)) (q : QCinfo)
  : result QCinfo :=
  let* aos := Py.foldM (complement_atom basis_set) (geo_info q) (ao_spec q) in
  Ok (set_ao_spec aos q).

(** [occ[0] and occ[1]], [not occ[0] and occ[1]], [not occ[1] and occ[0]] *)
Definition both_left (occ : list Z) : result bool :=
  let* a := Py.getitem occ 0 in
  if Py.truthy a then let* b := Py.getitem occ 1 in Ok (Py.truthy b) else Ok false.
Definition beta_left (occ : list Z) : result bool :=
  let* a := Py.getitem occ 0 in
  if negb (Py.truthy a) then let* b := Py.getitem occ 1 in Ok (Py.truthy b)
  else Ok false.
Definition alpha_left (occ : list Z) : result bool :=
  let* b := Py.getitem occ 1 in
  if negb (Py.truthy b) then let* a := Py.getitem occ 0 in Ok (Py.truthy a)
  else Ok false.

(** [occ[i] -= 1] *)
Definition decrement (i : Z) (occ : list Z) : result (list Z) :=
  Py.alteritem occ i (fun n => Ok (n - 1)).

(** [mo['occ_num'] += x] *)
Definition add_occ (x : Q) (m : MO) : result MO :=
  let* o := Py.key "occ_num" (mo_occ_num m) in
  Ok (set_mo_occ_num (Py.fadd o x) m).

(** The body of the occupation loop, for the orbital [m]: three [if]
    statements in a row, each testing the counters as the one before left
    them.
<<
    if occ[0] and occ[1]:
      qc.mo_spec[ii]['occ_num'] += 2.0
      occ[0] -= 1
      occ[1] -= 1
    if not occ[0] and occ[1]:
      qc.mo_spec[ii]['occ_num'] += 1.0
      occ[1] -= 1
      print 'occ_1'
    if not occ[1] and occ[0]:
      print 'occ_0'
      qc.mo_spec[ii]['occ_num'] += 1.0
      occ[0] -= 1
>> *)
Definition occupy (m : MO) (occ : list Z) (out : list string)
  : result (MO * list Z * list string) :=
  let* c1 := both_left occ in
  let* (m, occ) :=
    if (c1 : bool) then
      let* m := add_occ 2 m in
      let* occ := decrement 0 occ in
      let* occ := decrement 1 occ in
      Ok (m, occ)
    else Ok (m, occ) in
  let* c2 := beta_left occ in
  let* (m, occ, out) :=
    if (c2 : bool) then
      let* m := add_occ 1 m in
      let* occ := decrement 1 occ in
      Ok (m, occ, out ++ ["occ_1"])
    else Ok (m, occ, out) in
  let* c3 := alpha_left occ in
  if (c3 : bool) then
    let* m := add_occ 1 m in
    let* occ := decrement 0 occ in
    Ok (m, occ, out ++ ["occ_0"])
  else Ok (m, occ, out).

(** [for ii in range(len(qc.mo_spec)): ...] *)
Fixpoint assign_occupations (mos : list MO) (occ : list Z) (out : list string)
  : result (list MO * list Z * list string) :=
  match mos with
  | [] => Ok ([], occ, out)
  | m :: rest =>
      let* (m', occ, out) := occupy m occ out in
      let* (rest', occ, out) := assign_occupations rest occ out in
      Ok (m' :: rest', occ, out)
  end.

(** Saving the transition-dipole arrays:
<<
    tdm_state_energy[0]           = qc.etot
    tdm_state_multiplicity[0]     = gs_multi
    qc.tdm_states['multiplicity'] = tdm_state_multiplicity
    qc.tdm_states['energy']       = tdm_state_energy
    qc.tdm_states['dipole']       = tdm_state_dipole
    qc.tdm_transitions['dipole']  = tdm_tdm
>>
    An energy that no line has set cannot be stored in the array
    ([TypeError]). *)
Definition save_tdm (s : state) (q : QCinfo) : result QCinfo :=
  let* en := Py.var "tdm_state_energy" (tdm_state_energy (tdm s)) in
  let* e := match etot q with Some e => Ok e | None => Raise TypeError end in
  let* en := Py.setitem en 0 e in
  let* mul := Py.var "tdm_state_multiplicity"
                (tdm_state_multiplicity (tdm s)) in
  let* g := Py.var "gs_multi" (gs_multi s) in
  let* mul := Py.setitem mul 0 (Py.float_of_Z g) in
  let* dip := Py.var "tdm_state_dipole" (tdm_state_dipole (tdm s)) in
  let* tr := Py.var "tdm_tdm" (tdm_tdm (tdm s)) in
  Ok (mkQC (geo_info q) (geo_spec q) (ao_spec q) (mo_spec q) (etot q)
           (Some mul) (Some en) dip (Some tr)).

(** What follows the loop over the lines. *)
Definition finish (s : state) : result QCinfo :=
  let* basis_set := check_basis (AO s) in
  let* q := complement basis_set (qc s) in
  let* (mos, _, _) := assign_occupations (mo_spec q) (occ s) (out s) in
  save_tdm s (set_mo_spec mos q).

(** [read_gamess(filename, all_mo)]: [all_mo] is accepted and never
    read. *)
Definition read_gamess (fs : filesystem) (filename : string) (all_mo : bool)
  : result QCinfo :=
  let* flines := read_lines fs filename in
  let* s := run flines in
  finish s.

End Gamess.

(* ===================================================================== *)
(** * read_gaussian_fchk *)
(* ===================================================================== *)

Module Fchk.
Import QC.

(** The values [sec_flag] takes in [read_gaussian_fchk]. *)
Inductive section : Type :=
| SecNone | GeoInfo | GeoPos | AoInfo | AoCoeffs | MoEorb | MoCoeffs.

(** The values [index] takes: a number, or one of the keys ['type'],
    ['pnum'] and ['atom'] of a shell. *)
Inductive idx : Type :=
| IdxInt (z : Z)
| IdxType | IdxPnum | IdxAtom.

(** The local variables of [read_gaussian_fchk] that live across lines
    ([count_mo] is assigned once and never read). *)
Record state : Type := mkState {
  qc : QCinfo;
  sec_flag : section;
  el_num : Z * Z;
  index : idx;
  at_num : Z;
  ao_num : Z;
  switch : Z;
  basis_count : Z;
  count : option Z;
  xyz : option (list Q);
  mo_num : option Z
}.

Definition init : state :=
  mkState QC.new SecNone (0, 0) (IdxInt 0) 0 0 0 0 None None None.

Definition set_qc v r :=
  mkState v (sec_flag r) (el_num r) (index r) (at_num r) (ao_num r)
    (switch r) (basis_count r) (count r) (xyz r) (mo_num r).
Definition set_sec_flag v r :=
  mkState (qc r) v (el_num r) (index r) (at_num r) (ao_num r) (switch r)
    (basis_count r) (count r) (xyz r) (mo_num r).
Definition set_el_num v r :=
  mkState (qc r) (sec_flag r) v (index r) (at_num r) (ao_num r)
    (switch r) (basis_count r) (count r) (xyz r) (mo_num r).
Definition set_index v r :=
  mkState (qc r) (sec_flag r) (el_num r) v (at_num r) (ao_num r)
    (switch r) (basis_count r) (count r) (xyz r) (mo_num r).
Definition set_at_num v r :=
  mkState (qc r) (sec_flag r) (el_num r) (index r) v (ao_num r)
    (switch r) (basis_count r) (count r) (xyz r) (mo_num r).
Definition set_ao_num v r :=
  mkState (qc r) (sec_flag r) (el_num r) (index r) (at_num r) v
    (switch r) (basis_count r) (count r) (xyz r) (mo_num r).
Definition set_switch v r :=
  mkState (qc r) (sec_flag r) (el_num r) (index r) (at_num r) (ao_num r)
    v (basis_count r) (count r) (xyz r) (mo_num r).
Definition set_basis_count v r :=
  mkState (qc r) (sec_flag r) (el_num r) (index r) (at_num r) (ao_num r)
    (switch r) v (count r) (xyz r) (mo_num r).
Definition set_count v r :=
  mkState (qc r) (sec_flag r) (el_num r) (index r) (at_num r) (ao_num r)
    (switch r) (basis_count r) (Some v) (xyz r) (mo_num r).
Definition set_xyz v r :=
  mkState (qc r) (sec_flag r) (el_num r) (index r) (at_num r) (ao_num r)
    (switch r) (basis_count r) (count r) (Some v) (mo_num r).
Definition set_mo_num v r :=
  mkState (qc r) (sec_flag r) (el_num r) (index r) (at_num r) (ao_num r)
    (switch r) (basis_count r) (count r) (xyz r) (Some v).

(** [int(thisline[-1])] *)
Definition last_int (thisline : list string) : result Z :=
  let* t := Py.getitem thisline (-1) in Py.int t.

(** [if qc.geo_info == []: for ii in range(at_num):
       qc.geo_info.append(['',ii,''])] *)
Definition allocate_geo (n : Z) (q : QCinfo) : QCinfo :=
  match geo_info q with
  | [] => set_geo_info (map (fun ii => [VStr ""; VInt ii; VStr ""])
                            (Py.range n)) q
  | _ => q
  end.

(** [if qc.ao_spec == []: for ii in range(ao_num): qc.ao_spec.append({})] *)
Definition allocate_ao (n : Z) (q : QCinfo) : QCinfo :=
  match ao_spec q with
  | [] => set_ao_spec (repeat (mkAO None None None None) (Z.to_nat n)) q
  | _ => q
  end.

(** The header of one of the two geometry arrays. *)
Definition geo_header (i : Z) (thisline : list string) (s : state)
  : result state :=
  let s := set_index (IdxInt i) (set_sec_flag GeoInfo s) in
  let* n := last_int thisline in
  let s := set_count 0 (set_at_num n s) in
  Ok (set_qc (allocate_geo n (qc s)) s).

(** The header of one of the three shell arrays. *)
Definition ao_header (i : idx) (thisline : list string) (s : state)
  : result state :=
  let s := set_index i (set_sec_flag AoInfo s) in
  let* n := last_int thisline in
  let s := set_count 0 (set_ao_num n s) in
  Ok (set_qc (allocate_ao n (qc s)) s).

(** The header of the exponents ([sw = 0]) or of the contraction
    coefficients ([sw = 1]). *)
Definition ao_coeffs_header (sw : Z) (thisline : list string) (s : state)
  : result state :=
  let s := set_sec_flag AoCoeffs s in
  let* n := last_int thisline in
  let s := set_index (IdxInt 0) (set_switch sw (set_count 0 (set_ao_num n s))) in
  match ao_spec (qc s) with
  | [] => Raise (IOError
            "Shell types need to be defined before the AO exponents!")
  | first :: _ =>
      match ao_coeffs first with
      | Some _ => Ok s
      | None =>
          let* aos := Py.mapM (fun a =>
                        let* pnum := Py.key "pnum" (ao_pnum a) in
                        let* z := Py.zeros2 pnum 2 in
                        Ok (mkAO (ao_atom a) (ao_type a) (ao_pnum a) (Some z)))
                      (ao_spec (qc s)) in
          Ok (set_qc (set_ao_spec aos (qc s)) s)
      end
  end.

(** The orbitals an [Orbital Energies] line creates:
<<
    if el_num[0] == el_num[1]:
      i = el_num[0]
      occ = 2
    else:
      i = el_num[0 if 'Alpha' in line else 1]
      occ = 1
    for ii in range(mo_num):
      qc.mo_spec.append({'coeffs': numpy.zeros(basis_count),
                      'energy': 0.0,
                      'occ_num': float(occ if ii < i else 0)
                      })
      qc.mo_spec[-1]['sym'] = '%i.1' % len(qc.mo_spec)
>> *)
Definition occupied_count (line : string) (el_num : Z * Z) : Z * Z :=
  if fst el_num =? snd el_num then (fst el_num, 2)
  else ((if Py.contains "Alpha" line then fst el_num else snd el_num), 1).

Definition new_orbital (i occ : Z) (z : list Q) (mos : list MO) (ii : Z)
  : list MO :=
  mos ++ [mkMO z (Some 0%Q)
               (Some (Py.float_of_Z (if ii <? i then occ else 0)))
               (Some (Py.fmt_d (Z.of_nat (length mos) + 1) +:+ ".1"))].

Definition mo_header (line : string) (thisline : list string) (s : state)
  : result state :=
  let s := set_sec_flag MoEorb s in
  let* n := last_int thisline in
  let s := set_count (Z.of_nat (length (mo_spec (qc s))))
             (set_index (IdxInt 0) (set_mo_num n s)) in
  let '(i, occ) := occupied_count line (el_num s) in
  let* mos := Py.foldM (fun mos ii =>
                          let* z := Py.zeros (basis_count s) in
                          Ok (new_orbital i occ z mos ii))
                       (Py.range n) (mo_spec (qc s)) in
  Ok (set_qc (set_mo_spec mos (qc s)) s).

(** A token of one of the two geometry arrays. *)
Definition geo_token (s : state) (ii : string) : result state :=
  let* c := Py.var "count" (count s) in
  let* i := match index s with IdxInt i => Ok i | _ => Raise TypeError end in
  let* rows := Py.alteritem (geo_info (qc s)) c (fun row =>
                 Py.setitem row i (VStr ii)) in
  let s := set_count (c + 1) (set_qc (set_geo_info rows (qc s)) s) in
  Ok (if c + 1 =? at_num s then set_sec_flag SecNone s else s).

(** A token of the coordinates. *)
Definition pos_token (s : state) (ii : string) : result state :=
  let* x := Py.float ii in
  let* v := Py.var "xyz" (xyz s) in
  let v := v ++ [x] in
  if (length v =? 3)%nat then
    let* c := Py.var "count" (count s) in
    let s := set_count (c + 1) (set_xyz []
               (set_qc (set_geo_spec (geo_spec (qc s) ++ [v]) (qc s)) s)) in
    Ok (if c + 1 =? at_num s then set_sec_flag SecNone s else s)
  else Ok (set_xyz v s).

(** A token of one of the three shell arrays. *)
Definition ao_token (s : state) (ii : string) : result state :=
  let* n := Py.int ii in
  let* c := Py.var "count" (count s) in
  let* (s, upd) :=
    match index s with
    | IdxType =>
        let* t := Core.orbit_at (Z.abs n) in
        let* d := Core.degeneracy t in
        Ok (set_basis_count (basis_count s + d) s,
            fun a => mkAO (ao_atom a) (Some t) (ao_pnum a) (ao_coeffs a))
    | IdxAtom =>
        Ok (s, fun a => mkAO (Some (n - 1)) (ao_type a) (ao_pnum a)
                             (ao_coeffs a))
    | IdxPnum =>
        Ok (s, fun a => mkAO (ao_atom a) (ao_type a) (Some n) (ao_coeffs a))
    | IdxInt _ => Raise TypeError
    end in
  let* aos := Py.alteritem (ao_spec (qc s)) c (fun a => Ok (upd a)) in
  let s := set_count (c + 1) (set_qc (set_ao_spec aos (qc s)) s) in
  Ok (if c + 1 =? ao_num s then set_sec_flag SecNone s else s).

(** A token of the exponents or of the contraction coefficients. *)
Definition ao_coeffs_token (s : state) (ii : string) : result state :=
  let* x := Py.float ii in
  let* i := match index s with IdxInt i => Ok i | _ => Raise TypeError end in
  let* c := Py.var "count" (count s) in
  let* aos := Py.alteritem (ao_spec (qc s)) i (fun a =>
                let* m := Py.key "coeffs" (ao_coeffs a) in
                let* m' := Py.alteritem m c (fun row =>
                             Py.setitem row (switch s) x) in
                Ok (mkAO (ao_atom a) (ao_type a) (ao_pnum a) (Some m'))) in
  let s := set_ao_num (ao_num s - 1)
             (set_count (c + 1) (set_qc (set_ao_spec aos (qc s)) s)) in
  let* a := Py.getitem (ao_spec (qc s)) i in
  let* pnum := Py.key "pnum" (ao_pnum a) in
  Ok (if c + 1 =? pnum then set_count 0 (set_index (IdxInt (i + 1)) s)
      else s).

(** A token of the orbital energies. *)
Definition eorb_token (s : state) (ii : string) : result state :=
  let* x := Py.float ii in
  let* c := Py.var "count" (count s) in
  let* mos := Py.alteritem (mo_spec (qc s)) c (fun m =>
                Ok (set_mo_energy x m)) in
  let s := set_count (c + 1) (set_qc (set_mo_spec mos (qc s)) s) in
  let* i := match index s with IdxInt i => Ok i | _ => Raise TypeError end in
  if negb (i =? 0) then
    if basis_count s =? 0 then Raise ZeroDivisionError
    else Ok (if (c + 1) mod basis_count s =? 0 then set_sec_flag SecNone s
             else s)
  else Ok s.

(** A token of the orbital coefficients. *)
Definition coeffs_token (s : state) (ii : string) : result state :=
  let* x := Py.float ii in
  let* i := match index s with IdxInt i => Ok i | _ => Raise TypeError end in
  let* c := Py.var "count" (count s) in
  let* mos := Py.alteritem (mo_spec (qc s)) i (fun m =>
                let* v := Py.setitem (mo_coeffs m) c x in
                Ok (set_mo_coeffs v m)) in
  let s := set_count (c + 1) (set_qc (set_mo_spec mos (qc s)) s) in
  let '(s, i) := if c + 1 =? basis_count s
                 then (set_index (IdxInt (i + 1)) (set_count 0 s), i + 1)
                 else (s, i) in
  if negb (i =? 0) then
    if basis_count s =? 0 then Raise ZeroDivisionError
    else Ok (if i mod basis_count s =? 0 then set_sec_flag SecNone s else s)
  else Ok s.

(** The body of the loop over the lines of the file. *)
Definition step (s : state) (line : string) : result state :=
  let thisline := Py.split line in
  if Py.contains "Number of alpha electrons" line then
    let* t := Py.getitem thisline 5 in
    let* n := Py.int t in
    Ok (set_el_num (n, snd (el_num s)) s)
  else if Py.contains "Number of beta electrons" line then
    let* t := Py.getitem thisline 5 in
    let* n := Py.int t in
    Ok (set_el_num (fst (el_num s), n) s)
  else if Py.contains "Atomic numbers" line then geo_header 0 thisline s
  else if Py.contains "Integer atomic weights" line then
    geo_header 2 thisline s
  else if Py.contains "Total Energy" line then
    let* t := Py.getitem thisline 3 in
    let* e := Py.float t in
    Ok (set_qc (set_etot e (qc s)) s)
  else if Py.contains "Current cartesian coordinates" line then
    let* n := last_int thisline in
    Ok (set_xyz [] (set_count 0 (set_qc (set_geo_spec [] (qc s))
         (set_sec_flag GeoPos (set_at_num (n / 3) s)))))
  else if Py.contains "Shell types" line then ao_header IdxType thisline s
  else if Py.contains "Number of primitives per shell" line then
    ao_header IdxPnum thisline s
  else if Py.contains "Shell to atom map" line then
    ao_header IdxAtom thisline s
  else if Py.contains "Primitive exponents" line then
    ao_coeffs_header 0 thisline s
  else if Py.contains "Contraction coefficients" line then
    ao_coeffs_header 1 thisline s
  else if Py.contains "Orbital Energies" line then mo_header line thisline s
  else if Py.contains "MO coefficients" line then
    let s := set_count 0 (set_sec_flag MoCoeffs s) in
    let* n := last_int thisline in
    Ok (set_mo_num n s)
  else
    match sec_flag s with
    | GeoInfo => Py.foldM geo_token thisline s
    | GeoPos => Py.foldM pos_token thisline s
    | AoInfo => Py.foldM ao_token thisline s
    | AoCoeffs =>
        let* s := Py.foldM ao_coeffs_token thisline s in
        Ok (if negb (Py.truthy (ao_num s)) then set_sec_flag SecNone s
            else s)
    | MoEorb => Py.foldM eorb_token thisline s
    | MoCoeffs => Py.foldM coeffs_token thisline s
    | SecNone => Ok s
    end.

(** The loop over the whole file. *)
Definition run (flines : list string) : result state :=
  Py.foldM step flines init.

(** [read_gaussian_fchk(filename, all_mo)] *)
Definition read_gaussian_fchk (fs : filesystem) (filename : string)
    (all_mo : bool) : result QCinfo :=
  let* flines := read_lines fs filename in
  let* s := run flines in
  if negb all_mo then QC.occupied_only (qc s) else Ok (qc s).

End Fchk.

(* ===================================================================== *)
(** * read_gaussian_log *)
(* ===================================================================== *)

Module GaussianLog.
Import QC.

(** ** The first pass: counting the sections *)

(** The dictionary [count], and the variable [mo_type] the first pass
    leaves behind for the second. *)
Record census : Type := mkCensus {
  geometry : Z;
  geometry_input : Z;
  atomic_orbitals : Z;
  molecular_orbitals : list string;
  states : list string;
  census_mo_type : option string
}.

Definition census_init : census := mkCensus 0 0 0 [] [] None.

Definition cartesian_message : string :=
  "Please apply a Cartesian Gaussian Basis Sets (6D, 10F)!".

(** ['%s orientation:' % orientation] *)
Definition orientation_keyword (orientation : string) : string :=
  orientation +:+ " orientation:".

(** The body of the first loop over the lines. *)
Definition census_step (orientation : string) (c : census) (line : string)
  : result census :=
  let thisline := Py.split line in
  if Py.contains " orientation:" line then
    let c := if Py.contains (orientation_keyword orientation) (Py.lower line)
             then mkCensus (geometry c + 1) (geometry_input c)
                    (atomic_orbitals c) (molecular_orbitals c) (states c)
                    (census_mo_type c)
             else c in
    Ok (if Py.contains "input orientation:" (Py.lower line)
        then mkCensus (geometry c) (geometry_input c + 1)
               (atomic_orbitals c) (molecular_orbitals c) (states c)
               (census_mo_type c)
        else c)
  else if Py.contains "Standard basis:" line
          || Py.contains "General basis read from cards:" line then
    if negb (Py.contains "(6D, 10F)" line)
    then Raise (IOError cartesian_message)
    else Ok c
  else if Py.contains "AO basis set" line then
    Ok (mkCensus (geometry c) (geometry_input c) (atomic_orbitals c + 1)
          (molecular_orbitals c) (states c) (census_mo_type c))
  else if Py.contains "The electronic state is " line then
    let* t := Py.getitem thisline (-1) in
    Ok (mkCensus (geometry c) (geometry_input c) (atomic_orbitals c)
          (molecular_orbitals c) (states c ++ [Py.drop_last t])
          (census_mo_type c))
  else if Py.contains "Orbital Coefficients:" line then
    let* mo_type := Py.getitem thisline 0 in
    let* mos :=
      if negb (String.eqb mo_type "Beta")
      then Ok (molecular_orbitals c ++ [mo_type])
      else Py.setitem (molecular_orbitals c) (-1) "Alpha&Beta" in
    Ok (mkCensus (geometry c) (geometry_input c) (atomic_orbitals c) mos
          (states c) (Some mo_type))
  else Ok c.

Definition take_census (orientation : string) (flines : list string)
  : result census :=
  Py.foldM (census_step orientation) flines census_init.

(** ** The selection *)

(** The keyboard: the lines [raw_input] will return, in order. *)
Definition keyboard : Type := list string.

(** [raw_input(message)] *)
Definition raw_input (kb : keyboard) : result (string * keyboard) :=
  match kb with
  | l :: kb' => Ok (l, kb')
  | [] => Raise EOFError
  end.

Definition selection_message (count : Z) : string :=
  String (ascii_of_nat 9) "Please give an integer from 0 to "
  +:+ Py.fmt_d (count - 1) +:+ ": ".

(** The local function [check_sel]:
<<
    if count == 0:
      raise IndexError
    elif count == 1:
      return 0
    message = '\tPlease give an integer from 0 to %d: ' % (count-1)
    try:
      if interactive:
        i = int(raw_input(message))
      i = range(count)[i]
    except (IndexError,ValueError):
      raise IOError(message.replace(':','!'))
    return i
>> *)
Definition check_sel (count : Z) (i : Z) (interactive : bool) (kb : keyboard)
  : result (Z * keyboard) :=
  if count =? 0 then Raise IndexError
  else if count =? 1 then Ok (0, kb)
  else
    let message := selection_message count in
    let attempt :=
      let* (i, kb) :=
        if interactive then
          let* (l, kb) := raw_input kb in
          let* i := Py.int l in
          Ok (i, kb)
        else Ok (i, kb) in
      let* i := Py.getitem (Py.range count) i in
      Ok (i, kb) in
    match attempt with
    | Raise IndexError | Raise ValueError =>
        Raise (IOError (Py.replace ":" "!" message))
    | r => r
    end.

Definition no_geometry_message : string :=
  "Found no geometry section! Are you sure this is a GAUSSIAN .log file?".
Definition no_basis_message : string :=
  "Write GFINPUT in your GAUSSIAN route section to print"
  +:+ " the basis set information!".

(** The choice of the geometry section: the requested orientation first,
    the input orientation when the requested one does not occur. *)
Definition select_geometry (c : census) (orientation : string) (i_geo : Z)
    (interactive : bool) (kb : keyboard)
  : result (string * Z * keyboard) :=
  match check_sel (geometry c) i_geo interactive kb with
  | Ok (i, kb) => Ok (orientation, i, kb)
  | Raise IndexError =>
      match check_sel (geometry_input c) i_geo interactive kb with
      | Ok (i, kb) => Ok ("input", i, kb)
      | Raise IndexError => Raise (IOError no_geometry_message)
      | Raise e => Raise e
      end
  | Raise e => Raise e
  end.

(** The choice of the basis-set section. *)
Definition select_ao (c : census) (i_ao : Z) (interactive : bool)
    (kb : keyboard) : result (Z * keyboard) :=
  match check_sel (atomic_orbitals c) i_ao interactive kb with
  | Raise IndexError => Raise (IOError no_basis_message)
  | r => r
  end.

(** What the second pass is given. *)
Record selection : Type := mkSelection {
  sel_orientation : string;
  sel_geo : Z;
  sel_ao : Z;
  sel_mo : Z;
  sel_mo_list : list string
}.

Definition select (c : census) (orientation : string) (i_geo i_ao i_mo : Z)
    (interactive : bool) (kb : keyboard) : result selection :=
  let* (orientation, i_geo, kb) :=
    select_geometry c orientation i_geo interactive kb in
  let* (i_ao, kb) := select_ao c i_ao interactive kb in
  let* (i_mo, kb) :=
    check_sel (Z.of_nat (length (molecular_orbitals c))) i_mo interactive kb in
  Ok (mkSelection orientation i_geo i_ao i_mo (molecular_orbitals c)).

(** ** The second pass: reading the chosen sections *)

Inductive section : Type :=
| SecNone | GeoInfo | AoInfo | MoSym | MoInfo.

(** The local variables of the second pass that live across lines ([occ]
    and [eigen] are assigned once and never read). *)
Record state : Type := mkState {
  qc : QCinfo;
  sec_flag : section;
  skip : Z;
  c_geo : Z;
  c_ao : Z;
  c_mo : Z;
  basis_count : Z;
  orb_sym : list string;
  index : list Z;
  mo_type : option string;
  bNew : option bool;
  at_num : option Z;
  ao_num : option Z;
  ao_type : option string;
  add : option string;
  offset : option Z
}.

Definition init (c : census) : state :=
  mkState QC.new SecNone 0 0 0 0 0 [] [] (census_mo_type c)
          None None None None None None.

Definition set_qc v r :=
  mkState v (sec_flag r) (skip r) (c_geo r) (c_ao r) (c_mo r)
    (basis_count r) (orb_sym r) (index r) (mo_type r) (bNew r)
    (at_num r) (ao_num r) (ao_type r) (add r) (offset r).
Definition set_sec_flag v r :=
  mkState (qc r) v (skip r) (c_geo r) (c_ao r) (c_mo r) (basis_count r)
    (orb_sym r) (index r) (mo_type r) (bNew r) (at_num r) (ao_num r)
    (ao_type r) (add r) (offset r).
Definition set_skip v r :=
  mkState (qc r) (sec_flag r) v (c_geo r) (c_ao r) (c_mo r)
    (basis_count r) (orb_sym r) (index r) (mo_type r) (bNew r)
    (at_num r) (ao_num r) (ao_type r) (add r) (offset r).
Definition set_c_geo v r :=
  mkState (qc r) (sec_flag r) (skip r) v (c_ao r) (c_mo r)
    (basis_count r) (orb_sym r) (index r) (mo_type r) (bNew r)
    (at_num r) (ao_num r) (ao_type r) (add r) (offset r).
Definition set_c_ao v r :=
  mkState (qc r) (sec_flag r) (skip r) (c_geo r) v (c_mo r)
    (basis_count r) (orb_sym r) (index r) (mo_type r) (bNew r)
    (at_num r) (ao_num r) (ao_type r) (add r) (offset r).
Definition set_c_mo v r :=
  mkState (qc r) (sec_flag r) (skip r) (c_geo r) (c_ao r) v
    (basis_count r) (orb_sym r) (index r) (mo_type r) (bNew r)
    (at_num r) (ao_num r) (ao_type r) (add r) (offset r).
Definition set_basis_count v r :=
  mkState (qc r) (sec_flag r) (skip r) (c_geo r) (c_ao r) (c_mo r) v
    (orb_sym r) (index r) (mo_type r) (bNew r) (at_num r) (ao_num r)
    (ao_type r) (add r) (offset r).
Definition set_orb_sym v r :=
  mkState (qc r) (sec_flag r) (skip r) (c_geo r) (c_ao r) (c_mo r)
    (basis_count r) v (index r) (mo_type r) (bNew r) (at_num r)
    (ao_num r) (ao_type r) (add r) (offset r).
Definition set_index v r :=
  mkState (qc r) (sec_flag r) (skip r) (c_geo r) (c_ao r) (c_mo r)
    (basis_count r) (orb_sym r) v (mo_type r) (bNew r) (at_num r)
    (ao_num r) (ao_type r) (add r) (offset r).
Definition set_mo_type v r :=
  mkState (qc r) (sec_flag r) (skip r) (c_geo r) (c_ao r) (c_mo r)
    (basis_count r) (orb_sym r) (index r) (Some v) (bNew r) (at_num r)
    (ao_num r) (ao_type r) (add r) (offset r).
Definition set_bNew v r :=
  mkState (qc r) (sec_flag r) (skip r) (c_geo r) (c_ao r) (c_mo r)
    (basis_count r) (orb_sym r) (index r) (mo_type r) (Some v)
    (at_num r) (ao_num r) (ao_type r) (add r) (offset r).
Definition set_at_num v r :=
  mkState (qc r) (sec_flag r) (skip r) (c_geo r) (c_ao r) (c_mo r)
    (basis_count r) (orb_sym r) (index r) (mo_type r) (bNew r) (Some v)
    (ao_num r) (ao_type r) (add r) (offset r).
Definition set_ao_num v r :=
  mkState (qc r) (sec_flag r) (skip r) (c_geo r) (c_ao r) (c_mo r)
    (basis_count r) (orb_sym r) (index r) (mo_type r) (bNew r)
    (at_num r) (Some v) (ao_type r) (add r) (offset r).
Definition set_ao_type v r :=
  mkState (qc r) (sec_flag r) (skip r) (c_geo r) (c_ao r) (c_mo r)
    (basis_count r) (orb_sym r) (index r) (mo_type r) (bNew r)
    (at_num r) (ao_num r) (Some v) (add r) (offset r).
Definition set_add v r :=
  mkState (qc r) (sec_flag r) (skip r) (c_geo r) (c_ao r) (c_mo r)
    (basis_count r) (orb_sym r) (index r) (mo_type r) (bNew r)
    (at_num r) (ao_num r) (ao_type r) (Some v) (offset r).
Definition set_offset v r :=
  mkState (qc r) (sec_flag r) (skip r) (c_geo r) (c_ao r) (c_mo r)
    (basis_count r) (orb_sym r) (index r) (mo_type r) (bNew r)
    (at_num r) (ao_num r) (ao_type r) (add r) (Some v).

(** [1/0.52917720859] *)
Definition aa_to_au : Q := Py.fdiv 1 (52917720859 # 100000000000).

(** The number of entries of [orb_sym[:i+1]] equal to [orb_sym[i]]. *)
Definition occurrences (l : list string) (x : string) : Z :=
  Z.of_nat (length (filter (fun y => String.eqb y x = true) l)).

(** The orbitals of the chosen section, one per symmetry label. *)
Definition labelled_orbitals (basis_count : Z) (orb_sym : list string)
  : result (list MO) :=
  Py.foldM (fun mos i =>
              let* x := Py.getitem orb_sym i in
              let c := occurrences (take (Z.to_nat (i + 1)) orb_sym) x in
              let* z := Py.zeros basis_count in
              Ok (mos ++ [mkMO z (Some 0%Q) None
                               (Some (Py.fmt_d c +:+ "." +:+ x))]))
           (Py.range (Z.of_nat (length orb_sym))) [].

(** [l * n] *)
Definition times {A} (l : list A) (n : Z) : list A :=
  concat (repeat l (Z.to_nat n)).

(** The header of an orbital section. *)
Definition mo_header (sel : selection) (s : state) : result state :=
  let* s :=
    if sel_mo sel =? c_mo s then
      let s := set_sec_flag MoInfo s in
      let* mo_type := Py.getitem (sel_mo_list sel) (sel_mo sel) in
      let s := set_add "" (set_offset 0
                 (set_qc (set_mo_spec [] (qc s)) (set_mo_type mo_type s))) in
      let s :=
        match orb_sym s with
        | [] =>
            let s := if Py.contains "Alpha" mo_type then set_add "(a)" s
                     else s in
            let a := default "" (add s) in
            let s := set_orb_sym (times ["A1" +:+ a] (basis_count s)) s in
            if Py.contains "Beta" mo_type then
              set_orb_sym (orb_sym s ++ times ["A1(b)"] (basis_count s))
                          (set_add "(b)" s)
            else s
        | _ => s
        end in
      let* mos := labelled_orbitals (basis_count s) (orb_sym s) in
      Ok (set_qc (set_mo_spec mos (qc s)) s)
    else Ok s in
  let* mo_type := Py.var "mo_type" (mo_type s) in
  let s := if negb (String.eqb mo_type "Beta") then set_c_mo (c_mo s + 1) s
           else s in
  Ok (set_bNew true s).

(** Lines of the chosen geometry section. *)
Definition geo_line (thisline : list string) (next : option string)
    (s : state) : result state :=
  if negb (Py.truthy (skip s)) then
    let* t1 := Py.getitem thisline 1 in
    let* t0 := Py.getitem thisline 0 in
    let q := set_geo_info (geo_info (qc s) ++ [[VStr t1; VStr t0; VStr t1]])
                          (qc s) in
    let* xyz := Py.mapM (fun ij => let* x := Py.float ij in
                                   Ok (Py.fmul aa_to_au x))
                        (drop 3 thisline) in
    let s := set_qc (set_geo_spec (geo_spec q ++ [xyz]) q) s in
    match next with
    | None => Raise IndexError
    | Some l => Ok (if Py.contains "-----------" l then set_sec_flag SecNone s
                    else s)
    end
  else Ok (set_skip (skip s - 1) s).

(** Lines of the chosen basis-set section. *)
Definition ao_line (line : string) (thisline : list string)
    (next : option string) (s : state) : result state :=
  if Py.contains " ****" line then
    let s := set_bNew true s in
    match next with
    | None => Raise IndexError
    | Some l => Ok (match Py.split l with
                    | [] => set_sec_flag SecNone s
                    | _ => s
                    end)
    end
  else
    let* b := Py.var "bNew" (bNew s) in
    if (b : bool) then
      let s := set_bNew false s in
      let* t0 := Py.getitem thisline 0 in
      let* n := Py.int t0 in
      Ok (set_ao_num 0 (set_at_num (n - 1) s))
    else if (length thisline =? 4)%nat then
      let s := set_ao_num 0 s in
      let* t0 := Py.getitem thisline 0 in
      let ty := Py.lower t0 in
      let s := set_ao_type ty s in
      let* t1 := Py.getitem thisline 1 in
      let* pnum := Py.int t1 in
      Py.foldM (fun s i_ao =>
                  let* d := Core.degeneracy i_ao in
                  let s := set_basis_count (basis_count s + d) s in
                  let* a := Py.var "at_num" (at_num s) in
                  let* z := Py.zeros2 pnum 2 in
                  let sh := mkAO (Some a) (Some i_ao) (Some pnum) (Some z) in
                  Ok (set_qc (set_ao_spec (ao_spec (qc s) ++ [sh]) (qc s)) s))
               (Gamess.chars ty) s
    else
      let* coeffs := Py.mapM Py.float (Py.split (Py.replace "D" "e" line)) in
      let* ty := Py.var "ao_type" (ao_type s) in
      let n := Z.of_nat (String.length ty) in
      let* s := Py.foldM (fun s i_ao =>
                  let* e := Py.getitem coeffs 0 in
                  let* c := Py.getitem coeffs (1 + i_ao) in
                  let* k := Py.var "ao_num" (ao_num s) in
                  let* aos := Py.alteritem (ao_spec (qc s)) (- n + i_ao)
                    (fun a =>
                       let* m := Py.key "coeffs" (ao_coeffs a) in
                       let* m' := Py.setitem m k [e; c] in
                       Ok (mkAO (ao_atom a) (QC.ao_type a) (ao_pnum a)
                                (Some m'))) in
                  Ok (set_qc (set_ao_spec aos (qc s)) s))
               (Py.range n) s in
      let* k := Py.var "ao_num" (ao_num s) in
      Ok (set_ao_num (k + 1) s).

(** Lines of the symmetry section. *)
Definition sym_line (line : string) (s : state) : result state :=
  if Py.contains "The electronic state is" line then
    Ok (set_sec_flag SecNone s)
  else
    let info := Py.split (Py.replace ")" "" (Py.replace "(" ""
                  (Py.sdrop 18 line))) in
    let s := if Py.contains "Alpha" line then set_add "(a)" s
             else if Py.contains "Beta" line then set_add "(b)" s
             else s in
    let* a := Py.var "add" (add s) in
    Ok (set_orb_sym (orb_sym s ++ map (fun i => i +:+ a) info) s).

(** [for i,j in enumerate(index): qc.mo_spec[j] = f(i, qc.mo_spec[j])] *)
Definition each_column (index : list Z) (f : Z -> MO -> result MO)
    (mos : list MO) : result (list MO) :=
  Py.foldM (fun acc '(i, j) => Py.alteritem acc j (f i))
           (zip (Py.range (Z.of_nat (length index))) index) mos.

(** Lines of the chosen orbital section. *)
Definition mo_line (line : string) (s : state) : result state :=
  let info := Py.split (Py.stake 21 line) in
  let coeffs := Py.split (Py.sdrop 21 line) in
  match info with
  | [] =>
      let* b := Py.var "bNew" (bNew s) in
      if (b : bool) then
        match coeffs with
        | [] => Ok (set_bNew false (set_index [] s))
        | _ =>
            let* off := Py.var "offset" (offset s) in
            Ok (set_bNew false
                  (set_index (map (fun i => off + i)
                                  (Py.range (Z.of_nat (length coeffs)))) s))
        end
      else
        let* mos := each_column (index s) (fun i m =>
                      let* t := Py.getitem coeffs i in
                      let o := if Py.contains "O" t then 1 else 0 in
                      let* ty := Py.var "mo_type" (mo_type s) in
                      Ok (set_mo_occ_num
                            (Py.float_of_Z
                               (if negb (Py.contains ty "Alpha&Beta")
                                then o * 2 else o)) m))
                    (mo_spec (qc s)) in
        Ok (set_qc (set_mo_spec mos (qc s)) s)
  | i0 :: _ =>
      if existsb (String.eqb "Eigenvalues") info then
        let* ty := Py.var "mo_type" (mo_type s) in
        let* mos := each_column (index s) (fun i m =>
                      let* t := Py.getitem coeffs i in
                      let* v := Py.float t in
                      Ok (if String.eqb ty "Natural" then set_mo_occ_num v m
                          else set_mo_energy v m))
                    (mo_spec (qc s)) in
        Ok (set_qc (set_mo_spec mos (qc s)) s)
      else
        let* mos := each_column (index s) (fun i m =>
                      let* t := Py.getitem coeffs i in
                      let* v := Py.float t in
                      let* n := Py.int i0 in
                      let* c := Py.setitem (mo_coeffs m) (n - 1) v in
                      Ok (set_mo_coeffs c m))
                    (mo_spec (qc s)) in
        let s := set_qc (set_mo_spec mos (qc s)) s in
        let* n := Py.int i0 in
        if n =? basis_count s then
          let s := set_bNew true s in
          let* last := Py.getitem (index s) (-1) in
          let s := set_offset (last + 1) s in
          Ok (if last + 1 =? Z.of_nat (length (orb_sym s))
              then set_orb_sym [] (set_sec_flag SecNone s)
              else s)
        else Ok s
  end.

(** The body of the second loop over the lines; [next] is the line
    [flines[il+1]], if there is one. *)
Definition step (sel : selection) (s : state) (line : string)
    (next : option string) : result state :=
  let thisline := Py.split line in
  if Py.contains (orientation_keyword (sel_orientation sel)) (Py.lower line)
  then
    let s := if sel_geo sel =? c_geo s
             then set_sec_flag GeoInfo
                    (set_qc (set_geo_spec [] (set_geo_info [] (qc s))) s)
             else s in
    Ok (set_skip 4 (set_c_geo (c_geo s + 1) s))
  else if Py.contains "Standard basis:" line then
    if negb (Py.contains "(6D, 10F)" line)
    then Raise (IOError cartesian_message)
    else Ok s
  else if Py.contains "AO basis set" line then
    let s := if sel_ao sel =? c_ao s
             then set_sec_flag AoInfo (set_qc (set_ao_spec [] (qc s)) s)
             else s in
    Ok (set_bNew true (set_basis_count 0 (set_c_ao (c_ao s + 1) s)))
  else if Py.contains "Orbital symmetries:" line then
    Ok (set_orb_sym [] (set_add "" (set_sec_flag MoSym s)))
  else if Py.contains "Orbital Coefficients:" line then mo_header sel s
  else if Py.contains "E(" line then
    let* a := Py.getitem (Py.split_on "=" line) 1 in
    let* b := Py.getitem (Py.split a) 0 in
    let* e := Py.float b in
    Ok (set_qc (set_etot e (qc s)) s)
  else
    match sec_flag s with
    | GeoInfo => geo_line thisline next s
    | AoInfo => ao_line line thisline next s
    | MoSym => sym_line line s
    | MoInfo => mo_line line s
    | SecNone => Ok s
    end.

(** The second loop over the lines. *)
Fixpoint run (sel : selection) (flines : list string) (s : state)
  : result state :=
  match flines with
  | [] => Ok s
  | line :: rest =>
      let* s := step sel s line (head rest) in
      run sel rest s
  end.

(** [read_gaussian_log(filename, all_mo, orientation, i_geo, i_ao, i_mo,
    interactive)] *)
Definition read_gaussian_log (fs : filesystem) (kb : keyboard)
    (filename : string) (all_mo : bool) (orientation : string)
    (i_geo i_ao i_mo : Z) (interactive : bool) : result QCinfo :=
  let* flines := read_lines fs filename in
  let* c := take_census orientation flines in
  let* sel := select c orientation i_geo i_ao i_mo interactive kb in
  let* s := run sel flines (init c) in
  if negb all_mo then QC.occupied_only (qc s) else Ok (qc s).

End GaussianLog.

(* ===================================================================== *)
(** * main_read *)
(* ===================================================================== *)

Module Dispatch.

(** The values of the dictionary [reader]. *)
Inductive reader : Type :=
| ReadMolden | ReadGamess | ReadGaussianLog | ReadGaussianFchk.

(** The list [itypes]. *)
Definition itypes : list string :=
  ["molden"; "gamess"; "gaussian.log"; "gaussian.fchk"].

(** The dictionary [reader]. *)
Definition readers : gmap string reader :=
  list_to_map [ ("molden", ReadMolden);
                ("gamess", ReadGamess);
                ("gaussian.log", ReadGaussianLog);
                ("gaussian.fchk", ReadGaussianFchk) ].

(** [reader[itype]] *)
Definition lookup_reader (itype : string) : result reader :=
  Py.key itype (readers !! itype).

(** [r(filename, all_mo=all_mo)]; the .log reader runs with the defaults of
    its other parameters. *)
Definition call (r : reader) (fs : filesystem) (kb : GaussianLog.keyboard)
    (filename : string) (all_mo : bool) : result QC.QCinfo :=
  match r with
  | ReadMolden => Molden.read_molden fs filename all_mo
  | ReadGamess => Gamess.read_gamess fs filename all_mo
  | ReadGaussianLog =>
      GaussianLog.read_gaussian_log fs kb filename all_mo "standard"
                                    (-1) (-1) (-1) true
  | ReadGaussianFchk => Fchk.read_gaussian_fchk fs filename all_mo
  end.

(** [main_read(filename, itype, all_mo)] *)
Definition main_read (fs : filesystem) (kb : GaussianLog.keyboard)
    (filename itype : string) (all_mo : bool) : result QC.QCinfo :=
  let* r := lookup_reader itype in
  call r fs kb filename all_mo.

End Dispatch.

(* ===================================================================== *)
(** * Sample files *)
(* ===================================================================== *)

Module Samples.

(** A line of text with its newline. *)
Definition ln (s : string) : string := s +:+ Py.nl.

(** The state a run ends in, or [d] when it raises. *)
Definition final {A} (d : A) (r : result A) : A :=
  match r with
  | Ok a => a
  | Raise _ => d
  end.

(** A file system holding one file, whatever name is asked for. *)
Definition only (flines : list string) : filesystem := fun _ => Some flines.

(** The pieces of a Gamess-US output of H2 with a CIS section: the
    announced numbers of occupied alpha and beta orbitals and the
    geometry, the basis-set section, and the rest. *)
Definition gamess_head (alpha beta : string) : list string := map ln
  [ " NUMBER OF STATES REQUESTED =  1";
    " SPIN MULTIPLICITY                            =    1";
    " NUMBER OF OCCUPIED ORBITALS (ALPHA)          =    " +:+ alpha;
    " NUMBER OF OCCUPIED ORBITALS (BETA )          =    " +:+ beta;
    " ATOM      ATOMIC                      COORDINATES (BOHR)";
    "           CHARGE         X                   Y                   Z";
    " H           1.0     0.0000000000        0.0000000000        0.0000000000";
    " H           1.0     0.0000000000        0.0000000000        1.4000000000";
    "" ].

Definition gamess_basis_banner : list string := map ln
  [ "     ATOMIC BASIS SET";
    "     ----------------";
    " THE CONTRACTED PRIMITIVE FUNCTIONS HAVE BEEN UNNORMALIZED";
    " THE CONTRACTED BASIS FUNCTIONS ARE NOW NORMALIZED TO UNITY";
    "";
    "  SHELL TYPE  PRIMITIVE        EXPONENT          CONTRACTION COEFFICIENT(S)";
    "" ].

Definition gamess_basis_end : list string := map ln
  [ " TOTAL NUMBER OF BASIS SET SHELLS             =    2" ].

(** One hydrogen atom with the two-primitive [S] shell. *)
Definition gamess_h_minimal : list string := map ln
  [ " H";
    "";
    "      1   S       1             3.4252509    0.154328967295";
    "      1   S       2             0.6239137    0.535328142282";
    "" ].

(** One hydrogen atom with that shell and one more [S] shell; the
    parameter is the contraction coefficient of the second shell. *)
Definition gamess_h_split (c : string) : list string := map ln
  [ " H";
    "";
    "      1   S       1             3.4252509    0.154328967295";
    "      1   S       2             0.6239137    0.535328142282";
    "";
    "      2   S       3             0.1688554    " +:+ c;
    "" ].

Definition gamess_tail : list string := map ln
  [ "          EIGENVECTORS";
    "          ------------";
    "";
    "                      1          2";
    "                   -0.5      0.6";
    "                     A          A";
    "    1  H  1  S    0.5  1.1";
    "    2  H  2  S    0.5 -1.1";
    " ...... END OF RHF CALCULATION ......";
    " FINAL RHF ENERGY IS       -1.1 AFTER   5 ITERATIONS";
    " CIS TRANSITION DIPOLE MOMENTS AND";
    " GROUND STATE (SCF) DIPOLE=  0.0  0.0  1.0 DEBYE";
    " EXPECTATION VALUE DIPOLE MOMENT FOR EXCITED STATE    1";
    " STATE MULTIPLICITY =    1";
    " STATE ENERGY =     -0.8";
    " STATE DIPOLE =   0.1  0.2  0.3 E*BOHR";
    " TRANSITION FROM THE GROUND STATE TO EXCITED STATE    1";
    " TRANSITION DIPOLE =   0.4  0.5  0.6  E*BOHR" ].

(** The output with the given atoms in its basis-set section. *)
Definition gamess_with (alpha beta : string) (atoms : list string)
  : list string :=
  gamess_head alpha beta ++ gamess_basis_banner ++ atoms ++ gamess_basis_end
  ++ gamess_tail.

(** H2 in the minimal basis. *)
Definition gamess_h2 (alpha beta : string) : list string :=
  gamess_with alpha beta (gamess_h_minimal ++ gamess_h_minimal).

(** The state of [read_gamess] on the H2 output just before the line of
    the ground-state dipole, and just after it. *)
Definition gamess_tdm_s0 : Gamess.state :=
  Eval vm_compute in
    final Gamess.init
      (Gamess.run (gamess_head "1" "1" ++ gamess_basis_banner
                   ++ gamess_h_minimal ++ gamess_h_minimal
                   ++ gamess_basis_end ++ take 11 gamess_tail)).
Definition gamess_tdm_s1 : Gamess.state :=
  Eval vm_compute in
    final Gamess.init
      (Gamess.step gamess_tdm_s0 (default "" (gamess_tail !! 11%nat))).

(** The lines of [gamess_tail], one by one. *)
Definition gamess_tail_line (n : nat) : string :=
  default "" (gamess_tail !! n).

(** A molden file of one hydrogen atom with one [s] shell and two
    orbitals; the parameter is the list of lines of the second orbital's
    coefficients. *)
Definition molden_h (second : list string) : list string := map ln
  ([ "[Molden Format]";
     "[Atoms] AU";
     "H 1 1 0.0 0.0 0.0";
     "[GTO]";
     "1 0";
     "s 2 1.0";
     " 0.1D+01 0.5";
     " 2.0 0.5";
     "";
     "[MO]";
     "Sym= 1.1";
     "Ene= -0.5";
     "Occup= 2.0";
     "1 0.7";
     "Sym= 2.1";
     "Ene= 0.3";
     "Occup= 1.0" ] ++ second).

(** A formatted checkpoint file of H2, in three parts: what precedes the
    [Orbital Energies] line, that line, and what follows it. *)
Definition fchk_before : list string := map ln
  [ "Number of alpha electrons                  I                1";
    "Number of beta electrons                   I                1";
    "Atomic numbers                             I   N=           2";
    "           1           1";
    "Current cartesian coordinates              R   N=           6";
    "  0.0  0.0  0.0  0.0  0.0";
    "  1.4";
    "Shell types                                I   N=           2";
    "           0           0";
    "Number of primitives per shell             I   N=           2";
    "           2           1";
    "Shell to atom map                          I   N=           2";
    "           1           2";
    "Primitive exponents                        R   N=           3";
    "  3.0 0.5 1.5";
    "Contraction coefficients                   R   N=           3";
    "  0.1 0.2 1.0";
    "Total Energy                               R     -1.1" ].

Definition fchk_energies : string :=
  ln "Alpha Orbital Energies                     R   N=           2".

Definition fchk_after : list string := map ln
  [ " -0.5  0.6";
    "Alpha MO coefficients                      R   N=           4";
    "  0.5  0.5  1.1 -1.1" ].

Definition fchk_h2 : list string :=
  fchk_before ++ [fchk_energies] ++ fchk_after.

(** The states of [read_gaussian_fchk] before the line, after it and at
    the end of the file. *)
Definition fchk_s0 : Fchk.state :=
  Eval vm_compute in final Fchk.init (Fchk.run fchk_before).
Definition fchk_s1 : Fchk.state :=
  Eval vm_compute in final Fchk.init (Fchk.step fchk_s0 fchk_energies).
Definition fchk_s2 : Fchk.state :=
  Eval vm_compute in
    final Fchk.init (Py.foldM Fchk.step fchk_after fchk_s1).

(** A Gaussian .log file of one hydrogen atom that prints its geometry
    three times in standard orientation (z = 1, 2, 3 Angstroem) and once
    more in input orientation (z = 9): what precedes the third standard
    header, that header, and what follows it. *)
Definition log_geometry_block (title z : string) : list string := map ln
  [ title;
    " ---------------------------------------------------------------------";
    " Center     Atomic      Atomic             Coordinates (Angstroms)";
    " Number     Number       Type             X           Y           Z";
    " ---------------------------------------------------------------------";
    "      1          1           0        0.000000    0.000000    " +:+ z;
    " ---------------------------------------------------------------------" ].

Definition log_standard_title : string :=
  "                         Standard orientation:".
Definition log_input_title : string :=
  "                          Input orientation:".

Definition log_pre : list string :=
  log_geometry_block log_standard_title "1.000000"
  ++ log_geometry_block log_standard_title "2.000000".

Definition log_hdr : string := ln log_standard_title.

Definition log_post : list string :=
  tail (log_geometry_block log_standard_title "3.000000")
  ++ log_geometry_block log_input_title "9.000000"
  ++ map ln
  [ " Standard basis: STO-3G (6D, 10F)";
    " AO basis set in the form of general basis input (Overlap normalization):";
    "      1 0";
    " S   2 1.00       0.000000000000";
    "      0.3425250914D+01  0.1543289673D+00";
    "      0.6239137298D+00  0.5353281423D+00";
    " ****";
    "";
    " SCF Done:  E(RHF) =  -0.46  A.U.";
    "     Molecular Orbital Coefficients:";
    "                           1";
    "                           O";
    "     Eigenvalues --    -0.5";
    "   1 1   H  1S          1.00000" ].

Definition log_h : list string := log_pre ++ log_hdr :: log_post.


(** An orbital as the eigenvector section creates it. *)
Definition blank_orbital : QC.MO := QC.mkMO [] (Some 0%Q) (Some 0%Q) (Some "").

(** A molden file of H2 around its geometry section: what precedes the
    [[Atoms]] line and what follows the rows of the atoms; then the rows
    once in Angstroem and once in atomic units. *)
Definition molden_h2_before : list string := map ln
  [ "[Molden Format]" ].

Definition molden_h2_after : list string := map ln
  [ "[GTO]";
    "1 0";
    "s 1 1.0";
    " 1.0 1.0";
    "";
    "2 0";
    "s 1 1.0";
    " 1.0 1.0";
    "";
    "[MO]";
    "Sym= 1.1";
    "Ene= -0.5";
    "Occup= 2.0";
    "1 0.7";
    "2 0.7" ].

Definition molden_h2_angstroem : list string := map ln
  [ "H 1 1 0.0 0.0 0.0";
    "H 2 1 0.0 0.0 1.05835441718" ].

Definition molden_h2_bohr : list string := map ln
  [ "H 1 1 0.0 0.0 0.0";
    "H 2 1 0.0 0.0 2.0" ].

(** The same for the Gamess-US output of H2: what precedes the header of
    the geometry, the banner under it, and the rows in both units. *)
Definition gamess_h2_before : list string := take 4 (gamess_head "1" "1").

Definition gamess_h2_banner : string :=
  ln "           CHARGE         X                   Y                   Z".

Definition gamess_h2_angstroem : list string := map ln
  [ " H           1.0     0.0000000000        0.0000000000        0.0000000000";
    " H           1.0     0.0000000000        0.0000000000        1.05835441718" ].

Definition gamess_h2_bohr : list string := map ln
  [ " H           1.0     0.0000000000        0.0000000000        0.0000000000";
    " H           1.0     0.0000000000        0.0000000000        2.0000000000" ].

Definition gamess_h2_after : list string :=
  ln "" :: gamess_basis_banner ++ gamess_h_minimal ++ gamess_h_minimal
  ++ gamess_basis_end ++ gamess_tail.

(** The record [read_gaussian_fchk] returns for the checkpoint file of
    H2 when asked for all orbitals. *)
Definition fchk_h2_record : QC.QCinfo :=
  Eval vm_compute in
    final QC.new (Fchk.read_gaussian_fchk (only fchk_h2) "h2.fchk" true).

(** The molden file of one hydrogen atom with a second orbital that has
    no [Occup=] line. *)
Definition molden_h_no_occupation : list string :=
  take 16 (molden_h []) ++ [ln "1 0.5"].

(** The .log file of hydrogen cut before its orbital section, and its
    count of sections. *)
Definition log_h_no_orbitals : list string :=
  log_pre ++ log_hdr :: take 22 log_post.
Definition log_h_no_orbitals_census : GaussianLog.census :=
  Eval vm_compute in
    final GaussianLog.census_init
      (GaussianLog.take_census "standard" log_h_no_orbitals).

(** Two orbitals as the eigenvector section of [read_gamess] creates
    them. *)
Definition two_blank_orbitals : list QC.MO := [blank_orbital; blank_orbital].

(** An [S] shell of hydrogen as [read_gamess] keeps it, with one
    primitive of exponent 3 and the given coefficient. *)
Definition hydrogen_shell (c : Q) : Gamess.shell :=
  Gamess.mkShell (Some "H") "s" 1 [[3%Q; c]].

(** The Gamess-US output of H2 cut before its transition-dipole
    section. *)
Definition gamess_h2_rhf : list string :=
  gamess_head "1" "1" ++ gamess_basis_banner ++ gamess_h_minimal
  ++ gamess_h_minimal ++ gamess_basis_end ++ take 10 gamess_tail.

(** A molden file with its [[MO]] section before its [[GTO]] section,
    and the molden file of hydrogen twice in one file. *)
Definition molden_orbitals_first : list string := map ln
  [ "[Molden Format]";
    "[Atoms] AU";
    "H 1 1 0.0 0.0 0.0";
    "[MO]";
    "Sym= 1.1";
    "Ene= -0.5";
    "Occup= 2.0";
    "[GTO]";
    "1 0";
    "s 1 1.0";
    " 1.0 1.0";
    "" ].

Definition molden_h_twice : list string :=
  molden_h ["1 0.5"] ++ molden_h ["1 0.5"].

(** The molden file of hydrogen in three parts: the line
    [[Molden Format]], the lines up to the [[MO]] line and the lines from
    it on; and the record read from it. *)
Definition molden_h_marker : string := ln "[Molden Format]".
Definition molden_h_shells : list string :=
  take 8 (tail (molden_h ["1 0.5"])).
Definition molden_h_orbitals : list string :=
  drop 8 (tail (molden_h ["1 0.5"])).
Definition molden_h_record : QC.QCinfo :=
  Eval vm_compute in
    final QC.new
      (Molden.read_molden
         (only ([] ++ molden_h_marker :: molden_h_shells ++ molden_h_orbitals))
         "h.molden" true).

(** An unrestricted checkpoint file of H2 up to the end of its alpha
    coefficients, the state of the reader there, and the three lines of
    its beta coefficients. *)
Definition fchk_uhf_alpha : list string :=
  fchk_before
  ++ [ fchk_energies;
       ln " -0.5  0.6";
       ln "Beta Orbital Energies                      R   N=           2";
       ln " -0.4  0.7";
       ln "Alpha MO coefficients                      R   N=           4";
       ln "  0.5  0.5";
       ln "  1.1 -1.1" ].
Definition fchk_uhf_state : Fchk.state :=
  Eval vm_compute in final Fchk.init (Fchk.run fchk_uhf_alpha).
Definition fchk_beta_header : string :=
  ln "Beta MO coefficients                       R   N=           4".
Definition fchk_beta_first : string := ln "  0.1  0.2".
Definition fchk_beta_second : string := ln "  0.3  0.4".

(** The state of [read_gaussian_fchk] on the file of H2 after the line
    [Alpha MO coefficients], and the first orbital there. *)
Definition fchk_alpha_state : Fchk.state :=
  Eval vm_compute in
    final Fchk.init
      (Fchk.run (fchk_before ++ [fchk_energies] ++ take 2 fchk_after)).
Definition fchk_alpha_first : QC.MO :=
  Eval vm_compute in
    default blank_orbital (head (QC.mo_spec (Fchk.qc fchk_alpha_state))).

(** The state of [read_molden] on the file of hydrogen after the first
    line of its first orbital, with the record, the earlier orbitals and
    the last orbital there. *)
Definition molden_h_state : Molden.state :=
  Eval vm_compute in
    final Molden.init (Molden.run (take 11 (molden_h []))).
Definition molden_h_state_record : QC.QCinfo :=
  Eval vm_compute in default QC.new (Molden.qc molden_h_state).
Definition molden_h_state_last : QC.MO :=
  Eval vm_compute in
    default blank_orbital (last (QC.mo_spec molden_h_state_record)).

(** A record with the geometry of H2 as [read_gamess] stores it. *)
Definition h2_geometry : QC.QCinfo :=
  QC.set_geo_info [ [QC.VStr "H"; QC.VInt 1; QC.VStr "1.0"];
                    [QC.VStr "H"; QC.VInt 2; QC.VStr "1.0"] ] QC.new.

End Samples.


(* ===================================================================== *)
(** * Vocabulary of the properties *)
(* ===================================================================== *)

(** The occupation numbers of a list of orbitals. *)
Definition occupations (mos : list QC.MO) : list (option Q) :=
  map QC.mo_occ_num mos.

(** An orbital counts as occupied when its occupation number exceeds the
    threshold of the closing filter. *)
Definition occupied (m : QC.MO) : bool :=
  match QC.mo_occ_num m with
  | Some o => Py.fgt o QC.occ_threshold
  | None => false
  end.

(** Whether an orbital has the entry [occ_num]. *)
Definition has_occupation (m : QC.MO) : bool :=
  match QC.mo_occ_num m with
  | Some _ => true
  | None => false
  end.

(** The sum of the occupation numbers of a list of orbitals. *)
Definition total_occupation (mos : list QC.MO) : Q :=
  fold_right (fun m acc => default 0%Q (QC.mo_occ_num m) + acc)%Q 0%Q mos.

(** The orbital with [x] added to its occupation number. *)
Definition with_added_occupation (x : Q) (m : QC.MO) : QC.MO :=
  QC.set_mo_occ_num (Py.fadd (default 0%Q (QC.mo_occ_num m)) x) m.

(** Everything of an orbital but its occupation number. *)
Definition orbital_but_occupation (m : QC.MO)
  : list Q * option Q * option string :=
  (QC.mo_coeffs m, QC.mo_energy m, QC.mo_sym m).

(** Whether two shells of [read_gamess] carry the same exponents and
    contraction coefficients. *)
Definition same_primitives (ab : Gamess.shell * Gamess.shell) : bool :=
  Gamess.coeffs_eqb (Gamess.sh_coeffs ab.1) (Gamess.sh_coeffs ab.2).

(** The lengths of the coefficient vectors of a list of orbitals. *)
Definition coefficient_counts (mos : list QC.MO) : list nat :=
  map (fun m => length (QC.mo_coeffs m)) mos.

(** The types of the shells of a record. *)
Definition shell_types (q : QC.QCinfo) : list (option string) :=
  map QC.ao_type (QC.ao_spec q).

(** *** Gaussian FChk *)

(** The keywords [read_gaussian_fchk] tests before [Orbital Energies]. *)
Definition fchk_earlier_keywords : list string :=
  [ "Number of alpha electrons"; "Number of beta electrons";
    "Atomic numbers"; "Integer atomic weights"; "Total Energy";
    "Current cartesian coordinates"; "Shell types";
    "Number of primitives per shell"; "Shell to atom map";
    "Primitive exponents"; "Contraction coefficients" ].

(** The line is one the [Orbital Energies] branch handles: it holds that
    keyword and none of those tested before it. *)
Definition fchk_orbital_energies_line (line : string) : bool :=
  forallb (fun k => negb (Py.contains k line)) fchk_earlier_keywords
  && Py.contains "Orbital Energies" line.

(** The keywords whose lines create the list of shells, and the lines
    without any of them. *)
Definition fchk_shell_keywords : list string :=
  [ "Shell types"; "Number of primitives per shell"; "Shell to atom map" ].

Definition fchk_no_shell_header (line : string) : bool :=
  forallb (fun k => negb (Py.contains k line)) fchk_shell_keywords.

(** The line is one the [Primitive exponents] or the
    [Contraction coefficients] branch handles. *)
Definition fchk_exponents_header (line : string) : bool :=
  forallb (fun k => negb (Py.contains k line)) (take 9 fchk_earlier_keywords)
  && (Py.contains "Primitive exponents" line
      || Py.contains "Contraction coefficients" line).

(** The line is one no keyword branch handles: the section in progress
    reads its tokens. *)
Definition fchk_plain (line : string) : bool :=
  forallb (fun k => negb (Py.contains k line))
          (fchk_earlier_keywords ++ ["Orbital Energies"; "MO coefficients"]).

(** The line is one the [MO coefficients] branch handles. *)
Definition fchk_coefficients_header (line : string) : bool :=
  forallb (fun k => negb (Py.contains k line))
          (fchk_earlier_keywords ++ ["Orbital Energies"])
  && Py.contains "MO coefficients" line.

(** The state of [read_gaussian_fchk] after the coefficients [v] of the
    orbital number [i], which was [m], have been read. *)
Definition fchk_row_read (s : Fchk.state) (i : Z) (v : list Q) (m : QC.MO)
  : Fchk.state :=
  let s' :=
    Fchk.set_index (Fchk.IdxInt (i + 1))
      (Fchk.set_count 0
         (Fchk.set_qc
            (QC.set_mo_spec
               (<[Z.to_nat i := QC.set_mo_coeffs v m]>
                  (QC.mo_spec (Fchk.qc s)))
               (Fchk.qc s)) s)) in
  if (i + 1) mod Fchk.basis_count s =? 0
  then Fchk.set_sec_flag Fchk.SecNone s' else s'.

(** The occupation the claim gives the orbital number [k] (from 0) of a
    block, for [alpha] and [beta] electrons. *)
Definition fchk_expected_occupation (alpha beta : Z) (alpha_block : bool)
    (k : Z) : Z :=
  if alpha =? beta then (if k <? alpha then 2 else 0)
  else if alpha_block then (if k <? alpha then 1 else 0)
  else (if k <? beta then 1 else 0).

(** The orbitals read so far by [read_gaussian_fchk]. *)
Definition fmos (s : Fchk.state) : list QC.MO := QC.mo_spec (Fchk.qc s).

(** *** Gamess-US *)

(** The keywords [read_gamess] tests on every line, in the order of the
    tests. *)
Definition gamess_keywords : list string :=
  [ " ATOM      ATOMIC                      COORDINATES";
    "ATOMIC BASIS SET";
    "          EIGENVECTORS";
    "CIS TRANSITION DIPOLE MOMENTS AND";
    "NUMBER OF STATES REQUESTED";
    "SPIN MULTIPLICITY";
    "FINAL";
    " NUMBER OF OCCUPIED ORBITALS (ALPHA)          =";
    " NUMBER OF OCCUPIED ORBITALS (BETA )          =";
    "          ECP POTENTIALS";
    " NUMBER OF OCCUPIED ORBITALS (ALPHA) KEPT IS    =";
    " NUMBER OF OCCUPIED ORBITALS (BETA ) KEPT IS    =" ].

(** A line without any of them: the section in progress reads it. *)
Definition gamess_plain (line : string) : bool :=
  forallb (fun k => negb (Py.contains k line)) gamess_keywords.

(** The markers of the transition-dipole section that change its mode. *)
Definition gamess_tdm_markers : list string :=
  [ "EXPECTATION VALUE DIPOLE MOMENT FOR EXCITED STATE";
    "TRANSITION FROM THE GROUND STATE TO EXCITED STATE";
    "TRANSITION BETWEEN EXCITED STATES";
    "CIS NATURAL ORBITAL OCCUPATION NUMBERS FOR EXCITED STATE" ].

Definition gamess_no_tdm_marker (line : string) : bool :=
  forallb (fun k => negb (Py.contains k line)) gamess_tdm_markers.

(** The three values scaled by the debye factor. *)
Definition debye_scaled (v : list Q) : list Q :=
  map (fun x => Py.fmul x Gamess.debye_to_au) v.

(** The two arrays of dipoles. *)
Definition dipoles (s : Gamess.state)
  : option (option (list (list Q))) * option (list (list (list Q))) :=
  (Gamess.tdm_state_dipole (Gamess.tdm s), Gamess.tdm_tdm (Gamess.tdm s)).

(** *** Gaussian .log *)








(** *** Units of length *)

(** Two results agree up to a relation on their values. *)
Definition agree {A} (R : A -> A -> Prop) (r1 r2 : result A) : Prop :=
  match r1, r2 with
  | Ok a, Ok b => R a b
  | Raise e1, Raise e2 => e1 = e2
  | _, _ => False
  end.

(** The token [tb] holds the value of the token [ta] divided by
    0.52917720859. *)
Definition converted_token (ta tb : string) : Prop :=
  exists x y : Q,
    Py.float ta = Ok x /\ Py.float tb = Ok y
    /\ (y == x / (52917720859 # 100000000000))%Q.

(** The keywords [read_molden] tests on every line, in the order of the
    tests. *)
Definition molden_keywords : list string :=
  [ "[Molden Format]"; "_ENERGY="; "[Atoms]"; "[GTO]"; "[MO]"; "[STO]" ].

(** A line without any of them: the section in progress reads it. *)
Definition molden_plain (line : string) : bool :=
  forallb (fun k => negb (Py.contains k line)) molden_keywords.

(** A line the [[Atoms]] branch handles. *)
Definition molden_atoms_header (line : string) : bool :=
  negb (Py.contains "[Molden Format]" line)
  && negb (Py.contains "_ENERGY=" line)
  && Py.contains "[Atoms]" line.

(** A line that starts a section or a new file, whatever the section in
    progress. *)
Definition molden_section_header (line : string) : bool :=
  Py.contains "[Molden Format]" line
  || negb (Py.contains "_ENERGY=" line)
     && (Py.contains "[Atoms]" line || Py.contains "[GTO]" line
         || Py.contains "[MO]" line || Py.contains "[STO]" line).

(** Two rows of a molden geometry: the same label, serial and charge, and
    coordinates in Angstroem on one side, converted on the other. *)
Definition molden_rows_converted (la lb : string) : Prop :=
  molden_plain la = true /\ molden_plain lb = true
  /\ take 3 (Py.split la) = take 3 (Py.split lb)
  /\ Forall2 converted_token (drop 3 (Py.split la)) (drop 3 (Py.split lb)).

(** The state with another value of [aa_to_au]. *)
Definition molden_with_units (a : option Q) (s : Molden.state)
  : Molden.state :=
  Molden.mkState (Molden.qc s) (Molden.sec_flag s) a (Molden.bNew s)
                 (Molden.at_num s) (Molden.ao_num s) (Molden.basis_count s)
                 (Molden.out s).

(** Two states that differ at most in [aa_to_au], and not at all while a
    geometry is being read. *)
Definition molden_same_but_units (s1 s2 : Molden.state) : Prop :=
  s2 = molden_with_units (Molden.aa_to_au s2) s1
  /\ (Molden.sec_flag s1 = Some Molden.GeoInfo -> s2 = s1).

(** The states of the two runs inside the geometry section. *)
Definition molden_in_geometry (s1 s2 : Molden.state) : Prop :=
  s2 = molden_with_units (Some 1%Q) s1
  /\ Molden.sec_flag s1 = Some Molden.GeoInfo
  /\ Molden.aa_to_au s1 = Some Molden.angstroem_to_bohr.

(** A line that starts a section of a Gamess-US output, whatever the
    section in progress: one of the first four keywords. *)
Definition gamess_section_header (line : string) : bool :=
  Py.contains " ATOM      ATOMIC                      COORDINATES" line
  || Py.contains "ATOMIC BASIS SET" line
  || Py.contains "          EIGENVECTORS" line
  || Py.contains "CIS TRANSITION DIPOLE MOMENTS AND" line.

(** Two rows of a Gamess-US geometry: the same label and charge, and
    coordinates in Angstroem on one side, converted on the other. *)
Definition gamess_rows_converted (la lb : string) : Prop :=
  gamess_plain la = true /\ gamess_plain lb = true
  /\ String.eqb la Py.nl = false /\ String.eqb lb Py.nl = false
  /\ take 2 (Py.split la) = take 2 (Py.split lb)
  /\ Forall2 converted_token (drop 2 (Py.split la)) (drop 2 (Py.split lb)).

(** The state with another value of [aa_to_au]. *)
Definition gamess_with_units (a : option Q) (s : Gamess.state)
  : Gamess.state :=
  Gamess.set_geo
    (Gamess.mkGeo a (Gamess.atom_count (Gamess.geo s))
                  (Gamess.geo_skip (Gamess.geo s))) s.

(** Two states that differ at most in [aa_to_au], and not at all while a
    geometry is being read. *)
Definition gamess_same_but_units (s1 s2 : Gamess.state) : Prop :=
  s2 = gamess_with_units (Gamess.aa_to_au (Gamess.geo s2)) s1
  /\ (Gamess.sec_flag s1 = Gamess.GeoInfo -> s2 = s1).

(** The states of the two runs inside the geometry section, with [k]
    banner lines still to skip. *)
Definition gamess_in_geometry (k : Z) (s1 s2 : Gamess.state) : Prop :=
  s2 = gamess_with_units (Some 1%Q) s1
  /\ Gamess.sec_flag s1 = Gamess.GeoInfo
  /\ Gamess.aa_to_au (Gamess.geo s1) = Some Gamess.angstroem_to_bohr
  /\ Gamess.geo_skip (Gamess.geo s1) = k.

(** A step of [read_gamess] that does not read [aa_to_au]. *)
Definition ignores_units (f : Gamess.state -> result Gamess.state) : Prop :=
  forall a s,
    f (gamess_with_units a s)
    = Py.bind (f s) (fun s' => Ok (gamess_with_units a s')).

(** A step of [read_gamess] that does not open a geometry section. *)
Definition opens_no_geometry (f : Gamess.state -> result Gamess.state)
  : Prop :=
  forall s s',
    f s = Ok s' -> Gamess.sec_flag s <> Gamess.GeoInfo ->
    Gamess.sec_flag s' <> Gamess.GeoInfo.

(** The state of [read_gamess] while no transition-dipole section has been
    opened: its arrays are still unbound. *)
Definition gamess_cis_unopened (s : Gamess.state) : Prop :=
  Gamess.sec_flag s <> Gamess.TdmInfo
  /\ Gamess.tdm_state_energy (Gamess.tdm s) = None.

(** A line the [[STO]] branch of [read_molden] handles. *)
Definition molden_slater_line (line : string) : bool :=
  forallb (fun k => negb (Py.contains k line)) (take 5 molden_keywords)
  && Py.contains "[STO]" line.

(** *** The shells of the atoms in read_gamess *)

(** A shell of the working list [AO], as a shell of the atom with the
    serial number [n]. *)
Definition shell_of_atom (n : Z) (sh : Gamess.shell) : QC.AO :=
  QC.mkAO (Some (n - 1)) (Some (Gamess.sh_type sh))
          (Some (Gamess.sh_pnum sh)) (Some (Gamess.sh_coeffs sh)).

(** The shells the row [row] of [geo_info] is given from the kept basis
    sets, when the row starts with a label and a serial number and a set
    is kept for the label. *)
Definition atom_basis (basis_set : gmap string (list Gamess.shell))
    (row : list QC.pyval) : option (list QC.AO) :=
  match row with
  | QC.VStr label :: QC.VInt n :: _ =>
      match basis_set !! label with
      | Some shells => Some (map (shell_of_atom n) shells)
      | None => None
      end
  | _ => None
  end.

(** *** The second pass of read_gaussian_log *)




(** *** Symmetry labels *)

(** Strings of decimal digits only, and strings without any. *)
Fixpoint all_digits (s : string) : bool :=
  match s with
  | EmptyString => true
  | String c s' => Py.is_digit c && all_digits s'
  end.

Fixpoint no_digit (s : string) : bool :=
  match s with
  | EmptyString => true
  | String c s' => negb (Py.is_digit c) && no_digit s'
  end.

(** The state of [read_molden] with the label [sym] given to the last
    orbital, [m], of the record [q]. *)
Definition molden_labelled (s : Molden.state) (q : QC.QCinfo)
    (mos : list QC.MO) (m : QC.MO) (sym : string) : Molden.state :=
  Molden.set_qc (QC.set_mo_spec (mos ++ [QC.set_mo_sym sym m]) q) s.

(** *** The size of the coefficient vectors *)

(** Every orbital of the list has [n] coefficients. *)
Definition orbitals_sized (n : Z) (mos : list QC.MO) : Prop :=
  Forall (fun m => Z.of_nat (length (QC.mo_coeffs m)) = n) mos.

(** Whether every orbital of a record has as many coefficients as the
    shells of the record have basis functions. *)
Definition coefficients_sized (q : QC.QCinfo) : bool :=
  forallb (fun m =>
             match QC.basis_size (QC.ao_spec q) with
             | Ok n => Z.of_nat (length (QC.mo_coeffs m)) =? n
             | Raise _ => false
             end) (QC.mo_spec q).

(** The states of [read_molden] before the line [[Molden Format]], after
    it while no [[MO]] line has been read, and from then on. *)
Definition molden_unopened (s : Molden.state) : Prop :=
  Molden.qc s = None /\ Molden.basis_count s = 0.

Definition molden_shells_only (s : Molden.state) : Prop :=
  exists q,
    Molden.qc s = Some q /\ QC.mo_spec q = []
    /\ Molden.sec_flag s <> Some Molden.MoInfo
    /\ QC.basis_size (QC.ao_spec q) = Ok (Molden.basis_count s).

Definition molden_sized (s : Molden.state) : Prop :=
  exists q,
    Molden.qc s = Some q
    /\ QC.basis_size (QC.ao_spec q) = Ok (Molden.basis_count s)
    /\ orbitals_sized (Molden.basis_count s) (QC.mo_spec q)
    /\ (Molden.sec_flag s = Some Molden.AoInfo -> QC.mo_spec q = []).

(** *** Tests for the rows of a geometry *)

(** Whether two lists match entry by entry. *)
Fixpoint forall2b {A B} (test : A -> B -> bool) (xs : list A) (ys : list B)
  : bool :=
  match xs with
  | [] => match ys with [] => true | _ :: _ => false end
  | x :: xs' =>
      match ys with
      | [] => false
      | y :: ys' => test x y && forall2b test xs' ys'
      end
  end.

(** [converted_token], as a test. *)
Definition converted_token_test (ta tb : string) : bool :=
  match Py.float ta, Py.float tb with
  | Ok x, Ok y => Qeq_bool y (x / (52917720859 # 100000000000))
  | _, _ => false
  end.

(** [molden_rows_converted], as a test. *)
Definition molden_rows_test (la lb : string) : bool :=
  molden_plain la && molden_plain lb
  && forall2b String.eqb (take 3 (Py.split la)) (take 3 (Py.split lb))
  && forall2b converted_token_test (drop 3 (Py.split la))
                                   (drop 3 (Py.split lb)).

(** [gamess_rows_converted], as a test. *)
Definition gamess_rows_test (la lb : string) : bool :=
  gamess_plain la && gamess_plain lb
  && negb (String.eqb la Py.nl) && negb (String.eqb lb Py.nl)
  && forall2b String.eqb (take 2 (Py.split la)) (take 2 (Py.split lb))
  && forall2b converted_token_test (drop 2 (Py.split la))
                                   (drop 2 (Py.split lb)).

(** *** The same geometry in two units *)

(** Two files for the reader [r] that are the same but for one geometry
    section: the first declares Angstroem (molden: the header has [Angs];
    Gamess-US: the header lacks [(BOHR)]) and the second atomic units,
    with every coordinate divided by 0.52917720859.  The rows of the
    section run up to the next section header (Gamess-US: or the blank
    line) or to the end of the file. *)
Inductive same_geometry_two_units
  : Dispatch.reader -> list string -> list string -> Prop :=
| molden_two_units (pre post ga gb : list string) (ha hb : string) :
    molden_atoms_header ha = true -> Py.contains "Angs" ha = true ->
    molden_atoms_header hb = true -> Py.contains "Angs" hb = false ->
    Forall2 molden_rows_converted ga gb ->
    (forall l, head post = Some l -> molden_section_header l = true) ->
    same_geometry_two_units Dispatch.ReadMolden
      (pre ++ ha :: ga ++ post) (pre ++ hb :: gb ++ post)
| gamess_two_units (pre post ga gb : list string) (ha hb banner : string) :
    Py.contains " ATOM      ATOMIC                      COORDINATES" ha
    = true ->
    Py.contains "(BOHR)" ha = false ->
    Py.contains " ATOM      ATOMIC                      COORDINATES" hb
    = true ->
    Py.contains "(BOHR)" hb = true ->
    gamess_plain banner = true ->
    Forall2 gamess_rows_converted ga gb ->
    (forall l, head post = Some l ->
               l = Py.nl \/ gamess_section_header l = true) ->
    same_geometry_two_units Dispatch.ReadGamess
      (pre ++ ha :: banner :: ga ++ post)
      (pre ++ hb :: banner :: gb ++ post).
(* ===================================================================== *)
(** * Properties *)
(* ===================================================================== *)

(** ** The dispatcher *)

Lemma lookup_reader_unknown (itype : string) :
  itype ∉ Dispatch.itypes ->
  Dispatch.lookup_reader itype = Raise (KeyError itype).
Proof.
  intros Hnot. unfold Dispatch.lookup_reader, Dispatch.readers. simpl.
  unfold Dispatch.itypes in Hnot.
  rewrite !lookup_insert_ne, lookup_empty; [reflexivity | | | |];
    intros <-; apply Hnot; set_solver.
Qed.

(** C9: for each of the four format tags [main_read] is the call of the
    reader of that tag, with its result as it is; for every other tag the
    lookup in the table of readers raises [KeyError] (the reader's
    realisation of an unsupported format), and so does [main_read], no
    reader having been called. *)
Theorem main_read_dispatch (fs : filesystem) (kb : GaussianLog.keyboard)
    (filename : string) (all_mo : bool) :
  Dispatch.main_read fs kb filename "molden" all_mo
    = Molden.read_molden fs filename all_mo
  /\ Dispatch.main_read fs kb filename "gamess" all_mo
    = Gamess.read_gamess fs filename all_mo
  /\ Dispatch.main_read fs kb filename "gaussian.fchk" all_mo
    = Fchk.read_gaussian_fchk fs filename all_mo
  /\ Dispatch.main_read fs kb filename "gaussian.log" all_mo
    = GaussianLog.read_gaussian_log fs kb filename all_mo "standard"
        (-1) (-1) (-1) true
  /\ forall itype : string,
       itype ∉ Dispatch.itypes ->
       Dispatch.lookup_reader itype = Raise (KeyError itype)
       /\ Dispatch.main_read fs kb filename itype all_mo
          = Raise (KeyError itype).
Proof.
  repeat split; try reflexivity.
  - by apply lookup_reader_unknown.
  - unfold Dispatch.main_read. by rewrite lookup_reader_unknown.
Qed.

Lemma main_read_dispatch_witness :
  ("turbomole" ∉ Dispatch.itypes)
  /\ Dispatch.main_read (Samples.only []) [] "h2.out" "turbomole" false
     = Raise (KeyError "turbomole").
Proof.
  assert (H : "turbomole" ∉ Dispatch.itypes).
  { unfold Dispatch.itypes. intros Hin.
    repeat (apply elem_of_cons in Hin as [Hin | Hin]; [discriminate |]).
    by apply elem_of_nil in Hin. }
  split; [exact H |].
  exact (proj2 (proj2 (proj2 (proj2 (proj2
    (main_read_dispatch (Samples.only []) [] "h2.out" false))))
    "turbomole" H)).
Defined.

(** ** The error monad *)

Lemma bind_ok {A B} (m : result A) (k : A -> result B) (b : B) :
  Py.bind m k = Ok b -> exists a, m = Ok a /\ k a = Ok b.
Proof. destruct m as [a | e]; simpl; [eauto | discriminate]. Qed.

Ltac inv_bind H :=
  let a := fresh "a" in
  let Ha := fresh "Ha" in
  apply bind_ok in H as (a & Ha & H).

Lemma foldM_app {A S} (f : S -> A -> result S) (l1 l2 : list A) (s : S) :
  Py.foldM f (l1 ++ l2) s = Py.bind (Py.foldM f l1 s) (Py.foldM f l2).
Proof.
  revert s. induction l1 as [| x l1 IH]; intros s; simpl; [reflexivity |].
  destruct (f s x); simpl; [apply IH | reflexivity].
Qed.

(** A property every step keeps is kept by the loop. *)
Lemma foldM_invariant {A S} (P : S -> Prop) (f : S -> A -> result S)
    (l : list A) (s s' : S) :
  (forall s x s', P s -> f s x = Ok s' -> P s') ->
  P s -> Py.foldM f l s = Ok s' -> P s'.
Proof.
  intros Hstep. revert s. induction l as [| x l IH]; intros s Hs Hrun.
  - simpl in Hrun. by inversion Hrun; subst.
  - simpl in Hrun. inv_bind Hrun. eapply IH; [| exact Hrun]. eauto.
Qed.

(** ** Indexing *)

Lemma norm_index_nat (len n : nat) :
  (n < len)%nat -> Py.norm_index len (Z.of_nat n) = Some n.
Proof.
  intros H. unfold Py.norm_index.
  destruct (0 <=? Z.of_nat n) eqn:E0; [| lia].
  destruct (Z.of_nat n <? Z.of_nat len) eqn:E1; [| lia].
  by rewrite Nat2Z.id.
Qed.

Lemma norm_index_bound (len : nat) (i : Z) (n : nat) :
  Py.norm_index len i = Some n -> (n < len)%nat.
Proof.
  unfold Py.norm_index. intros H.
  destruct (0 <=? i) eqn:E0.
  - destruct (i <? Z.of_nat len) eqn:E1; inversion H; lia.
  - destruct (- Z.of_nat len <=? i) eqn:E1; inversion H; lia.
Qed.

Lemma norm_index_last (len : nat) :
  Py.norm_index (S len) (-1) = Some len.
Proof.
  unfold Py.norm_index.
  replace (0 <=? -1) with false by reflexivity.
  destruct (Z.leb_spec (- Z.of_nat (S len)) (-1)) as [_ | Hlt]; [| lia].
  f_equal. lia.
Qed.

Lemma getitem_nat {A} (l : list A) (n : nat) (x : A) :
  l !! n = Some x -> Py.getitem l (Z.of_nat n) = Ok x.
Proof.
  intros H. unfold Py.getitem.
  rewrite norm_index_nat by (by eapply lookup_lt_Some). by rewrite H.
Qed.

Lemma getitem_last {A} (l : list A) (x : A) :
  Py.getitem (l ++ [x]) (-1) = Ok x.
Proof.
  unfold Py.getitem. rewrite length_app. simpl.
  replace (length l + 1)%nat with (S (length l)) by lia.
  rewrite norm_index_last.
  by rewrite lookup_app_r, Nat.sub_diag by lia.
Qed.

Lemma getitem_ok {A} (l : list A) (i : Z) (x : A) :
  Py.getitem l i = Ok x ->
  exists n, Py.norm_index (length l) i = Some n /\ l !! n = Some x.
Proof.
  unfold Py.getitem. intros H.
  destruct (Py.norm_index (length l) i) as [n |]; [| discriminate].
  destruct (l !! n) as [y |] eqn:E; inversion H; subst. eauto.
Qed.

Lemma setitem_ok {A} (l l' : list A) (i : Z) (x : A) :
  Py.setitem l i x = Ok l' ->
  exists n, Py.norm_index (length l) i = Some n /\ l' = <[n := x]> l.
Proof.
  unfold Py.setitem. intros H.
  destruct (Py.norm_index (length l) i) as [n |]; inversion H; subst. eauto.
Qed.

Lemma alteritem_ok {A} (l l' : list A) (i : Z) (f : A -> result A) :
  Py.alteritem l i f = Ok l' ->
  exists n x y,
    Py.norm_index (length l) i = Some n /\ l !! n = Some x
    /\ f x = Ok y /\ l' = <[n := y]> l.
Proof.
  unfold Py.alteritem. intros H. inv_bind H. inv_bind H.
  apply getitem_ok in Ha as (n & Hn & Hx).
  apply setitem_ok in H as (n' & Hn' & ->).
  rewrite Hn in Hn'. inversion Hn'; subst n'. eauto 10.
Qed.

(** An update of one entry that keeps the value of [g] on it keeps the
    values of [g] on the whole list. *)
Lemma alteritem_map_kept {A B} (g : A -> B) (l l' : list A) (i : Z)
    (f : A -> result A) :
  (forall x y, f x = Ok y -> g y = g x) ->
  Py.alteritem l i f = Ok l' -> map g l' = map g l.
Proof.
  intros Hf H. apply alteritem_ok in H as (n & x & y & _ & Hx & Hy & ->).
  rewrite list_fmap_insert. apply Hf in Hy. rewrite Hy.
  apply list_insert_id. by rewrite list_lookup_fmap, Hx.
Qed.

(** Takes apart every hypothesis that says a computation in the error
    monad succeeded. *)
Ltac crush :=
  repeat match goal with
  | H : Ok _ = Ok _ |- _ => inversion H; subst; clear H
  | H : Raise _ = Ok _ |- _ => discriminate H
  | H : (_, _) = (_, _) |- _ => inversion H; subst; clear H
  | H : Py.bind _ _ = Ok _ |- _ => apply bind_ok in H as (? & ? & H)
  | H : (match ?x with _ => _ end) = Ok _ |- _ => destruct x eqn:?
  | H : (if ?c then _ else _) = Ok _ |- _ => destruct c eqn:?
  | H : (if ?c then _ else _) = (_, _) |- _ => destruct c eqn:?
  | H : _ = Ok _ |- _ => progress simpl in H
  end.

(** Closes a goal [map g l' = map g l] where [l'] is [l] with one entry
    updated by a function that keeps [g]. *)
Ltac kept_by_update :=
  simpl; repeat case_match; simpl;
  first [ reflexivity
        | (eapply alteritem_map_kept; [| eassumption]);
          intros ? ? ?; crush; reflexivity ].

(** ** The closing filter *)

Lemma keep_occupied_fold (l acc kept : list QC.MO) :
  Py.foldM QC.keep_occupied l acc = Ok kept ->
  kept = acc ++ filter (fun m => occupied m = true) l
  /\ Forall (fun m => is_Some (QC.mo_occ_num m)) l.
Proof.
  revert acc. induction l as [| m l IH]; intros acc Hrun; simpl in Hrun.
  - inversion Hrun; subst. by rewrite app_nil_r.
  - inv_bind Hrun. unfold QC.keep_occupied in Ha.
    destruct (QC.mo_occ_num m) as [o |] eqn:Ho; simpl in Ha; [| discriminate].
    inversion Ha; subst a; clear Ha.
    apply IH in Hrun as [-> Hall]. split.
    + rewrite filter_cons.
      assert (Hocc : occupied m = Py.fgt o QC.occ_threshold)
        by (unfold occupied; by rewrite Ho).
      destruct (decide (occupied m = true)) as [Hd | Hd];
        rewrite Hocc in Hd.
      * rewrite Hd. by rewrite <- app_assoc.
      * apply not_true_is_false in Hd. by rewrite Hd.
    + constructor; [by eexists | exact Hall].
Qed.

(** The closing filter keeps exactly the occupied orbitals, in their
    order, and changes nothing else in the record. *)
Lemma occupied_only_spec (q q' : QC.QCinfo) :
  QC.occupied_only q = Ok q' ->
  QC.mo_spec q' = filter (fun m => occupied m = true) (QC.mo_spec q)
  /\ q' = QC.set_mo_spec (QC.mo_spec q') q.
Proof.
  unfold QC.occupied_only. intros H. inv_bind H.
  inversion H; subst q'; clear H.
  apply keep_occupied_fold in Ha as [-> _]. simpl. split; reflexivity.
Qed.

(** With [all_mo=False] the molden, FChk and .log readers return what
    they return with [all_mo=True], put through the closing filter. *)
Lemma read_molden_filter (fs : filesystem) (filename : string) :
  Molden.read_molden fs filename false
  = Py.bind (Molden.read_molden fs filename true) QC.occupied_only.
Proof.
  unfold Molden.read_molden. destruct (read_lines fs filename); [| reflexivity].
  simpl. destruct (negb _); [reflexivity |].
  destruct (Molden.run a) as [s |]; [| reflexivity]. simpl.
  destruct (Py.var "qc" (Molden.qc s)); reflexivity.
Qed.

Lemma read_gaussian_fchk_filter (fs : filesystem) (filename : string) :
  Fchk.read_gaussian_fchk fs filename false
  = Py.bind (Fchk.read_gaussian_fchk fs filename true) QC.occupied_only.
Proof.
  unfold Fchk.read_gaussian_fchk.
  destruct (read_lines fs filename); [| reflexivity]. simpl.
  destruct (Fchk.run a); reflexivity.
Qed.

Lemma read_gaussian_log_filter (fs : filesystem) (kb : GaussianLog.keyboard)
    (filename orientation : string) (i_geo i_ao i_mo : Z)
    (interactive : bool) :
  GaussianLog.read_gaussian_log fs kb filename false orientation
    i_geo i_ao i_mo interactive
  = Py.bind (GaussianLog.read_gaussian_log fs kb filename true orientation
               i_geo i_ao i_mo interactive) QC.occupied_only.
Proof.
  unfold GaussianLog.read_gaussian_log.
  destruct (read_lines fs filename) as [flines |]; [| reflexivity]. simpl.
  destruct (GaussianLog.take_census orientation flines) as [c |];
    [| reflexivity]. simpl.
  destruct (GaussianLog.select c orientation i_geo i_ao i_mo interactive kb)
    as [sel |]; [| reflexivity]. simpl.
  destruct (GaussianLog.run sel flines (GaussianLog.init c)); reflexivity.
Qed.

(** C2: [read_gamess] never reads [all_mo]: asked for the occupied
    orbitals only, it returns what it returns when asked for all of them,
    and on the H2 output with one occupied orbital the record keeps the
    empty orbital, occupation 0.0, next to the occupied one. *)
Theorem read_gamess_keeps_unoccupied :
  (forall (fs : filesystem) (filename : string),
     Gamess.read_gamess fs filename false
     = Gamess.read_gamess fs filename true)
  /\ exists q : QC.QCinfo,
       Gamess.read_gamess (Samples.only (Samples.gamess_h2 "1" "1"))
                          "h2.out" false = Ok q
       /\ occupations (QC.mo_spec q) = [Some 2%Q; Some 0%Q]
       /\ filter (fun m => occupied m = true) (QC.mo_spec q)
          <> QC.mo_spec q.
Proof.
  split; [reflexivity |].
  eexists. split; [vm_compute; reflexivity |].
  split; [reflexivity |]. vm_compute. discriminate.
Qed.

(** C3: with two occupied alpha orbitals and one occupied beta orbital
    the loop gives the first orbital the occupation 3.0 and the second
    0.0: the three tests run one after the other on counters the earlier
    ones have already lowered. The same holds for the whole reader on the
    H2 output that announces these numbers. *)
Theorem gamess_occupation_three :
  Gamess.assign_occupations
    [Samples.blank_orbital; Samples.blank_orbital] [2; 1] []
  = Ok ([QC.set_mo_occ_num 3%Q Samples.blank_orbital;
         QC.set_mo_occ_num 0%Q Samples.blank_orbital], [0; 0], ["occ_0"])
  /\ exists q : QC.QCinfo,
       Gamess.read_gamess (Samples.only (Samples.gamess_h2 "2" "1"))
                          "h2.out" true = Ok q
       /\ occupations (QC.mo_spec q) = [Some 3%Q; Some 0%Q].
Proof.
  split; [vm_compute; reflexivity |].
  eexists. split; vm_compute; reflexivity.
Qed.

(** ** The basis-set check of read_gamess *)

(** C5: the first hydrogen atom of the output carries two shells and the
    second only the first of them; the reader returns a record all the
    same, and in it both atoms have the two shells of the first. When the
    atom with fewer shells comes first and two later atoms differ in
    their second shell, the reader stops with [IndexError], not with the
    [IOError] of the check. *)
Theorem gamess_differing_basis_accepted :
  (exists q : QC.QCinfo,
     Gamess.read_gamess
       (Samples.only (Samples.gamess_with "1" "1"
          (Samples.gamess_h_split "1.0" ++ Samples.gamess_h_minimal)))
       "h2.out" false = Ok q
     /\ map QC.ao_atom (QC.ao_spec q) = [Some 0; Some 0; Some 1; Some 1]
     /\ map QC.ao_pnum (QC.ao_spec q) = [Some 2; Some 1; Some 2; Some 1])
  /\ Gamess.read_gamess
       (Samples.only (Samples.gamess_with "1" "1"
          (Samples.gamess_h_minimal ++ Samples.gamess_h_split "1.0"
           ++ Samples.gamess_h_split "0.9")))
       "h2.out" false = Raise IndexError.
Proof.
  split; [| vm_compute; reflexivity].
  eexists. split; [vm_compute; reflexivity |]. split; reflexivity.
Qed.

(** Two atoms with as many shells as each other and a different second
    shell are refused by the check. *)
Example gamess_differing_basis_refused :
  Gamess.read_gamess
    (Samples.only (Samples.gamess_with "1" "1"
       (Samples.gamess_h_split "1.0" ++ Samples.gamess_h_split "0.9")))
    "h2.out" false
  = Raise (IOError "Different basis sets for the same atom.").
Proof. vm_compute. reflexivity. Qed.

(** ** Coefficients of read_molden that do not convert *)

(** A coefficient line whose value does not convert leaves every orbital
    as it is, reports once and lets the loop go on. *)
Lemma mo_coeff_line_recovers (s : Molden.state) (thisline : list string)
    (t0 t1 sym : string) (n : Z) (q : QC.QCinfo) (mos : list QC.MO)
    (m : QC.MO) :
  thisline !! 0%nat = Some t0 ->
  thisline !! 1%nat = Some t1 ->
  Py.int t0 = Ok n ->
  Py.float t1 = Raise ValueError ->
  Molden.qc s = Some q ->
  QC.mo_spec q = mos ++ [m] ->
  QC.mo_sym m = Some sym ->
  Molden.mo_coeff_line thisline s
  = Ok (Molden.display (Molden.coefficient_message (n - 1) sym)
          (Molden.set_bNew true s)).
Proof.
  intros H0 H1 Hint Hfloat Hq Hmos Hsym.
  unfold Molden.mo_coeff_line.
  assert (G0 : Py.getitem thisline 0 = Ok t0)
    by exact (getitem_nat thisline 0 t0 H0).
  assert (G1 : Py.getitem thisline 1 = Ok t1)
    by exact (getitem_nat thisline 1 t1 H1).
  rewrite G0. simpl. rewrite Hint. simpl. rewrite G1. simpl.
  rewrite Hfloat. simpl. rewrite Hq. simpl.
  rewrite Hmos, getitem_last. simpl. rewrite Hsym. reflexivity.
Qed.

(** C6: in the second orbital of the file the coefficient 1 is first
    given as 0.5 and then by a line whose value does not convert; the
    reader reports the line, goes on, and the coefficient is still 0.5,
    not 0.0. *)
Theorem molden_unreadable_coefficient_not_zeroed :
  exists s q,
    Molden.run (Samples.molden_h ["1 0.5"; "1 abc"]) = Ok s
    /\ Molden.out s = [Molden.coefficient_message 0 "2.1"]
    /\ Molden.read_molden
         (Samples.only (Samples.molden_h ["1 0.5"; "1 abc"])) "h.molden" false
       = Ok q
    /\ map QC.mo_coeffs (QC.mo_spec q) = [[7 # 10]; [1 # 2]].
Proof.
  eexists. eexists. split; [vm_compute; reflexivity |].
  split; [reflexivity |]. split; [vm_compute; reflexivity |]. reflexivity.
Qed.

(** The same file without the earlier line: the coefficient keeps the 0.0
    it was created with. *)
Example molden_unreadable_coefficient_zero :
  exists q,
    Molden.read_molden
      (Samples.only (Samples.molden_h ["1 abc"])) "h.molden" false = Ok q
    /\ map QC.mo_coeffs (QC.mo_spec q) = [[7 # 10]; [0%Q]].
Proof. eexists. split; [vm_compute; reflexivity | reflexivity]. Qed.

(** ** Occupation numbers of read_gaussian_fchk *)

Lemma fchk_step_orbital_energies (s : Fchk.state) (line : string) :
  fchk_orbital_energies_line line = true ->
  Fchk.step s line = Fchk.mo_header line (Py.split line) s.
Proof.
  unfold fchk_orbital_energies_line, fchk_earlier_keywords. simpl.
  rewrite !andb_true_iff, !negb_true_iff. intros H. destruct_and!.
  unfold Fchk.step.
  repeat match goal with
         | H : Py.contains _ line = _ |- _ => rewrite H; clear H
         end.
  reflexivity.
Qed.

Lemma fchk_create_orbitals (i occ B : Z) (N a : nat)
    (mos0 mos : list QC.MO) :
  Py.foldM (fun mos ii =>
              let* z := Py.zeros B in
              Ok (Fchk.new_orbital i occ z mos ii))
           (map Z.of_nat (seq a N)) mos0 = Ok mos ->
  exists created,
    mos = mos0 ++ created /\ length created = N
    /\ forall (k : nat) m, created !! k = Some m ->
         QC.mo_occ_num m
         = Some (Py.float_of_Z (if Z.of_nat (a + k) <? i then occ else 0))
         /\ QC.mo_energy m = Some 0%Q
         /\ QC.mo_coeffs m = repeat 0%Q (Z.to_nat B).
Proof.
  revert a mos0. induction N as [| N IH]; intros a mos0 H; simpl in H.
  - inversion H; subst. exists []. rewrite app_nil_r.
    split; [reflexivity |]. split; [reflexivity |].
    intros k m Hk. by rewrite lookup_nil in Hk.
  - inv_bind H. inv_bind Ha. inversion Ha; subst a0; clear Ha.
    unfold Py.zeros in Ha0. destruct (B <? 0); [discriminate |].
    inversion Ha0; subst a1; clear Ha0.
    apply IH in H as (created & -> & Hlen & Hall).
    unfold Fchk.new_orbital. rewrite <- app_assoc. simpl.
    eexists. split; [reflexivity |]. split; [simpl; by rewrite Hlen |].
    intros [| k] m Hk; simpl in Hk.
    + inversion Hk; subst m; clear Hk. simpl.
      by rewrite Nat.add_0_r.
    + apply Hall in Hk. by replace (a + S k)%nat with (S a + k)%nat by lia.
Qed.

Lemma fchk_geo_header_mos i t s s' :
  Fchk.geo_header i t s = Ok s' -> fmos s' = fmos s.
Proof.
  unfold Fchk.geo_header, Fchk.allocate_geo. intros H. crush; unfold fmos; simpl; repeat case_match; reflexivity.
Qed.

Lemma fchk_ao_header_mos i t s s' :
  Fchk.ao_header i t s = Ok s' -> fmos s' = fmos s.
Proof.
  unfold Fchk.ao_header, Fchk.allocate_ao. intros H. crush; unfold fmos; simpl; repeat case_match; reflexivity.
Qed.

Lemma fchk_ao_coeffs_header_mos i t s s' :
  Fchk.ao_coeffs_header i t s = Ok s' -> fmos s' = fmos s.
Proof.
  unfold Fchk.ao_coeffs_header. intros H. crush; unfold fmos; simpl; repeat case_match; reflexivity.
Qed.

Lemma fchk_geo_token_mos s t s' :
  Fchk.geo_token s t = Ok s' -> fmos s' = fmos s.
Proof.
  unfold Fchk.geo_token. intros H. crush; unfold fmos; simpl; repeat case_match; reflexivity.
Qed.
Lemma fchk_pos_token_mos s t s' :
  Fchk.pos_token s t = Ok s' -> fmos s' = fmos s.
Proof.
  unfold Fchk.pos_token. intros H. crush; unfold fmos; simpl; repeat case_match; reflexivity.
Qed.
Lemma fchk_ao_token_mos s t s' :
  Fchk.ao_token s t = Ok s' -> fmos s' = fmos s.
Proof.
  unfold Fchk.ao_token. intros H. crush; unfold fmos; simpl; repeat case_match; reflexivity.
Qed.
Lemma fchk_ao_coeffs_token_mos s t s' :
  Fchk.ao_coeffs_token s t = Ok s' -> fmos s' = fmos s.
Proof.
  unfold Fchk.ao_coeffs_token. intros H. crush; unfold fmos; simpl; repeat case_match.
  all: reflexivity.
Qed.

Lemma fchk_eorb_token_occ s t s' :
  Fchk.eorb_token s t = Ok s' ->
  occupations (fmos s') = occupations (fmos s).
Proof.
  unfold Fchk.eorb_token, fmos, occupations. intros H.
  crush; kept_by_update.
Qed.

Lemma fchk_coeffs_token_occ s t s' :
  Fchk.coeffs_token s t = Ok s' ->
  occupations (fmos s') = occupations (fmos s).
Proof.
  unfold Fchk.coeffs_token, fmos, occupations. intros H.
  crush; kept_by_update.
Qed.

Lemma fchk_tokens_occ (tok : Fchk.state -> string -> result Fchk.state)
    (l : list string) (s s' : Fchk.state) :
  (forall s t s', tok s t = Ok s' ->
                  occupations (fmos s') = occupations (fmos s)) ->
  Py.foldM tok l s = Ok s' ->
  occupations (fmos s') = occupations (fmos s).
Proof.
  intros Htok. apply (foldM_invariant
    (fun x => occupations (fmos x) = occupations (fmos s))); [| reflexivity].
  intros s1 t s2 H1 H2. apply Htok in H2. congruence.
Qed.

Lemma fchk_mo_header_occ line t s s' :
  Fchk.mo_header line t s = Ok s' ->
  occupations (fmos s) `prefix_of` occupations (fmos s').
Proof.
  unfold Fchk.mo_header. intros H. crush.
  apply fchk_create_orbitals in H1 as (created & -> & _).
  unfold fmos, occupations. simpl. rewrite map_app. by eexists.
Qed.

Lemma fchk_step_occ (s s' : Fchk.state) (line : string) :
  Fchk.step s line = Ok s' ->
  occupations (fmos s) `prefix_of` occupations (fmos s').
Proof.
  unfold Fchk.step. intros H.
  repeat match type of H with
         | (if ?c then _ else _) = _ => destruct c eqn:?
         end.
  all: try (eapply fchk_mo_header_occ; eassumption).
  all: try (apply fchk_geo_header_mos in H; rewrite H; reflexivity).
  all: try (apply fchk_ao_header_mos in H; rewrite H; reflexivity).
  all: try (apply fchk_ao_coeffs_header_mos in H; rewrite H; reflexivity).
  all: try (crush; reflexivity).
  destruct (Fchk.sec_flag s); crush; try reflexivity.
  all: match goal with
       | H : Py.foldM _ _ _ = Ok _ |- _ =>
           eapply fchk_tokens_occ in H;
           [ unfold fmos in *; simpl; repeat case_match; simpl;
             rewrite H; reflexivity | ]
       end.
  all: intros ? ? ? Ht;
    first [ apply fchk_geo_token_mos in Ht; by rewrite Ht
          | apply fchk_pos_token_mos in Ht; by rewrite Ht
          | apply fchk_ao_token_mos in Ht; by rewrite Ht
          | apply fchk_ao_coeffs_token_mos in Ht; by rewrite Ht
          | eapply fchk_eorb_token_occ; eassumption
          | eapply fchk_coeffs_token_occ; eassumption ].
Qed.

Lemma fchk_run_occ (rest : list string) (s s' : Fchk.state) :
  Py.foldM Fchk.step rest s = Ok s' ->
  occupations (fmos s) `prefix_of` occupations (fmos s').
Proof.
  apply (foldM_invariant
    (fun x => occupations (fmos s) `prefix_of` occupations (fmos x)));
    [| reflexivity].
  intros s1 l s2 H1 H2. apply fchk_step_occ in H2. by etransitivity.
Qed.

(** C10: an [Orbital Energies] line creates the orbitals of its block at
    once, each with its occupation number, a zero energy and a zero
    coefficient vector: with equal numbers of alpha and beta electrons
    the first [el_num] orbitals of the block get 2.0 and the others 0.0;
    with different numbers the first alpha-count orbitals (line with
    [Alpha]) or beta-count orbitals (any other line) get 1.0 and the
    others 0.0. No later line changes an occupation number. *)
Theorem fchk_occupation_fixed_at_keyword (s s' s'' : Fchk.state)
    (line : string) (rest : list string) :
  fchk_orbital_energies_line line = true ->
  Fchk.step s line = Ok s' ->
  Py.foldM Fchk.step rest s' = Ok s'' ->
  exists (n : Z) (created : list QC.MO),
    Fchk.last_int (Py.split line) = Ok n
    /\ QC.mo_spec (Fchk.qc s') = QC.mo_spec (Fchk.qc s) ++ created
    /\ length created = Z.to_nat n
    /\ (forall (k : nat) (m : QC.MO),
          created !! k = Some m ->
          QC.mo_occ_num m
          = Some (Py.float_of_Z
                    (fchk_expected_occupation
                       (fst (Fchk.el_num s)) (snd (Fchk.el_num s))
                       (Py.contains "Alpha" line) (Z.of_nat k)))
          /\ QC.mo_energy m = Some 0%Q
          /\ QC.mo_coeffs m = repeat 0%Q (Z.to_nat (Fchk.basis_count s)))
    /\ occupations (QC.mo_spec (Fchk.qc s'))
       `prefix_of` occupations (QC.mo_spec (Fchk.qc s'')).
Proof.
  intros Hline Hstep Hrest.
  rewrite (fchk_step_orbital_energies s line Hline) in Hstep.
  apply fchk_run_occ in Hrest.
  unfold Fchk.mo_header in Hstep. crush.
  match goal with
  | H : Py.foldM _ _ _ = Ok _ |- _ =>
      apply fchk_create_orbitals in H as (created & -> & Hlen & Hall)
  end.
  exists x, created. split; [assumption |]. split; [reflexivity |].
  split; [exact Hlen |]. split; [| exact Hrest].
  intros k m Hk. apply Hall in Hk as (Hocc & He & Hc).
  split; [| split; [exact He | exact Hc]].
  rewrite Hocc. f_equal. f_equal.
  unfold Fchk.occupied_count, fchk_expected_occupation in *.
  simpl in *. repeat case_match; crush; try reflexivity; congruence.
Qed.

Lemma fchk_occupation_fixed_at_keyword_witness :
  fchk_orbital_energies_line Samples.fchk_energies = true
  /\ Fchk.step Samples.fchk_s0 Samples.fchk_energies = Ok Samples.fchk_s1
  /\ Py.foldM Fchk.step Samples.fchk_after Samples.fchk_s1
     = Ok Samples.fchk_s2
  /\ occupations (QC.mo_spec (Fchk.qc Samples.fchk_s1))
     = [Some 2%Q; Some 0%Q]
  /\ occupations (QC.mo_spec (Fchk.qc Samples.fchk_s1))
     `prefix_of` occupations (QC.mo_spec (Fchk.qc Samples.fchk_s2)).
Proof.
  assert (H0 : fchk_orbital_energies_line Samples.fchk_energies = true)
    by reflexivity.
  assert (H1 : Fchk.step Samples.fchk_s0 Samples.fchk_energies
               = Ok Samples.fchk_s1) by (vm_compute; reflexivity).
  assert (H2 : Py.foldM Fchk.step Samples.fchk_after Samples.fchk_s1
               = Ok Samples.fchk_s2) by (vm_compute; reflexivity).
  split; [exact H0 |]. split; [exact H1 |]. split; [exact H2 |].
  split; [reflexivity |].
  destruct (fchk_occupation_fixed_at_keyword
              Samples.fchk_s0 Samples.fchk_s1 Samples.fchk_s2
              Samples.fchk_energies Samples.fchk_after H0 H1 H2)
    as (n & created & _ & _ & _ & _ & Hfixed).
  exact Hfixed.
Defined.

(** ** Dipoles of the transition-dipole section of read_gamess *)

Lemma gamess_step_plain (s : Gamess.state) (line : string) :
  gamess_plain line = true ->
  Gamess.step s line
  = match Gamess.sec_flag s with
    | Gamess.GeoInfo => Gamess.geo_line line (Py.split line) s
    | Gamess.AoInfo => Gamess.ao_line line (Py.split line) s
    | Gamess.MoInfo => Gamess.mo_line line (Py.split line) s
    | Gamess.TdmInfo => Gamess.tdm_line line s
    | Gamess.SecFalse | Gamess.SecNone => Ok s
    end.
Proof.
  unfold gamess_plain, gamess_keywords. simpl.
  rewrite !andb_true_iff, !negb_true_iff. intros H. destruct_and!.
  unfold Gamess.step.
  repeat match goal with
         | H : Py.contains _ line = _ |- _ => rewrite H; clear H
         end.
  reflexivity.
Qed.

Lemma gamess_when_keeps (c : bool)
    (body : Gamess.state -> result Gamess.state) (s s' : Gamess.state) :
  (forall s s', body s = Ok s' -> dipoles s' = dipoles s) ->
  Gamess.when c body s = Ok s' -> dipoles s' = dipoles s.
Proof.
  intros Hbody. destruct c; simpl; [apply Hbody |].
  intros H. by inversion H.
Qed.

Lemma gamess_multiplicity_keeps line s s' :
  Gamess.tdm_state_multiplicity_line line s = Ok s' -> dipoles s' = dipoles s.
Proof.
  unfold Gamess.tdm_state_multiplicity_line. intros H. crush. reflexivity.
Qed.

Lemma gamess_energy_keeps line s s' :
  Gamess.tdm_state_energy_line line s = Ok s' -> dipoles s' = dipoles s.
Proof.
  unfold Gamess.tdm_state_energy_line. intros H. crush. reflexivity.
Qed.

Lemma gamess_state_header_keeps line s s' :
  Gamess.tdm_state_header line s = Ok s' -> dipoles s' = dipoles s.
Proof. unfold Gamess.tdm_state_header. intros H. crush. reflexivity. Qed.

Lemma gamess_ground_transition_keeps line s s' :
  Gamess.tdm_ground_transition line s = Ok s' -> dipoles s' = dipoles s.
Proof.
  unfold Gamess.tdm_ground_transition. intros H. crush. reflexivity.
Qed.

Lemma gamess_excited_transition_keeps line s s' :
  Gamess.tdm_excited_transition line s = Ok s' -> dipoles s' = dipoles s.
Proof.
  unfold Gamess.tdm_excited_transition. intros H. crush. reflexivity.
Qed.

Lemma gamess_tdm_markers_keep line s s' :
  Gamess.tdm_markers line s = Ok s' -> dipoles s' = dipoles s.
Proof.
  unfold Gamess.tdm_markers. intros H.
  inv_bind H. inv_bind H. inv_bind H.
  apply gamess_when_keeps in Ha; [| apply gamess_state_header_keeps].
  apply gamess_when_keeps in Ha0; [| apply gamess_ground_transition_keeps].
  apply gamess_when_keeps in Ha1; [| apply gamess_excited_transition_keeps].
  apply gamess_when_keeps in H; [congruence |].
  intros s1 s2 Hb. by inversion Hb.
Qed.

Lemma gamess_tdm_no_marker line s :
  gamess_no_tdm_marker line = true -> Gamess.tdm_markers line s = Ok s.
Proof.
  unfold gamess_no_tdm_marker, gamess_tdm_markers. simpl.
  rewrite !andb_true_iff, !negb_true_iff. intros H. destruct_and!.
  unfold Gamess.tdm_markers.
  repeat match goal with
         | H : Py.contains _ line = _ |- _ => rewrite H; clear H
         end.
  reflexivity.
Qed.

Lemma gamess_tdm_values_keep line s s' :
  Py.contains "E*BOHR" line = false ->
  Gamess.tdm_values line s = Ok s' -> dipoles s' = dipoles s.
Proof.
  unfold Gamess.tdm_values. intros He H. rewrite He in H.
  inv_bind H. destruct a; simpl in H.
  - by inversion H.
  - inv_bind H. inv_bind H. inversion H; subst.
    apply gamess_when_keeps in Ha0, Ha1;
      eauto using gamess_multiplicity_keeps, gamess_energy_keeps.
    congruence.
  - by inversion H.
Qed.

(** C8: a line of the transition-dipole section that holds
    [GROUND STATE (SCF) DIPOLE=] stores its three values, each multiplied
    by 0.393430307, in row 0 of the state dipoles; a line with [E*BOHR]
    stores its three values as they are, in the row of the current state
    or in the entry of the current pair of states; no other line of the
    section touches the two arrays. [d] and [t] are the arrays the line
    finds (allocated by it when it is the first of the section). *)
Theorem gamess_dipole_units (s s0 s' : Gamess.state) (line : string)
    (d : list (list Q)) (t : list (list (list Q))) :
  Gamess.sec_flag s = Gamess.TdmInfo ->
  gamess_plain line = true ->
  Gamess.tdm_allocate s = Ok s0 ->
  Gamess.tdm_state_dipole (Gamess.tdm s0) = Some (Some d) ->
  Gamess.tdm_tdm (Gamess.tdm s0) = Some t ->
  Gamess.step s line = Ok s' ->
  (Py.contains "GROUND STATE (SCF) DIPOLE=" line = true ->
   Py.contains "E*BOHR" line = false ->
   exists v d',
     Gamess.three_floats (Py.split line) 4 = Ok v
     /\ Py.setitem d 0 (debye_scaled v) = Ok d'
     /\ Gamess.tdm_state_dipole (Gamess.tdm s') = Some (Some d')
     /\ Gamess.tdm_tdm (Gamess.tdm s') = Some t)
  /\ (forall i : Z,
        Py.contains "GROUND STATE (SCF) DIPOLE=" line = false ->
        gamess_no_tdm_marker line = true ->
        Gamess.tdm_flag (Gamess.tdm s0) = Some Gamess.StateInfo ->
        Gamess.tdm_state (Gamess.tdm s0) = Some i ->
        Py.contains "E*BOHR" line = true ->
        exists v d',
          Gamess.three_floats (Py.split line) 3 = Ok v
          /\ Py.setitem d i v = Ok d'
          /\ Gamess.tdm_state_dipole (Gamess.tdm s') = Some (Some d')
          /\ Gamess.tdm_tdm (Gamess.tdm s') = Some t)
  /\ (forall i j : Z,
        Py.contains "GROUND STATE (SCF) DIPOLE=" line = false ->
        gamess_no_tdm_marker line = true ->
        Gamess.tdm_flag (Gamess.tdm s0) = Some Gamess.TransitionInfo ->
        Gamess.tdm_trans_states (Gamess.tdm s0) = Some (i, j) ->
        Py.contains "E*BOHR" line = true ->
        exists v t',
          Gamess.three_floats (Py.split line) 3 = Ok v
          /\ Py.alteritem t i (fun row => Py.setitem row j v) = Ok t'
          /\ Gamess.tdm_state_dipole (Gamess.tdm s') = Some (Some d)
          /\ Gamess.tdm_tdm (Gamess.tdm s') = Some t')
  /\ (Py.contains "GROUND STATE (SCF) DIPOLE=" line = false ->
      Py.contains "E*BOHR" line = false ->
      Gamess.tdm_state_dipole (Gamess.tdm s') = Some (Some d)
      /\ Gamess.tdm_tdm (Gamess.tdm s') = Some t).
Proof.
  intros Hsec Hplain Halloc Hd Ht Hstep.
  rewrite (gamess_step_plain s line Hplain), Hsec in Hstep.
  unfold Gamess.tdm_line in Hstep.
  rewrite Halloc in Hstep. simpl in Hstep. clear Halloc Hsec s.
  rename s0 into s.
  split; [| split; [| split]].
  - intros Hg He. rewrite Hg in Hstep. simpl in Hstep.
    inv_bind Hstep. inv_bind Hstep.
    apply gamess_tdm_markers_keep in Ha0.
    apply (gamess_tdm_values_keep _ _ _ He) in Hstep.
    unfold Gamess.tdm_ground_dipole in Ha. crush.
    rewrite Hd in *. crush.
    eexists _, _. split; [eassumption |]. split; [eassumption |].
    rewrite Ha0 in Hstep. unfold dipoles in Hstep. simpl in Hstep.
    inversion Hstep as [[E1 E2]]. split; [reflexivity |]. by rewrite E2.
  - intros i Hg Hm Hf Hi He. rewrite Hg in Hstep. simpl in Hstep.
    rewrite (gamess_tdm_no_marker _ _ Hm) in Hstep. simpl in Hstep.
    unfold Gamess.tdm_values in Hstep. rewrite Hf, He in Hstep.
    simpl in Hstep. inv_bind Hstep. inv_bind Hstep.
    assert (K1 : dipoles a = dipoles s).
    { destruct (Py.contains "STATE MULTIPLICITY" line); simpl in Ha;
        [by apply gamess_multiplicity_keeps in Ha | by inversion Ha]. }
    assert (K1' : Gamess.tdm_state (Gamess.tdm a) = Some i).
    { destruct (Py.contains "STATE MULTIPLICITY" line); simpl in Ha;
        [| by inversion Ha; subst].
      unfold Gamess.tdm_state_multiplicity_line in Ha. crush. exact Hi. }
    assert (K2 : dipoles a0 = dipoles a).
    { destruct (Py.contains "STATE ENERGY" line); simpl in Ha0;
        [by apply gamess_energy_keeps in Ha0 | by inversion Ha0]. }
    assert (K2' : Gamess.tdm_state (Gamess.tdm a0) = Some i).
    { destruct (Py.contains "STATE ENERGY" line); simpl in Ha0;
        [| by inversion Ha0; subst].
      unfold Gamess.tdm_state_energy_line in Ha0. crush. exact K1'. }
    rewrite K1 in K2. unfold dipoles in K2. inversion K2 as [[E1 E2]].
    unfold Gamess.tdm_state_dipole_line in Hstep. crush.
    rewrite E1, Hd in *. rewrite K2' in *. crush.
    eexists _, _. split; [eassumption |]. split; [eassumption |].
    simpl. split; [reflexivity |]. by rewrite E2.
  - intros i j Hg Hm Hf Hi He. rewrite Hg in Hstep. simpl in Hstep.
    rewrite (gamess_tdm_no_marker _ _ Hm) in Hstep. simpl in Hstep.
    unfold Gamess.tdm_values in Hstep. rewrite Hf, He in Hstep.
    simpl in Hstep.
    unfold Gamess.tdm_transition_dipole_line in Hstep. crush.
    rewrite Ht, Hi in *. crush. simpl in *.
    eexists _, _. split; [eassumption |]. split; [eassumption |].
    split; [exact Hd | reflexivity].
  - intros Hg He. rewrite Hg in Hstep. simpl in Hstep.
    inv_bind Hstep. apply gamess_tdm_markers_keep in Ha.
    apply (gamess_tdm_values_keep _ _ _ He) in Hstep.
    rewrite Ha in Hstep. unfold dipoles in Hstep.
    inversion Hstep as [[E1 E2]]. by rewrite E1, E2.
Qed.

Lemma gamess_dipole_units_witness :
  Gamess.step Samples.gamess_tdm_s0 (Samples.gamess_tail_line 11)
  = Ok Samples.gamess_tdm_s1
  /\ Gamess.tdm_state_dipole (Gamess.tdm Samples.gamess_tdm_s1)
     = Some (Some [[0%Q; 0%Q; 393430307 # 1000000000];
                   [0%Q; 0%Q; 0%Q]])
  /\ Gamess.tdm_tdm (Gamess.tdm Samples.gamess_tdm_s1)
     = Some [[[0%Q; 0%Q; 0%Q]; [0%Q; 0%Q; 0%Q]]].
Proof.
  assert (Hstep : Gamess.step Samples.gamess_tdm_s0
                    (Samples.gamess_tail_line 11)
                  = Ok Samples.gamess_tdm_s1) by (vm_compute; reflexivity).
  split; [exact Hstep |].
  destruct (gamess_dipole_units
              Samples.gamess_tdm_s0
              (Samples.final Gamess.init
                 (Gamess.tdm_allocate Samples.gamess_tdm_s0))
              Samples.gamess_tdm_s1 (Samples.gamess_tail_line 11)
              [[0%Q; 0%Q; 0%Q]; [0%Q; 0%Q; 0%Q]]
              [[[0%Q; 0%Q; 0%Q]; [0%Q; 0%Q; 0%Q]]]
              eq_refl eq_refl eq_refl eq_refl eq_refl Hstep)
    as (Hground & _).
  destruct (Hground eq_refl eq_refl) as (v & d' & Hv & Hset & Hd & Ht).
  split; [| exact Ht].
  rewrite Hd. f_equal. f_equal.
  vm_compute in Hv. inversion Hv; subst v.
  vm_compute in Hset. by inversion Hset.
Defined.
(** ** The selection of read_gaussian_log *)

Lemma getitem_range (count i : Z) :
  0 < count -> - count <= i < count ->
  Py.getitem (Py.range count) i = Ok (i mod count).
Proof.
  intros Hc Hi. unfold Py.getitem, Py.range.
  rewrite length_map, length_seq.
  unfold Py.norm_index. rewrite Z2Nat.id by lia.
  destruct (Z.leb_spec 0 i) as [H0 | H0].
  - destruct (Z.ltb_spec i count) as [H1 | H1]; [| lia].
    rewrite list_lookup_fmap, lookup_seq_lt by lia. simpl.
    rewrite Z2Nat.id by lia. by rewrite Z.mod_small by lia.
  - destruct (Z.leb_spec (- count) i) as [H1 | H1]; [| lia].
    rewrite list_lookup_fmap, lookup_seq_lt by lia. simpl.
    rewrite Z2Nat.id by lia. f_equal.
    apply Z.mod_unique with (q := -1); lia.
Qed.



Lemma check_sel_none (i : Z) (interactive : bool)
    (kb : GaussianLog.keyboard) :
  GaussianLog.check_sel 0 i interactive kb = Raise IndexError.
Proof. reflexivity. Qed.




























(** The reader on that file returns the third geometry (z = 3 Angstroem,
    in bohr), not the fourth, which is printed in input orientation. *)
Example log_reads_third_geometry :
  exists q : QC.QCinfo,
    GaussianLog.read_gaussian_log (Samples.only Samples.log_h) [] "h.log"
      false "standard" (-1) (-1) (-1) false = Ok q
    /\ QC.geo_spec q
       = [[0%Q; 0%Q; Py.fmul GaussianLog.aa_to_au 3]].
Proof. eexists. split; [vm_compute; reflexivity |]. reflexivity. Qed.

(* ===================================================================== *)
(** * Further properties of the readers *)
(* ===================================================================== *)

(** ** The closing filter of the molden, FChk and .log readers *)

Lemma keep_occupied_run (l acc : list QC.MO) :
  Py.foldM QC.keep_occupied l acc
  = if forallb has_occupation l
    then Ok (acc ++ filter (fun m => occupied m = true) l)
    else Raise (KeyError "occ_num").
Proof.
  revert acc. induction l as [| m l IH]; intros acc; simpl.
  - by rewrite app_nil_r.
  - unfold QC.keep_occupied at 1, has_occupation at 1.
    destruct (QC.mo_occ_num m) as [o |] eqn:Ho; simpl; [| reflexivity].
    rewrite IH. destruct (forallb has_occupation l); [| reflexivity].
    f_equal. rewrite filter_cons.
    assert (Hocc : occupied m = Py.fgt o QC.occ_threshold)
      by (unfold occupied; by rewrite Ho).
    destruct (decide (occupied m = true)) as [Hd | Hd]; rewrite Hocc in Hd.
    + rewrite Hd. by rewrite <- app_assoc.
    + apply not_true_is_false in Hd. by rewrite Hd.
Qed.

(** X1: the readers with a closing filter (molden, FChk, .log), asked
    with [all_mo=False], return the record they return with
    [all_mo=True] in which [mo_spec] holds exactly the orbitals with an
    occupation above 1e-7, in their order, and nothing else is changed; if
    one of the orbitals read has no [occ_num] entry the call ends in
    [KeyError('occ_num')] instead, although the call with [all_mo=True]
    succeeds. *)
Theorem closing_filter (r : Dispatch.reader) (fs : filesystem)
    (kb : GaussianLog.keyboard) (filename : string) (q : QC.QCinfo) :
  r <> Dispatch.ReadGamess ->
  Dispatch.call r fs kb filename true = Ok q ->
  Dispatch.call r fs kb filename false
  = if forallb has_occupation (QC.mo_spec q)
    then Ok (QC.set_mo_spec
               (filter (fun m => occupied m = true) (QC.mo_spec q)) q)
    else Raise (KeyError "occ_num").
Proof.
  intros Hr Hall.
  assert (Hfilter : Dispatch.call r fs kb filename false
                    = Py.bind (Dispatch.call r fs kb filename true)
                              QC.occupied_only).
  { destruct r; simpl.
    - apply read_molden_filter.
    - congruence.
    - apply read_gaussian_log_filter.
    - apply read_gaussian_fchk_filter. }
  rewrite Hfilter, Hall. simpl. unfold QC.occupied_only.
  rewrite keep_occupied_run.
  destruct (forallb has_occupation (QC.mo_spec q)); reflexivity.
Qed.

Lemma closing_filter_witness :
  Dispatch.call Dispatch.ReadGaussianFchk (Samples.only Samples.fchk_h2) []
                "h2.fchk" false
  = Ok (QC.set_mo_spec (take 1 (QC.mo_spec Samples.fchk_h2_record))
                       Samples.fchk_h2_record).
Proof.
  rewrite (closing_filter Dispatch.ReadGaussianFchk
             (Samples.only Samples.fchk_h2) [] "h2.fchk"
             Samples.fchk_h2_record);
    [reflexivity | discriminate | vm_compute; reflexivity].
Defined.

(** An orbital of a molden file without an [Occup=] line: the file is
    read with [all_mo=True] and refused with [all_mo=False]. *)
Example closing_filter_missing_occupation :
  (exists q, Molden.read_molden (Samples.only Samples.molden_h_no_occupation)
               "h.molden" true = Ok q
             /\ map has_occupation (QC.mo_spec q) = [true; false])
  /\ Molden.read_molden (Samples.only Samples.molden_h_no_occupation)
                        "h.molden" false
     = Raise (KeyError "occ_num").
Proof.
  split; [eexists; split |]; vm_compute; reflexivity.
Qed.

(** ** The choice of a section in read_gaussian_log *)

Lemma getitem_range_outside (count i : Z) :
  (- count <=? i) && (i <? count) = false ->
  Py.getitem (Py.range count) i = Raise IndexError.
Proof.
  intros Hi. unfold Py.getitem, Py.range.
  rewrite length_map, length_seq. unfold Py.norm_index.
  apply andb_false_iff in Hi.
  destruct (Z.leb_spec 0 i) as [H0 | H0].
  - destruct (Z.ltb_spec i (Z.of_nat (Z.to_nat count))) as [H1 | H1];
      [| reflexivity].
    destruct Hi as [Hi | Hi];
      [apply Z.leb_gt in Hi | apply Z.ltb_ge in Hi]; lia.
  - destruct (Z.leb_spec (- Z.of_nat (Z.to_nat count)) i) as [H1 | H1];
      [| reflexivity].
    destruct Hi as [Hi | Hi];
      [apply Z.leb_gt in Hi | apply Z.ltb_ge in Hi]; lia.
Qed.

(** X2: what [check_sel] answers without the keyboard.  With no section
    it raises [IndexError]; with a single section it answers 0 whatever
    the index asked for; with [count >= 2] sections an index from
    [-count] to [count-1] is resolved as a Python list index and any other
    index ends in [IOError] with the message of the prompt, its colon
    turned into an exclamation mark. *)
Theorem check_sel_resolves (count i : Z) (kb : GaussianLog.keyboard) :
  GaussianLog.check_sel count i false kb
  = if count =? 0 then Raise IndexError
    else if count =? 1 then Ok (0, kb)
    else if (- count <=? i) && (i <? count) then Ok (i mod count, kb)
    else Raise (IOError (Py.replace ":" "!"
                           (GaussianLog.selection_message count))).
Proof.
  unfold GaussianLog.check_sel.
  destruct (Z.eqb_spec count 0) as [| H0]; [reflexivity |].
  destruct (Z.eqb_spec count 1) as [| H1]; [reflexivity |].
  cbn [Py.bind].
  destruct ((- count <=? i) && (i <? count)) eqn:Hi.
  - apply andb_true_iff in Hi as [Ha Hb].
    apply Z.leb_le in Ha. apply Z.ltb_lt in Hb.
    rewrite getitem_range by lia. reflexivity.
  - rewrite getitem_range_outside by exact Hi. reflexivity.
Qed.

(** ** The first pass of read_gaussian_log *)

(** X3: a basis-set line ([Standard basis:] or [General basis read from
    cards:]) without [(6D, 10F)] stops [read_gaussian_log] in its first
    pass with the [IOError] that asks for a Cartesian basis, whatever
    follows the line and whatever sections are asked for. *)
Theorem log_needs_cartesian_basis (pre post : list string) (l : string)
    (c : GaussianLog.census) (kb : GaussianLog.keyboard)
    (filename orientation : string) (all_mo interactive : bool)
    (i_geo i_ao i_mo : Z) :
  GaussianLog.take_census orientation pre = Ok c ->
  Py.contains " orientation:" l = false ->
  Py.contains "Standard basis:" l
  || Py.contains "General basis read from cards:" l = true ->
  Py.contains "(6D, 10F)" l = false ->
  GaussianLog.read_gaussian_log (Samples.only (pre ++ l :: post)) kb filename
    all_mo orientation i_geo i_ao i_mo interactive
  = Raise (IOError GaussianLog.cartesian_message).
Proof.
  intros Hpre Ho Hb Hc.
  unfold GaussianLog.read_gaussian_log, read_lines, Samples.only.
  cbn [Py.bind]. unfold GaussianLog.take_census in *.
  rewrite foldM_app, Hpre. cbn [Py.bind Py.foldM].
  unfold GaussianLog.census_step at 1. rewrite Ho, Hb, Hc. reflexivity.
Qed.

Lemma log_needs_cartesian_basis_witness :
  GaussianLog.read_gaussian_log
    (Samples.only (Samples.log_pre
                   ++ Samples.ln " Standard basis: 6-31G(d) (5D, 7F)"
                   :: Samples.log_post))
    [] "h.log" true "standard" (-1) (-1) (-1) false
  = Raise (IOError GaussianLog.cartesian_message).
Proof.
  apply (log_needs_cartesian_basis Samples.log_pre Samples.log_post _
           (GaussianLog.mkCensus 2 0 0 [] [] None));
    vm_compute; reflexivity.
Defined.

Lemma census_step_no_orbitals (o : string) (c c' : GaussianLog.census)
    (l : string) :
  Py.contains "Orbital Coefficients:" l = false ->
  GaussianLog.census_step o c l = Ok c' ->
  GaussianLog.molecular_orbitals c' = GaussianLog.molecular_orbitals c.
Proof.
  unfold GaussianLog.census_step. intros Hl H. rewrite Hl in H.
  crush; simpl; repeat case_match; reflexivity.
Qed.

Lemma census_no_orbitals (o : string) (flines : list string)
    (c c' : GaussianLog.census) :
  Forall (fun l => Py.contains "Orbital Coefficients:" l = false) flines ->
  Py.foldM (GaussianLog.census_step o) flines c = Ok c' ->
  GaussianLog.molecular_orbitals c' = GaussianLog.molecular_orbitals c.
Proof.
  intros Hall. revert c.
  induction Hall as [| l ls Hl _ IH]; intros c H; simpl in H.
  - by inversion H.
  - inv_bind H. apply IH in H. rewrite H.
    by eapply census_step_no_orbitals.
Qed.

(** X4: a .log file without any [Orbital Coefficients:] line is never
    read: once the first pass, the choice of the geometry and the choice
    of the basis set have succeeded, the choice of the orbital section
    ends in a bare [IndexError]. *)
Theorem log_without_orbital_section (flines : list string)
    (c : GaussianLog.census) (kb kb1 kb2 : GaussianLog.keyboard)
    (filename orientation o1 : string) (all_mo interactive : bool)
    (i_geo i_ao i_mo g a : Z) :
  Forall (fun l => Py.contains "Orbital Coefficients:" l = false) flines ->
  GaussianLog.take_census orientation flines = Ok c ->
  GaussianLog.select_geometry c orientation i_geo interactive kb
  = Ok (o1, g, kb1) ->
  GaussianLog.select_ao c i_ao interactive kb1 = Ok (a, kb2) ->
  GaussianLog.read_gaussian_log (Samples.only flines) kb filename all_mo
    orientation i_geo i_ao i_mo interactive
  = Raise IndexError.
Proof.
  intros Hall Hc Hg Ha.
  unfold GaussianLog.read_gaussian_log, read_lines, Samples.only.
  cbn [Py.bind]. rewrite Hc. cbn [Py.bind].
  unfold GaussianLog.select. rewrite Hg. cbn [Py.bind]. rewrite Ha.
  cbn [Py.bind].
  apply census_no_orbitals in Hc; [| exact Hall]. rewrite Hc. reflexivity.
Qed.

Lemma log_without_orbital_section_witness :
  GaussianLog.read_gaussian_log (Samples.only Samples.log_h_no_orbitals) []
    "h.log" true "standard" (-1) (-1) (-1) false
  = Raise IndexError.
Proof.
  apply (log_without_orbital_section Samples.log_h_no_orbitals
           Samples.log_h_no_orbitals_census [] [] [] "h.log" "standard"
           "standard" true false (-1) (-1) (-1) 2 0).
  - repeat constructor.
  - vm_compute; reflexivity.
  - vm_compute; reflexivity.
  - vm_compute; reflexivity.
Defined.

(** ** The occupation numbers of read_gamess *)

Ltac eqb_to_prop :=
  repeat match goal with
         | H : _ && _ = true |- _ => apply andb_true_iff in H as [? ?]
         | H : _ && _ = false |- _ => apply andb_false_iff in H as [? | ?]
         | H : (_ =? _) = true |- _ => apply Z.eqb_eq in H
         | H : (_ =? _) = false |- _ => apply Z.eqb_neq in H
         | H : negb _ = true |- _ => apply negb_true_iff in H
         | H : negb _ = false |- _ => apply negb_false_iff in H
         end.

Lemma getitem_pair_first {A} (a b : A) : Py.getitem [a; b] 0 = Ok a.
Proof. reflexivity. Qed.

Lemma getitem_pair_second {A} (a b : A) : Py.getitem [a; b] 1 = Ok b.
Proof. reflexivity. Qed.

Lemma both_left_pair (a b : Z) :
  Gamess.both_left [a; b] = Ok (negb (a =? 0) && negb (b =? 0)).
Proof. unfold Gamess.both_left, Py.truthy.
  rewrite getitem_pair_first, getitem_pair_second. cbn [Py.bind]. destruct (a =? 0); reflexivity. Qed.

Lemma beta_left_pair (a b : Z) :
  Gamess.beta_left [a; b] = Ok ((a =? 0) && negb (b =? 0)).
Proof. unfold Gamess.beta_left, Py.truthy.
  rewrite getitem_pair_first, getitem_pair_second. cbn [Py.bind]. destruct (a =? 0); reflexivity. Qed.

Lemma alpha_left_pair (a b : Z) :
  Gamess.alpha_left [a; b] = Ok ((b =? 0) && negb (a =? 0)).
Proof. unfold Gamess.alpha_left, Py.truthy.
  rewrite getitem_pair_first, getitem_pair_second. cbn [Py.bind]. destruct (b =? 0); reflexivity. Qed.

Lemma decrement_alpha (a b : Z) : Gamess.decrement 0 [a; b] = Ok [a - 1; b].
Proof. reflexivity. Qed.

Lemma decrement_beta (a b : Z) : Gamess.decrement 1 [a; b] = Ok [a; b - 1].
Proof. reflexivity. Qed.

Ltac run_occupy Ho H :=
  repeat first
    [ rewrite Ho in H
    | rewrite both_left_pair in H
    | rewrite beta_left_pair in H
    | rewrite alpha_left_pair in H
    | rewrite decrement_alpha in H
    | rewrite decrement_beta in H
    | progress cbn [Py.bind Py.key QC.mo_occ_num QC.set_mo_occ_num] in H
    | match type of H with
      | context [if ?c then _ else _] => destruct c eqn:?
      end ].

(** One orbital: what it receives is what the two counters lose. *)
Lemma occupy_conserves (m m' : QC.MO) (o : Q) (a b : Z)
    (occ' : list Z) (out out' : list string) :
  QC.mo_occ_num m = Some o ->
  Gamess.occupy m [a; b] out = Ok (m', occ', out') ->
  exists a' b' o',
    occ' = [a'; b'] /\ QC.mo_occ_num m' = Some o'
    /\ (o' == o + inject_Z (a + b - a' - b'))%Q
    /\ orbital_but_occupation m' = orbital_but_occupation m
    /\ (0 <= a -> 0 <= b ->
        0 <= a' /\ 0 <= b' /\ Z.max a' b' <= Z.max (Z.max a b - 1) 0).
Proof.
  intros Ho H. unfold Gamess.occupy, Gamess.add_occ in H. rewrite Ho in H.
  run_occupy Ho H.
  all: inversion H; subst; clear H; eqb_to_prop.
  all: try (exfalso; lia).
  all: do 3 eexists; split; [reflexivity |];
    split; [first [reflexivity | eassumption] |].
  all: split; [| split; [reflexivity | lia] ].
  all: unfold Py.fadd; rewrite ?Qred_correct.
  all: match goal with
       | |- (_ == _ + inject_Z ?e)%Q =>
           first [ replace e with 0 by lia | replace e with 1 by lia
                 | replace e with 2 by lia | replace e with 3 by lia ]
       end.
  all: unfold inject_Z; ring.
Qed.

Lemma total_occupation_cons (m : QC.MO) (mos : list QC.MO) :
  total_occupation (m :: mos)
  = (default 0 (QC.mo_occ_num m) + total_occupation mos)%Q.
Proof. reflexivity. Qed.

(** The loop over the orbitals, from non-negative counters. *)
Lemma assign_occupations_conserves (mos : list QC.MO) :
  forall (a b : Z) (out : list string),
    Forall (fun m => has_occupation m = true) mos ->
    0 <= a -> 0 <= b ->
    exists mos' a' b' out',
      Gamess.assign_occupations mos [a; b] out = Ok (mos', [a'; b'], out')
      /\ (total_occupation mos'
          == total_occupation mos + inject_Z (a + b - a' - b'))%Q
      /\ map orbital_but_occupation mos' = map orbital_but_occupation mos
      /\ 0 <= a' /\ 0 <= b'
      /\ Z.max a' b' <= Z.max (Z.max a b - Z.of_nat (length mos)) 0.
Proof.
  induction mos as [| m mos IH]; intros a b out Hall Ha Hb.
  - exists [], a, b, out. simpl.
    split; [reflexivity |]. split.
    { replace (a + b - a - b) with 0 by lia. unfold inject_Z. ring. }
    split; [reflexivity | lia].
  - inversion Hall as [| ? ? Hm Hrest]; subst.
    unfold has_occupation in Hm.
    destruct (QC.mo_occ_num m) as [o |] eqn:Ho; [| discriminate].
    destruct (Gamess.occupy m [a; b] out) as [[[m1 occ1] out1] |] eqn:E.
    2:{ exfalso. unfold Gamess.occupy, Gamess.add_occ in E.
        run_occupy Ho E; discriminate. }
    destruct (occupy_conserves _ _ _ _ _ _ _ _ Ho E)
      as (a1 & b1 & o1 & -> & Ho1 & Hsum & Hkept & Hbound).
    destruct (Hbound Ha Hb) as (Ha1 & Hb1 & Hmax).
    destruct (IH a1 b1 out1 Hrest Ha1 Hb1)
      as (mos' & a' & b' & out' & Hrun & Htot & Hmap & Ha' & Hb' & Hmax').
    exists (m1 :: mos'), a', b', out'.
    cbn [Gamess.assign_occupations]. rewrite E. cbn [Py.bind].
    rewrite Hrun. cbn [Py.bind].
    split; [reflexivity |]. split.
    { rewrite !total_occupation_cons, Htot, Ho, Ho1. simpl default.
      rewrite Hsum.
      replace (a + b - a' - b') with ((a + b - a1 - b1) + (a1 + b1 - a' - b'))
        by lia.
      rewrite inject_Z_plus. ring. }
    split; [simpl; by rewrite Hkept, Hmap |].
    split; [exact Ha' |]. split; [exact Hb' |].
    cbn [length]. lia.
Qed.

(** X5: the occupation loop of [read_gamess] hands out every electron
    once.  From counters [alpha] and [beta] that are not negative, over
    orbitals that number at least [max alpha beta], the loop ends with both
    counters at zero, the occupation numbers have grown by [alpha + beta]
    in total, and nothing but the occupation numbers has changed. *)
Theorem gamess_occupations_sum (mos : list QC.MO) (alpha beta : Z)
    (out : list string) :
  Forall (fun m => has_occupation m = true) mos ->
  0 <= alpha -> 0 <= beta ->
  Z.max alpha beta <= Z.of_nat (length mos) ->
  exists mos' out',
    Gamess.assign_occupations mos [alpha; beta] out = Ok (mos', [0; 0], out')
    /\ (total_occupation mos'
        == total_occupation mos + inject_Z (alpha + beta))%Q
    /\ map orbital_but_occupation mos' = map orbital_but_occupation mos.
Proof.
  intros Hall Ha Hb Hlen.
  destruct (assign_occupations_conserves mos alpha beta out Hall Ha Hb)
    as (mos' & a' & b' & out' & Hrun & Htot & Hmap & Ha' & Hb' & Hmax).
  assert (a' = 0) by lia. assert (b' = 0) by lia. subst a' b'.
  exists mos', out'. split; [exact Hrun |]. split; [| exact Hmap].
  rewrite Htot. by replace (alpha + beta - 0 - 0) with (alpha + beta) by lia.
Qed.

Lemma gamess_occupations_sum_witness :
  exists mos' out',
    Gamess.assign_occupations Samples.two_blank_orbitals [2; 1] []
    = Ok (mos', [0; 0], out')
    /\ (total_occupation mos'
        == total_occupation Samples.two_blank_orbitals + inject_Z (2 + 1))%Q
    /\ map orbital_but_occupation mos'
       = map orbital_but_occupation Samples.two_blank_orbitals.
Proof.
  apply (gamess_occupations_sum Samples.two_blank_orbitals 2 1 []).
  - repeat constructor.
  - lia.
  - lia.
  - simpl. lia.
Defined.

Lemma occupy_both (m : QC.MO) (o : Q) (n : Z) (out : list string) :
  QC.mo_occ_num m = Some o -> 0 < n ->
  Gamess.occupy m [n; n] out
  = Ok (with_added_occupation 2 m, [n - 1; n - 1], out).
Proof.
  intros Ho Hn.
  destruct (Gamess.occupy m [n; n] out) as [[[m1 occ1] out1] |] eqn:E;
    unfold Gamess.occupy, Gamess.add_occ in E; run_occupy Ho E;
    try discriminate.
  all: inversion E; subst; clear E; eqb_to_prop; try (exfalso; lia).
  all: unfold with_added_occupation; by rewrite Ho.
Qed.

Lemma occupy_none (m : QC.MO) (out : list string) :
  Gamess.occupy m [0; 0] out = Ok (m, [0; 0], out).
Proof. reflexivity. Qed.

(** X6: the occupation loop of [read_gamess] for a closed shell.  With
    both counters at [n] the first [n] orbitals receive 2.0 more each and
    the others nothing, both counters end at [n] less the number of
    orbitals served, and [print] is never reached. *)
Theorem gamess_closed_shell (mos : list QC.MO) (n : Z) (out : list string) :
  Forall (fun m => has_occupation m = true) mos ->
  0 <= n ->
  Gamess.assign_occupations mos [n; n] out
  = Ok (map (with_added_occupation 2) (take (Z.to_nat n) mos)
        ++ drop (Z.to_nat n) mos,
        [n - Z.min n (Z.of_nat (length mos));
         n - Z.min n (Z.of_nat (length mos))],
        out).
Proof.
  intros Hall. revert n.
  induction Hall as [| m mos Hm _ IH]; intros n Hn.
  - rewrite take_nil, drop_nil.
    assert (Hk : n - Z.min n (Z.of_nat (length (@nil QC.MO))) = n)
      by (simpl; lia).
    rewrite Hk. reflexivity.
  - unfold has_occupation in Hm.
    destruct (QC.mo_occ_num m) as [o |] eqn:Ho; [| discriminate].
    cbn [Gamess.assign_occupations].
    destruct (Z.eq_dec n 0) as [-> | Hpos].
    + rewrite occupy_none. cbn [Py.bind]. rewrite (IH 0) by lia.
      cbn [Py.bind]. simpl Z.to_nat. rewrite take_0, !drop_0.
      assert (Hk : forall k : nat, 0 - Z.min 0 (Z.of_nat k) = 0) by lia.
      rewrite !Hk. reflexivity.
    + rewrite (occupy_both m o n out Ho) by lia. cbn [Py.bind].
      rewrite (IH (n - 1)) by lia. cbn [Py.bind].
      replace (Z.to_nat n) with (S (Z.to_nat (n - 1))) by lia.
      assert (Hk : n - 1 - Z.min (n - 1) (Z.of_nat (length mos))
                   = n - Z.min n (Z.of_nat (length (m :: mos))))
        by (cbn [length]; lia).
      rewrite Hk. reflexivity.
Qed.

Lemma gamess_closed_shell_witness :
  Gamess.assign_occupations Samples.two_blank_orbitals [1; 1] []
  = Ok ([with_added_occupation 2 Samples.blank_orbital;
         Samples.blank_orbital], [0; 0], []).
Proof.
  apply (gamess_closed_shell Samples.two_blank_orbitals 1 []).
  - repeat constructor.
  - lia.
Defined.

(** ** The check of the basis sets in read_gamess *)

Lemma getitem_middle {A} (p r : list A) (x : A) :
  Py.getitem (p ++ x :: r) (Z.of_nat (length p)) = Ok x.
Proof.
  apply getitem_nat. by rewrite lookup_app_r, Nat.sub_diag by lia.
Qed.

(** The loop over the shells of a later atom, cut after the shells [p]
    already compared with the shells [pk] of the kept basis set. *)
Lemma check_shells_from (r : list Gamess.shell) :
  forall p pk rk : list Gamess.shell,
    length p = length pk -> (length r <= length rk)%nat ->
    Py.foldM (fun (_ : unit) jj =>
                let* a := Py.getitem (p ++ r) jj in
                let* b := Py.getitem (pk ++ rk) jj in
                if negb (Gamess.coeffs_eqb (Gamess.sh_coeffs a)
                                           (Gamess.sh_coeffs b))
                then Raise (IOError "Different basis sets for the same atom.")
                else Ok tt)
             (map Z.of_nat (seq (length p) (length r))) tt
    = if forallb same_primitives (zip r rk) then Ok tt
      else Raise (IOError "Different basis sets for the same atom.").
Proof.
  induction r as [| x r IH]; intros p pk rk Hp Hr; [reflexivity |].
  destruct rk as [| y rk]; [simpl in Hr; lia |].
  cbn [length seq map Py.foldM zip zip_with forallb].
  rewrite getitem_middle. cbn [Py.bind].
  rewrite Hp, getitem_middle. cbn [Py.bind].
  unfold same_primitives at 1. cbn [fst snd].
  destruct (Gamess.coeffs_eqb (Gamess.sh_coeffs x) (Gamess.sh_coeffs y));
    cbn [negb andb Py.bind]; [| reflexivity].
  specialize (IH (p ++ [x]) (pk ++ [y]) rk).
  rewrite !length_app, <- !app_assoc in IH. cbn [length app] in IH.
  rewrite !Nat.add_1_r in IH. rewrite <- Hp.
  apply IH; [by rewrite Hp | simpl in Hr; lia].
Qed.

(** X7: the check of a later atom against the basis set kept for its
    label, when the atom has no more shells than the kept set: the atom
    passes, and the kept sets stay as they are, exactly when each of its
    shells has the primitives of the kept shell at the same place;
    otherwise the check raises the [IOError] on differing basis sets. *)
Theorem gamess_basis_check (basis_set : gmap string (list Gamess.shell))
    (first : Gamess.shell) (rest kept : list Gamess.shell) (label : string) :
  Gamess.sh_atom_type first = Some label ->
  basis_set !! label = Some kept ->
  (length (first :: rest) <= length kept)%nat ->
  Gamess.check_atom basis_set (first :: rest)
  = if forallb same_primitives (zip (first :: rest) kept)
    then Ok basis_set
    else Raise (IOError "Different basis sets for the same atom.").
Proof.
  intros Hlabel Hkept Hlen. unfold Gamess.check_atom.
  change (Py.getitem (first :: rest) 0) with (Ok first).
  cbn [Py.bind]. rewrite Hlabel, Hkept.
  unfold Py.range. rewrite Nat2Z.id.
  assert (Hloop := check_shells_from (first :: rest) [] [] kept eq_refl Hlen).
  cbn [app] in Hloop. change (length (@nil Gamess.shell)) with 0%nat in Hloop.
  rewrite Hloop.
  destruct (forallb same_primitives (zip (first :: rest) kept));
    reflexivity.
Qed.

Lemma gamess_basis_check_witness :
  Gamess.check_atom {[ "H" := [Samples.hydrogen_shell 1] ]}
                    [Samples.hydrogen_shell 2]
  = Raise (IOError "Different basis sets for the same atom.").
Proof.
  rewrite (gamess_basis_check _ _ _ [Samples.hydrogen_shell 1] "H");
    [reflexivity | reflexivity | vm_compute; reflexivity | simpl; lia].
Defined.

(** ** Outputs of Gamess-US without a transition-dipole section *)

Ltac cis_unopened_by_cases :=
  intros ? ? H [? ?]; crush; simpl; repeat case_match; simpl;
  (split; [congruence | assumption]).

Lemma gamess_geo_line_cis line tl s s' :
  Gamess.geo_line line tl s = Ok s' ->
  gamess_cis_unopened s -> gamess_cis_unopened s'.
Proof. unfold Gamess.geo_line, gamess_cis_unopened. revert s s'. cis_unopened_by_cases. Qed.

Lemma gamess_ao_line_cis line tl s s' :
  Gamess.ao_line line tl s = Ok s' ->
  gamess_cis_unopened s -> gamess_cis_unopened s'.
Proof. unfold Gamess.ao_line, gamess_cis_unopened. revert s s'. cis_unopened_by_cases. Qed.

Lemma gamess_mo_line_cis line tl s s' :
  Gamess.mo_line line tl s = Ok s' ->
  gamess_cis_unopened s -> gamess_cis_unopened s'.
Proof. unfold Gamess.mo_line, gamess_cis_unopened. revert s s'. cis_unopened_by_cases. Qed.

Lemma gamess_step_cis (line : string) (s s' : Gamess.state) :
  Py.contains "CIS TRANSITION DIPOLE MOMENTS AND" line = false ->
  Gamess.step s line = Ok s' ->
  gamess_cis_unopened s -> gamess_cis_unopened s'.
Proof.
  intros Hl H Hs. unfold Gamess.step, Gamess.count_line in H.
  rewrite Hl in H.
  repeat match type of H with
         | (if Py.contains ?k line then _ else _) = _ =>
             destruct (Py.contains k line);
             [solve [destruct Hs; unfold gamess_cis_unopened; crush; simpl;
                     (split; [congruence | assumption])] |]
         end.
  destruct (Gamess.sec_flag s) eqn:E.
  - by inversion H; subst.
  - by inversion H; subst.
  - by eapply gamess_geo_line_cis.
  - by eapply gamess_ao_line_cis.
  - by eapply gamess_mo_line_cis.
  - destruct Hs as [Hs _]. congruence.
Qed.

(** X8: [read_gamess] never returns a record for an output without a
    line [CIS TRANSITION DIPOLE MOMENTS AND]: the arrays of the
    transition-dipole section are created by the first line read inside
    that section, and the closing statements of the reader store into
    them whether they exist or not. *)
Theorem gamess_needs_cis_section (flines : list string)
    (filename : string) (all_mo : bool) :
  Forall (fun l => Py.contains "CIS TRANSITION DIPOLE MOMENTS AND" l = false)
         flines ->
  exists e, Gamess.read_gamess (Samples.only flines) filename all_mo
            = Raise e.
Proof.
  intros Hall.
  unfold Gamess.read_gamess, read_lines, Samples.only. cbn [Py.bind].
  destruct (Gamess.run flines) as [s |] eqn:Hrun; [| by eexists].
  cbn [Py.bind].
  assert (Hs : gamess_cis_unopened s).
  { revert Hrun. unfold Gamess.run.
    assert (H0 : gamess_cis_unopened Gamess.init)
      by (split; [discriminate | reflexivity]).
    revert H0. generalize Gamess.init.
    induction Hall as [| l ls Hl _ IH]; intros s0 H0 Hrun; simpl in Hrun.
    - by inversion Hrun; subst.
    - inv_bind Hrun. eapply IH; [| exact Hrun].
      by eapply gamess_step_cis. }
  destruct (Gamess.finish s) as [q |] eqn:Hq; [| by eexists].
  exfalso. unfold Gamess.finish in Hq.
  destruct Hs as [_ Hs]. crush.
  unfold Gamess.save_tdm in Hq.
  match type of Hq with
  | context [Gamess.tdm_state_energy ?t] =>
      change (Gamess.tdm_state_energy t)
        with (Gamess.tdm_state_energy (Gamess.tdm s)) in Hq
  end.
  rewrite Hs in Hq. discriminate.
Qed.

Lemma gamess_needs_cis_section_witness :
  exists e, Gamess.read_gamess (Samples.only Samples.gamess_h2_rhf)
              "h2.out" true = Raise e.
Proof.
  apply (gamess_needs_cis_section Samples.gamess_h2_rhf "h2.out" true).
  repeat constructor.
Defined.

(** The H2 output without its transition-dipole section: everything is
    read, and the closing statements end in [NameError]. *)
Example gamess_rhf_output_refused :
  (exists s, Gamess.run Samples.gamess_h2_rhf = Ok s
             /\ coefficient_counts (QC.mo_spec (Gamess.qc s)) = [2; 2]%nat)
  /\ Gamess.read_gamess (Samples.only Samples.gamess_h2_rhf) "h2.out" true
     = Raise (NameError "tdm_state_energy").
Proof. split; [eexists; split |]; vm_compute; reflexivity. Qed.

(** ** The size of the coefficient vectors in read_molden *)

Lemma basis_fold_types (aos aos' : list QC.AO) :
  map QC.ao_type aos = map QC.ao_type aos' ->
  forall acc,
    Py.foldM (fun acc a =>
                let* t := Py.key "type" (QC.ao_type a) in
                let* d := Core.degeneracy t in
                Ok (acc + d)) aos acc
    = Py.foldM (fun acc a =>
                  let* t := Py.key "type" (QC.ao_type a) in
                  let* d := Core.degeneracy t in
                  Ok (acc + d)) aos' acc.
Proof.
  revert aos'. induction aos as [| a aos IH]; intros [| a' aos'] H acc;
    try discriminate; [reflexivity |].
  simpl in H. inversion H as [[Ha Hrest]]. simpl. rewrite Ha.
  destruct (Py.key "type" (QC.ao_type a')) as [t |]; [| reflexivity].
  simpl. destruct (Core.degeneracy t) as [d |]; [| reflexivity].
  simpl. by apply IH.
Qed.

Lemma basis_size_types (aos aos' : list QC.AO) :
  map QC.ao_type aos' = map QC.ao_type aos ->
  QC.basis_size aos' = QC.basis_size aos.
Proof. intros H. unfold QC.basis_size. by apply basis_fold_types. Qed.

Lemma basis_size_app (aos : list QC.AO) (a : QC.AO) (t : string) (n d : Z) :
  QC.basis_size aos = Ok n ->
  QC.ao_type a = Some t -> Core.degeneracy t = Ok d ->
  QC.basis_size (aos ++ [a]) = Ok (n + d).
Proof.
  unfold QC.basis_size. intros Hn Ht Hd.
  rewrite foldM_app, Hn. simpl. rewrite Ht. simpl. by rewrite Hd.
Qed.

Lemma orbitals_sized_insert (n : Z) (mos : list QC.MO) (k : nat)
    (m m' : QC.MO) :
  orbitals_sized n mos -> mos !! k = Some m ->
  length (QC.mo_coeffs m') = length (QC.mo_coeffs m) ->
  orbitals_sized n (<[k := m']> mos).
Proof.
  unfold orbitals_sized. intros Hall Hk Hlen.
  apply Forall_insert; [exact Hall |].
  rewrite Hlen. by eapply (Forall_lookup_1 _ _ _ _ Hall).
Qed.

Lemma zeros_length (n : Z) (z : list Q) :
  Py.zeros n = Ok z -> Z.of_nat (length z) = n.
Proof.
  unfold Py.zeros. destruct (Z.ltb_spec n 0); intros Hz; inversion Hz.
  rewrite repeat_length. lia.
Qed.

(** What a line of the [[Atoms]] section leaves alone. *)
Lemma molden_geo_line_kept (tl : list string) (s s' : Molden.state) :
  Molden.geo_line tl s = Ok s' ->
  exists q q',
    Molden.qc s = Some q /\ Molden.qc s' = Some q'
    /\ QC.ao_spec q' = QC.ao_spec q /\ QC.mo_spec q' = QC.mo_spec q
    /\ Molden.sec_flag s' = Molden.sec_flag s
    /\ Molden.basis_count s' = Molden.basis_count s.
Proof.
  unfold Molden.geo_line. intros H.
  destruct (Molden.qc s) as [q |] eqn:Hq; [| discriminate]. crush.
  eexists _, _. repeat split; reflexivity.
Qed.

(** What a line of the [[GTO]] section does to a record that exists. *)
Lemma molden_ao_line_kept (line : string) (tl : list string)
    (s s' : Molden.state) (q : QC.QCinfo) (n : Z) :
  Molden.ao_line line tl s = Ok s' ->
  Molden.qc s = Some q ->
  QC.basis_size (QC.ao_spec q) = Ok n ->
  exists q',
    Molden.qc s' = Some q' /\ QC.mo_spec q' = QC.mo_spec q
    /\ Molden.sec_flag s' = Molden.sec_flag s
    /\ QC.basis_size (QC.ao_spec q')
       = Ok (n + (Molden.basis_count s' - Molden.basis_count s)).
Proof.
  unfold Molden.ao_line. intros H Hq Hn.
  destruct tl as [| t0 tl'].
  { inversion H; subst. exists q. simpl.
    repeat split; try assumption. rewrite Hn. f_equal; lia. }
  destruct (Molden.bNew s) as [[] |] eqn:Hb; simpl in H; [| | discriminate].
  { crush. exists q. simpl. repeat split; try assumption.
    rewrite Hn. f_equal; lia. }
  rewrite Hq in H. crush.
  all: eexists; simpl.
  all: split; [reflexivity |]; split; [reflexivity |];
    split; [reflexivity |].
  all: unfold QC.set_ao_spec; cbn [QC.ao_spec].
  - erewrite basis_size_app; [| exact Hn | reflexivity | eassumption].
    f_equal; lia.
  - erewrite basis_size_types; [rewrite Hn; f_equal; lia |].
    eapply alteritem_map_kept; [| eassumption].
    intros ? ? Hxy; crush; reflexivity.
Qed.

Lemma orbitals_sized_alter (n : Z) (mos mos' : list QC.MO) (i : Z)
    (f : QC.MO -> result QC.MO) :
  (forall m m', f m = Ok m' ->
                length (QC.mo_coeffs m') = length (QC.mo_coeffs m)) ->
  Py.alteritem mos i f = Ok mos' ->
  orbitals_sized n mos -> orbitals_sized n mos'.
Proof.
  intros Hf H Hall.
  apply alteritem_ok in H as (k & x & y & _ & Hx & Hy & ->).
  eapply orbitals_sized_insert; [exact Hall | exact Hx |]. by apply Hf.
Qed.

(** What a line of the [[MO]] section does to a record that exists. *)
Lemma molden_mo_line_kept (line : string) (tl : list string)
    (s s' : Molden.state) (q : QC.QCinfo) :
  Molden.mo_line line tl s = Ok s' ->
  Molden.qc s = Some q ->
  exists q',
    Molden.qc s' = Some q' /\ QC.ao_spec q' = QC.ao_spec q
    /\ Molden.basis_count s' = Molden.basis_count s
    /\ (Molden.sec_flag s' = Molden.sec_flag s
        \/ Molden.sec_flag s' = Some Molden.SecNone)
    /\ (orbitals_sized (Molden.basis_count s) (QC.mo_spec q) ->
        orbitals_sized (Molden.basis_count s) (QC.mo_spec q')).
Proof.
  unfold Molden.mo_line, Molden.mo_info_line, Molden.mo_coeff_line.
  intros H Hq. rewrite ?Hq in H. crush.
  all: cbn [Molden.qc Molden.set_bNew Molden.set_qc] in *; rewrite ?Hq in *.
  all: crush.
  all: eexists; split; [first [reflexivity | simpl; eassumption] |];
    split; [reflexivity |]; split; [reflexivity |];
    split; [first [left; reflexivity | right; reflexivity] |].
  all: intros Hsz; cbn [QC.mo_spec QC.set_mo_spec Molden.basis_count
                        Molden.set_qc Molden.set_bNew Molden.display] in *.
  all: try (eapply orbitals_sized_alter; [| eassumption |]);
    [ .. ].
  all: try exact Hsz.
  all: try (apply Forall_app; split; [exact Hsz |];
            constructor; [cbn [QC.mo_coeffs]; by eapply zeros_length
                         | constructor]).
  all: intros ? ? Hf; crush; try reflexivity.
  all: match goal with
       | Hset : Py.setitem _ _ _ = Ok _ |- _ =>
           apply setitem_ok in Hset as (? & ? & ->)
       end.
  all: cbn [QC.mo_coeffs QC.set_mo_coeffs]; by rewrite length_insert.
Qed.

(** Before the line [[Molden Format]] nothing is counted. *)
Lemma molden_step_unopened (l : string) (s s' : Molden.state) :
  Py.contains "[Molden Format]" l = false ->
  Molden.step s l = Ok s' ->
  molden_unopened s -> molden_unopened s'.
Proof.
  intros Hl H [Hq Hb]. unfold Molden.step in H. rewrite Hl in H.
  unfold Molden.geo_line, Molden.ao_line, Molden.mo_line,
    Molden.mo_info_line, Molden.mo_coeff_line in H.
  rewrite ?Hq in H. crush.
  all: cbn [Molden.qc Molden.set_bNew Molden.set_qc] in *; rewrite ?Hq in *.
  all: crush.
  all: split; simpl; assumption.
Qed.

(** The line [[Molden Format]] creates the record. *)
Lemma molden_step_opens (l : string) (s : Molden.state) :
  Py.contains "[Molden Format]" l = true ->
  molden_unopened s ->
  exists s', Molden.step s l = Ok s' /\ molden_shells_only s'.
Proof.
  intros Hl [Hq Hb]. unfold Molden.step. rewrite Hl. eexists.
  split; [reflexivity |]. exists QC.new. simpl.
  split; [reflexivity |]. split; [reflexivity |].
  split; [discriminate |]. by rewrite Hb.
Qed.

(** Up to the first [[MO]] line the record has shells and no orbital. *)
Lemma molden_step_shells_only (l : string) (s s' : Molden.state) :
  Py.contains "[Molden Format]" l = false ->
  Py.contains "[MO]" l = false ->
  Molden.step s l = Ok s' ->
  molden_shells_only s -> molden_shells_only s'.
Proof.
  intros Hl Hmo H (q & Hq & Hmos & Hsec & Hsize).
  unfold Molden.step in H. rewrite Hl, Hmo in H.
  destruct (Py.contains "_ENERGY=" l).
  { rewrite Hq in H. crush. eexists. split; [reflexivity |]. by simpl. }
  destruct (Py.contains "[Atoms]" l).
  { crush; exists q; simpl; (split; [exact Hq |]);
      (split; [exact Hmos |]); (split; [discriminate | exact Hsize]). }
  destruct (Py.contains "[GTO]" l).
  { crush; exists q; simpl; (split; [exact Hq |]);
      (split; [exact Hmos |]); (split; [discriminate | exact Hsize]). }
  destruct (Py.contains "[STO]" l); [discriminate |].
  inv_bind H. destruct a.
  - inversion H; subst. by exists q.
  - inversion H; subst. by exists q.
  - apply molden_geo_line_kept in H
      as (q0 & q' & Hq0 & Hq' & Hao & Hmo' & Hsec' & Hbc).
    rewrite Hq in Hq0. inversion Hq0; subst q0.
    exists q'. rewrite Hmo', Hsec', Hao, Hbc. by repeat split.
  - eapply molden_ao_line_kept in H as (q' & Hq' & Hmo' & Hsec' & Hsize');
      [| exact Hq | exact Hsize].
    exists q'. rewrite Hmo', Hsec'. repeat split; try assumption.
    rewrite Hsize'. f_equal; lia.
  - exfalso. apply Hsec. by destruct (Molden.sec_flag s) as [[] |].
Qed.

Lemma molden_shells_only_sized (s : Molden.state) :
  molden_shells_only s -> molden_sized s.
Proof.
  intros (q & Hq & Hmos & Hsec & Hsize). exists q.
  split; [exact Hq |]. split; [exact Hsize |]. rewrite Hmos.
  split; [constructor | reflexivity].
Qed.

(** Without a later [[GTO]] line every orbital keeps the size the shells
    gave it. *)
Lemma molden_step_sized (l : string) (s s' : Molden.state) :
  Py.contains "[Molden Format]" l = false ->
  Py.contains "[GTO]" l = false ->
  Molden.step s l = Ok s' ->
  molden_sized s -> molden_sized s'.
Proof.
  intros Hl Hgto H (q & Hq & Hsize & Hmos & Hsec).
  unfold Molden.step in H. rewrite Hl, Hgto in H.
  destruct (Py.contains "_ENERGY=" l).
  { rewrite Hq in H. crush. eexists. split; [reflexivity |]. by simpl. }
  destruct (Py.contains "[Atoms]" l).
  { crush; exists q; simpl; (split; [exact Hq |]);
      (split; [exact Hsize |]); (split; [exact Hmos | discriminate]). }
  destruct (Py.contains "[MO]" l).
  { crush; exists q; simpl; (split; [exact Hq |]);
      (split; [exact Hsize |]); (split; [exact Hmos | discriminate]). }
  destruct (Py.contains "[STO]" l); [discriminate |].
  inv_bind H. destruct a.
  - inversion H; subst. by exists q.
  - inversion H; subst. by exists q.
  - apply molden_geo_line_kept in H
      as (q0 & q' & Hq0 & Hq' & Hao & Hmo' & Hsec' & Hbc).
    rewrite Hq in Hq0. inversion Hq0; subst q0.
    exists q'. rewrite Hmo', Hsec', Hao, Hbc. by repeat split.
  - assert (Hflag : Molden.sec_flag s = Some Molden.AoInfo)
      by (by destruct (Molden.sec_flag s) as [[] |]).
    eapply molden_ao_line_kept in H as (q' & Hq' & Hmo' & Hsec' & Hsize');
      [| exact Hq | exact Hsize].
    exists q'. rewrite Hmo', Hsec'. split; [exact Hq' |].
    split; [rewrite Hsize'; f_equal; lia |].
    rewrite (Hsec Hflag). split; [constructor | reflexivity].
  - assert (Hflag : Molden.sec_flag s = Some Molden.MoInfo)
      by (by destruct (Molden.sec_flag s) as [[] |]).
    eapply molden_mo_line_kept in H
      as (q' & Hq' & Hao & Hbc & Hsec' & Hkeep); [| exact Hq].
    exists q'. rewrite Hao, Hbc. split; [exact Hq' |].
    split; [exact Hsize |]. split; [by apply Hkeep |].
    intros Hao'. exfalso. rewrite Hflag in Hsec'.
    destruct Hsec' as [Hs | Hs]; rewrite Hs in Hao'; discriminate.
Qed.

Lemma foldM_invariant_on {A S} (Q : A -> Prop) (P : S -> Prop)
    (f : S -> A -> result S) (l : list A) (s s' : S) :
  Forall Q l ->
  (forall s x s', Q x -> P s -> f s x = Ok s' -> P s') ->
  P s -> Py.foldM f l s = Ok s' -> P s'.
Proof.
  intros Hall Hstep. revert s.
  induction Hall as [| x l Hx _ IH]; intros s Hs Hrun; simpl in Hrun.
  - by inversion Hrun; subst.
  - inv_bind Hrun. eapply IH; [| exact Hrun]. eauto.
Qed.

Lemma coefficients_sized_intro (q : QC.QCinfo) (n : Z) :
  QC.basis_size (QC.ao_spec q) = Ok n ->
  orbitals_sized n (QC.mo_spec q) ->
  coefficients_sized q = true.
Proof.
  intros Hn Hall. unfold coefficients_sized. rewrite Hn.
  induction Hall as [| m mos Hm _ IH]; [reflexivity |].
  cbn [forallb]. apply andb_true_iff. split; [by apply Z.eqb_eq | exact IH].
Qed.

Lemma orbitals_sized_filter (n : Z) (mos : list QC.MO) :
  orbitals_sized n mos ->
  orbitals_sized n (filter (fun m => occupied m = true) mos).
Proof.
  unfold orbitals_sized. induction 1 as [| m mos Hm _ IH]; [constructor |].
  rewrite filter_cons. case_decide; [by constructor | exact IH].
Qed.

(** X9: the orbitals [read_molden] returns have as many coefficients as
    the shells it returns have basis functions, for a file with a single
    [[Molden Format]] line in which no [[GTO]] line follows an [[MO]]
    line: the file is [pre], the line [[Molden Format]], the lines [a]
    without [[MO]] and the lines [b] without [[GTO]]. *)
Theorem molden_coefficients_sized (pre a b : list string) (h name : string)
    (all_mo : bool) (q : QC.QCinfo) :
  Forall (fun l => Py.contains "[Molden Format]" l = false) (pre ++ a ++ b) ->
  Py.contains "[Molden Format]" h = true ->
  Forall (fun l => Py.contains "[MO]" l = false) a ->
  Forall (fun l => Py.contains "[GTO]" l = false) b ->
  Molden.read_molden (Samples.only (pre ++ h :: a ++ b)) name all_mo = Ok q ->
  coefficients_sized q = true.
Proof.
  intros Hmark Hh Ha Hb Hread.
  apply Forall_app in Hmark as [Hpre Hmark].
  apply Forall_app in Hmark as [Hma Hmb].
  unfold Molden.read_molden, read_lines, Samples.only in Hread.
  cbn [Py.bind] in Hread.
  destruct (negb _); [discriminate |].
  inv_bind Hread. rename a0 into s, Ha0 into Hrun.
  assert (Hs : molden_sized s).
  { unfold Molden.run in Hrun. rewrite foldM_app in Hrun.
    inv_bind Hrun. rename a0 into s0.
    assert (H0 : molden_unopened s0).
    { eapply (foldM_invariant_on _ molden_unopened);
        [exact Hpre | | | exact Ha0]; [| by split].
      intros ? ? ? Hx HP Hf.
      eapply molden_step_unopened; [exact Hx | exact Hf | exact HP]. }
    cbn [Py.foldM] in Hrun.
    destruct (molden_step_opens h s0 Hh H0) as (s1 & Hstep & H1).
    rewrite Hstep in Hrun. cbn [Py.bind] in Hrun.
    rewrite foldM_app in Hrun. inv_bind Hrun. rename a0 into s2.
    assert (H2 : molden_shells_only s2).
    { eapply (foldM_invariant_on
                (fun l => Py.contains "[Molden Format]" l = false
                          /\ Py.contains "[MO]" l = false)
                molden_shells_only); [| | exact H1 | exact Ha1].
      - apply Forall_and. by split.
      - intros ? ? ? [Hx Hy] HP Hf.
        eapply molden_step_shells_only;
          [exact Hx | exact Hy | exact Hf | exact HP]. }
    eapply (foldM_invariant_on
              (fun l => Py.contains "[Molden Format]" l = false
                        /\ Py.contains "[GTO]" l = false)
              molden_sized);
      [| | apply molden_shells_only_sized; exact H2 | exact Hrun].
    - apply Forall_and. by split.
    - intros ? ? ? [Hx Hy] HP Hf.
      eapply molden_step_sized; [exact Hx | exact Hy | exact Hf | exact HP]. }
  destruct Hs as (q0 & Hq0 & Hsize & Hsized & _).
  rewrite Hq0 in Hread. cbn [Py.var Py.bind] in Hread.
  destruct all_mo; cbn [negb] in Hread.
  - inversion Hread; subst q. by eapply coefficients_sized_intro.
  - apply occupied_only_spec in Hread as [Hfilter Hq].
    rewrite Hq. eapply coefficients_sized_intro; [exact Hsize |].
    cbn [QC.mo_spec QC.set_mo_spec]. rewrite Hfilter.
    by apply orbitals_sized_filter.
Qed.

Lemma molden_coefficients_sized_witness :
  coefficients_sized Samples.molden_h_record = true.
Proof.
  apply (molden_coefficients_sized
           [] Samples.molden_h_shells Samples.molden_h_orbitals
           Samples.molden_h_marker "h.molden" true Samples.molden_h_record).
  - vm_compute. repeat constructor.
  - vm_compute. reflexivity.
  - vm_compute. repeat constructor.
  - vm_compute. repeat constructor.
  - vm_compute. reflexivity.
Defined.

(** The condition on the order of the sections is needed: a file with
    its [[MO]] section first, and a file that holds two molden files,
    are read, and their orbitals are shorter, or longer, than the basis
    set. *)
Example molden_coefficients_not_sized :
  (exists q, Molden.read_molden (Samples.only Samples.molden_orbitals_first)
               "h.molden" true = Ok q
             /\ coefficient_counts (QC.mo_spec q) = [0%nat]
             /\ QC.basis_size (QC.ao_spec q) = Ok 1)
  /\ (exists q, Molden.read_molden (Samples.only Samples.molden_h_twice)
                  "h.molden" true = Ok q
                /\ coefficient_counts (QC.mo_spec q) = [2; 2]%nat
                /\ QC.basis_size (QC.ao_spec q) = Ok 1).
Proof.
  split; eexists; (split; [vm_compute; reflexivity |]);
    split; vm_compute; reflexivity.
Qed.

(** ** The order of the sections in read_gaussian_fchk *)

Lemma getitem_nil {A} (i : Z) : Py.getitem (@nil A) i = Raise IndexError.
Proof.
  unfold Py.getitem. destruct (Py.norm_index (length (@nil A)) i) eqn:E;
    [| reflexivity].
  apply norm_index_bound in E. simpl in E. lia.
Qed.

Lemma alteritem_nil {A} (i : Z) (f : A -> result A) :
  Py.alteritem [] i f = Raise IndexError.
Proof. unfold Py.alteritem. by rewrite getitem_nil. Qed.

Ltac no_shells_by_cases Hs :=
  rewrite ?Hs, ?alteritem_nil in *; crush; simpl in *;
  rewrite ?Hs, ?alteritem_nil in *; crush; simpl;
  repeat case_match; simpl; first [assumption | congruence].

Lemma fchk_tokens_no_shells (f : Fchk.state -> string -> result Fchk.state)
    (ts : list string) (s s' : Fchk.state) :
  (forall s t s', f s t = Ok s' ->
                  QC.ao_spec (Fchk.qc s) = [] ->
                  QC.ao_spec (Fchk.qc s') = []) ->
  Py.foldM f ts s = Ok s' ->
  QC.ao_spec (Fchk.qc s) = [] -> QC.ao_spec (Fchk.qc s') = [].
Proof.
  intros Hf H Hs.
  eapply (foldM_invariant (fun s => QC.ao_spec (Fchk.qc s) = []));
    [| exact Hs | exact H].
  intros s1 t s2 H1 H2. by eapply Hf.
Qed.

Lemma fchk_step_no_shells (l : string) (s s' : Fchk.state) :
  fchk_no_shell_header l = true ->
  Fchk.step s l = Ok s' ->
  QC.ao_spec (Fchk.qc s) = [] -> QC.ao_spec (Fchk.qc s') = [].
Proof.
  unfold fchk_no_shell_header, fchk_shell_keywords. simpl.
  rewrite !andb_true_iff, !negb_true_iff. intros (H1 & H2 & H3 & _) H Hs.
  unfold Fchk.step in H. rewrite H1, H2, H3 in H.
  repeat match type of H with
         | (if Py.contains ?k l then _ else _) = _ =>
             destruct (Py.contains k l);
             [solve [unfold Fchk.geo_header, Fchk.allocate_geo,
                       Fchk.ao_coeffs_header, Fchk.mo_header in H;
                     no_shells_by_cases Hs] |]
         end.
  destruct (Fchk.sec_flag s).
  - by inversion H; subst.
  - eapply fchk_tokens_no_shells; [| exact H | exact Hs].
    intros s1 t s2 Ht Hs1. unfold Fchk.geo_token in Ht.
    no_shells_by_cases Hs1.
  - eapply fchk_tokens_no_shells; [| exact H | exact Hs].
    intros s1 t s2 Ht Hs1. unfold Fchk.pos_token in Ht.
    no_shells_by_cases Hs1.
  - eapply fchk_tokens_no_shells; [| exact H | exact Hs].
    intros s1 t s2 Ht Hs1. unfold Fchk.ao_token in Ht.
    no_shells_by_cases Hs1.
  - inv_bind H.
    assert (QC.ao_spec (Fchk.qc a) = []).
    { eapply fchk_tokens_no_shells; [| exact Ha | exact Hs].
      intros s1 t s2 Ht Hs1. unfold Fchk.ao_coeffs_token in Ht.
      no_shells_by_cases Hs1. }
    inversion H; subst s'. by destruct (negb _).
  - eapply fchk_tokens_no_shells; [| exact H | exact Hs].
    intros s1 t s2 Ht Hs1. unfold Fchk.eorb_token in Ht.
    no_shells_by_cases Hs1.
  - eapply fchk_tokens_no_shells; [| exact H | exact Hs].
    intros s1 t s2 Ht Hs1. unfold Fchk.coeffs_token in Ht.
    no_shells_by_cases Hs1.
Qed.

(** X11: the exponents, or the contraction coefficients, before any of
    the three shell arrays.  When no line before has [Shell types],
    [Number of primitives per shell] or [Shell to atom map], and the lines
    before are read without exception, a [Primitive exponents] or
    [Contraction coefficients] line that ends in an integer stops
    [read_gaussian_fchk] with the [IOError] on the order of the
    sections. *)
Theorem fchk_exponents_before_shells (pre post : list string) (l : string)
    (s : Fchk.state) (n : Z) (filename : string) (all_mo : bool) :
  Forall (fun k => fchk_no_shell_header k = true) pre ->
  Fchk.run pre = Ok s ->
  fchk_exponents_header l = true ->
  Fchk.last_int (Py.split l) = Ok n ->
  Fchk.read_gaussian_fchk (Samples.only (pre ++ l :: post)) filename all_mo
  = Raise (IOError "Shell types need to be defined before the AO exponents!").
Proof.
  intros Hpre Hrun Hl Hn.
  assert (Hs : QC.ao_spec (Fchk.qc s) = []).
  { eapply (foldM_invariant_on _ (fun s => QC.ao_spec (Fchk.qc s) = []));
      [exact Hpre | | | exact Hrun]; [| reflexivity].
    intros s1 k s2 Hk Hs1 Hstep.
    eapply fchk_step_no_shells; [exact Hk | exact Hstep | exact Hs1]. }
  unfold Fchk.read_gaussian_fchk, read_lines, Samples.only.
  cbn [Py.bind]. unfold Fchk.run in *. rewrite foldM_app, Hrun.
  cbn [Py.bind Py.foldM].
  unfold fchk_exponents_header, fchk_earlier_keywords in Hl. simpl in Hl.
  rewrite !andb_true_iff, !negb_true_iff in Hl. destruct_and!.
  unfold Fchk.step at 1.
  repeat match goal with
         | H : Py.contains _ l = false |- _ => rewrite H; clear H
         end.
  assert (Hhead : forall sw,
             Fchk.ao_coeffs_header sw (Py.split l) s
             = Raise (IOError
                 "Shell types need to be defined before the AO exponents!")).
  { intros sw. unfold Fchk.ao_coeffs_header. rewrite Hn. simpl.
    by rewrite Hs. }
  rewrite !Hhead.
  destruct (Py.contains "Primitive exponents" l);
    [reflexivity |].
  destruct (Py.contains "Contraction coefficients" l);
    [reflexivity | discriminate].
Qed.

Lemma fchk_exponents_before_shells_witness :
  Fchk.read_gaussian_fchk
    (Samples.only
       (take 7 Samples.fchk_before
        ++ Samples.ln "Primitive exponents                        R   N=           3"
        :: drop 7 Samples.fchk_before))
    "h2.fchk" true
  = Raise (IOError "Shell types need to be defined before the AO exponents!").
Proof.
  apply (fchk_exponents_before_shells
           (take 7 Samples.fchk_before) (drop 7 Samples.fchk_before) _
           (Samples.final Fchk.init (Fchk.run (take 7 Samples.fchk_before)))
           3).
  - vm_compute. repeat constructor.
  - vm_compute. reflexivity.
  - vm_compute. reflexivity.
  - vm_compute. reflexivity.
Defined.

(** ** The coefficient blocks of read_gaussian_fchk *)

Lemma fchk_step_plain (s : Fchk.state) (line : string) :
  fchk_plain line = true ->
  Fchk.step s line
  = match Fchk.sec_flag s with
    | Fchk.GeoInfo => Py.foldM Fchk.geo_token (Py.split line) s
    | Fchk.GeoPos => Py.foldM Fchk.pos_token (Py.split line) s
    | Fchk.AoInfo => Py.foldM Fchk.ao_token (Py.split line) s
    | Fchk.AoCoeffs =>
        let* s := Py.foldM Fchk.ao_coeffs_token (Py.split line) s in
        Ok (if negb (Py.truthy (Fchk.ao_num s))
            then Fchk.set_sec_flag Fchk.SecNone s else s)
    | Fchk.MoEorb => Py.foldM Fchk.eorb_token (Py.split line) s
    | Fchk.MoCoeffs => Py.foldM Fchk.coeffs_token (Py.split line) s
    | Fchk.SecNone => Ok s
    end.
Proof.
  unfold fchk_plain, fchk_earlier_keywords. simpl.
  rewrite !andb_true_iff, !negb_true_iff. intros H. destruct_and!.
  unfold Fchk.step.
  repeat match goal with
         | H : Py.contains _ line = _ |- _ => rewrite H; clear H
         end.
  reflexivity.
Qed.

Lemma fchk_step_coefficients_header (s : Fchk.state) (line : string) :
  fchk_coefficients_header line = true ->
  Fchk.step s line
  = let* n := Fchk.last_int (Py.split line) in
    Ok (Fchk.set_mo_num n
          (Fchk.set_count 0 (Fchk.set_sec_flag Fchk.MoCoeffs s))).
Proof.
  unfold fchk_coefficients_header, fchk_earlier_keywords. simpl.
  rewrite !andb_true_iff, !negb_true_iff. intros H. destruct_and!.
  unfold Fchk.step.
  repeat match goal with
         | H : Py.contains _ line = _ |- _ => rewrite H; clear H
         end.
  reflexivity.
Qed.

Lemma fchk_coeffs_token_closed (s s' : Fchk.state) (t : string) :
  Fchk.coeffs_token s t = Ok s' ->
  Fchk.sec_flag s = Fchk.SecNone -> Fchk.sec_flag s' = Fchk.SecNone.
Proof.
  unfold Fchk.coeffs_token. intros H Hs.
  crush; simpl; repeat case_match; simpl; first [assumption | reflexivity].
Qed.

Lemma fchk_coeffs_token_closes (s s' : Fchk.state) (t : string) (i : Z) :
  Fchk.index s = Fchk.IdxInt i -> 0 < i ->
  0 < Fchk.basis_count s -> i mod Fchk.basis_count s = 0 ->
  Fchk.count s = Some 0 ->
  Fchk.coeffs_token s t = Ok s' ->
  Fchk.sec_flag s' = Fchk.SecNone.
Proof.
  unfold Fchk.coeffs_token. intros Hi Hpos HB Hmod Hc H.
  rewrite Hi, Hc in H. crush; simpl in *; repeat case_match; simpl in *;
    eqb_to_prop; try reflexivity.
  all: exfalso.
  all: try discriminate; try congruence; try lia.
  all: repeat match goal with
              | H : 0 + 1 = Fchk.basis_count _ |- _ =>
                  rewrite <- H in *; clear H
              | H : 1 = Fchk.basis_count _ |- _ =>
                  rewrite <- H in *; clear H
              end.
  all: repeat match goal with
              | H : (1 =? _)%positive = true |- _ =>
                  apply Pos.eqb_eq in H; subst
              end.
  all: rewrite ?Z.mod_1_r in *; try congruence; try lia.
Qed.

Lemma fchk_coeffs_tokens_closed (ts : list string) (s s' : Fchk.state) :
  Py.foldM Fchk.coeffs_token ts s = Ok s' ->
  Fchk.sec_flag s = Fchk.SecNone -> Fchk.sec_flag s' = Fchk.SecNone.
Proof.
  intros H Hs.
  eapply (foldM_invariant (fun s => Fchk.sec_flag s = Fchk.SecNone));
    [| exact Hs | exact H].
  intros s1 t s2 H1 H2. by eapply fchk_coeffs_token_closed.
Qed.

(** X12: a block of orbital coefficients entered while [index] is a
    positive multiple of [basis_count], as it is at [Beta MO coefficients]
    after a full block of alpha coefficients, is closed by its first
    token; the tokens of the first line are stored and every later line of
    the block is skipped. *)
Theorem fchk_later_block_first_line_only (s : Fchk.state) (h l1 : string)
    (ls : list string) (i : Z) :
  fchk_coefficients_header h = true ->
  fchk_plain l1 = true -> Py.split l1 <> [] ->
  Forall (fun l => fchk_plain l = true) ls ->
  Fchk.index s = Fchk.IdxInt i -> 0 < i ->
  0 < Fchk.basis_count s -> i mod Fchk.basis_count s = 0 ->
  Py.foldM Fchk.step (h :: l1 :: ls) s = Py.foldM Fchk.step [h; l1] s.
Proof.
  intros Hh Hl1 Hts Hls Hi Hpos HB Hmod.
  cbn [Py.foldM]. rewrite (fchk_step_coefficients_header s h Hh).
  destruct (Fchk.last_int (Py.split h)) as [n |]; [| reflexivity].
  cbn [Py.bind].
  set (s0 := Fchk.set_mo_num n
               (Fchk.set_count 0 (Fchk.set_sec_flag Fchk.MoCoeffs s))).
  destruct (Fchk.step s0 l1) as [s1 |] eqn:H1; [| reflexivity].
  cbn [Py.bind].
  assert (Hs1 : Fchk.sec_flag s1 = Fchk.SecNone).
  { rewrite (fchk_step_plain s0 l1 Hl1) in H1.
    change (Fchk.sec_flag s0) with Fchk.MoCoeffs in H1. cbv iota in H1.
    destruct (Py.split l1) as [| t ts]; [done |].
    cbn [Py.foldM] in H1. inv_bind H1.
    eapply fchk_coeffs_tokens_closed; [exact H1 |].
    eapply (fchk_coeffs_token_closes s0 a t i);
      [exact Hi | exact Hpos | exact HB | exact Hmod | reflexivity
      | exact Ha]. }
  clear H1. induction Hls as [| l ls Hl _ IH]; [reflexivity |].
  cbn [Py.foldM]. rewrite (fchk_step_plain s1 l Hl), Hs1.
  cbn [Py.bind]. exact IH.
Qed.

Lemma fchk_later_block_first_line_only_witness :
  Py.foldM Fchk.step
    [Samples.fchk_beta_header; Samples.fchk_beta_first;
     Samples.fchk_beta_second] Samples.fchk_uhf_state
  = Py.foldM Fchk.step [Samples.fchk_beta_header; Samples.fchk_beta_first]
             Samples.fchk_uhf_state.
Proof.
  apply (fchk_later_block_first_line_only Samples.fchk_uhf_state
           Samples.fchk_beta_header Samples.fchk_beta_first
           [Samples.fchk_beta_second] 2).
  - vm_compute. reflexivity.
  - vm_compute. reflexivity.
  - vm_compute. discriminate.
  - repeat constructor.
  - vm_compute. reflexivity.
  - lia.
  - vm_compute. reflexivity.
  - vm_compute. reflexivity.
Defined.

(** The unrestricted file of H2 read to its end: the first beta orbital
    has the two coefficients of the first line, the second beta orbital
    keeps its zeros. *)
Example fchk_beta_coefficients_left_out :
  (let* q := Fchk.read_gaussian_fchk
               (Samples.only (Samples.fchk_uhf_alpha
                              ++ [Samples.fchk_beta_header;
                                  Samples.fchk_beta_first;
                                  Samples.fchk_beta_second]))
               "h2.fchk" true in
   Ok (map QC.mo_coeffs (QC.mo_spec q)))
  = Ok [ [1 # 2; 1 # 2]; [11 # 10; - (11 # 10)];
         [1 # 10; 1 # 5]; [0; 0] ]%Q.
Proof. vm_compute. reflexivity. Qed.

Lemma setitem_at {A} (l : list A) (n : nat) (x : A) :
  (n < length l)%nat -> Py.setitem l (Z.of_nat n) x = Ok (<[n := x]> l).
Proof.
  intros H. unfold Py.setitem. by rewrite norm_index_nat.
Qed.

Lemma alteritem_at {A} (l : list A) (n : nat) (x y : A)
    (f : A -> result A) :
  l !! n = Some x -> f x = Ok y ->
  Py.alteritem l (Z.of_nat n) f = Ok (<[n := y]> l).
Proof.
  intros Hx Hy. unfold Py.alteritem.
  rewrite (getitem_nat l n x Hx). cbn [Py.bind]. rewrite Hy. cbn [Py.bind].
  apply setitem_at. by eapply lookup_lt_Some.
Qed.

Lemma setitem_at_Z {A} (l : list A) (i : Z) (x : A) :
  0 <= i < Z.of_nat (length l) ->
  Py.setitem l i x = Ok (<[Z.to_nat i := x]> l).
Proof.
  intros H. rewrite <- (Z2Nat.id i) at 1 by lia. apply setitem_at. lia.
Qed.

Lemma alteritem_at_Z {A} (l : list A) (i : Z) (x y : A)
    (f : A -> result A) :
  0 <= i -> l !! Z.to_nat i = Some x -> f x = Ok y ->
  Py.alteritem l i f = Ok (<[Z.to_nat i := y]> l).
Proof.
  intros H Hx Hy. rewrite <- (Z2Nat.id i) at 1 by lia.
  by eapply alteritem_at.
Qed.

(** One token of a row that the token does not complete. *)
Lemma fchk_coeffs_token_inside (s : Fchk.state) (t : string) (x : Q)
    (i c : Z) (m : QC.MO) :
  Py.float t = Ok x ->
  Fchk.index s = Fchk.IdxInt i -> Fchk.count s = Some c ->
  0 <= i -> 0 <= c -> c + 1 < Fchk.basis_count s ->
  QC.mo_spec (Fchk.qc s) !! Z.to_nat i = Some m ->
  Z.of_nat (length (QC.mo_coeffs m)) = Fchk.basis_count s ->
  i = 0 \/ i mod Fchk.basis_count s <> 0 ->
  Fchk.coeffs_token s t
  = Ok (Fchk.set_count (c + 1)
          (Fchk.set_qc
             (QC.set_mo_spec
                (<[Z.to_nat i :=
                     QC.set_mo_coeffs (<[Z.to_nat c := x]> (QC.mo_coeffs m))
                                      m]>
                   (QC.mo_spec (Fchk.qc s)))
                (Fchk.qc s)) s)).
Proof.
  intros Hx Hi Hc Hi0 Hc0 Hlt Hm Hlen Hmod.
  unfold Fchk.coeffs_token. rewrite Hx, Hi, Hc. cbn [Py.bind Py.var].
  erewrite alteritem_at_Z; [| exact Hi0 | exact Hm |].
  2:{ rewrite setitem_at_Z by lia. reflexivity. }
  cbn [Py.bind Fchk.basis_count Fchk.set_count Fchk.set_qc].
  destruct (Z.eqb_spec (c + 1) (Fchk.basis_count s)) as [| _]; [lia |].
  destruct (Z.eqb_spec i 0) as [| Hne]; cbn [negb]; [reflexivity |].
  cbn [Fchk.basis_count Fchk.set_count Fchk.set_qc].
  destruct (Z.eqb_spec (Fchk.basis_count s) 0) as [| _]; [lia |].
  destruct (Z.eqb_spec (i mod Fchk.basis_count s) 0) as [Hz | _];
    [| reflexivity].
  destruct Hmod; contradiction.
Qed.

(** The token that completes a row. *)
Lemma fchk_coeffs_token_last (s : Fchk.state) (t : string) (x : Q)
    (i c : Z) (m : QC.MO) :
  Py.float t = Ok x ->
  Fchk.index s = Fchk.IdxInt i -> Fchk.count s = Some c ->
  0 <= i -> 0 <= c -> c + 1 = Fchk.basis_count s ->
  QC.mo_spec (Fchk.qc s) !! Z.to_nat i = Some m ->
  Z.of_nat (length (QC.mo_coeffs m)) = Fchk.basis_count s ->
  Fchk.coeffs_token s t
  = Ok (fchk_row_read s i (<[Z.to_nat c := x]> (QC.mo_coeffs m)) m).
Proof.
  intros Hx Hi Hc Hi0 Hc0 Hlt Hm Hlen.
  unfold Fchk.coeffs_token, fchk_row_read. rewrite Hx, Hi, Hc.
  cbn [Py.bind Py.var].
  erewrite alteritem_at_Z; [| exact Hi0 | exact Hm |].
  2:{ rewrite setitem_at_Z by lia. reflexivity. }
  cbn [Py.bind Fchk.basis_count Fchk.set_count Fchk.set_qc].
  destruct (Z.eqb_spec (c + 1) (Fchk.basis_count s)) as [_ |]; [| lia].
  destruct (Z.eqb_spec (i + 1) 0) as [| _]; [lia |]. cbn [negb].
  cbn [Fchk.basis_count Fchk.set_index Fchk.set_count Fchk.set_qc].
  destruct (Z.eqb_spec (Fchk.basis_count s) 0) as [| _]; [lia |].
  destruct ((i + 1) mod Fchk.basis_count s =? 0); reflexivity.
Qed.

Lemma fchk_row_rest (i : Z) (ts : list string) :
  forall (xs : list Q) (s : Fchk.state) (c : Z) (m : QC.MO),
    Py.mapM Py.float ts = Ok xs -> xs <> [] ->
    Fchk.index s = Fchk.IdxInt i -> Fchk.count s = Some c ->
    0 <= i -> 0 <= c ->
    c + Z.of_nat (length xs) = Fchk.basis_count s ->
    QC.mo_spec (Fchk.qc s) !! Z.to_nat i = Some m ->
    Z.of_nat (length (QC.mo_coeffs m)) = Fchk.basis_count s ->
    i = 0 \/ i mod Fchk.basis_count s <> 0 ->
    Py.foldM Fchk.coeffs_token ts s
    = Ok (fchk_row_read s i (take (Z.to_nat c) (QC.mo_coeffs m) ++ xs) m).
Proof.
  induction ts as [| t ts IH];
    intros xs s c m Hxs Hne Hi Hc Hi0 Hc0 Hsum Hm Hlen Hmod.
  { simpl in Hxs. inversion Hxs; subst. contradiction. }
  simpl in Hxs. inv_bind Hxs. inv_bind Hxs. inversion Hxs; subst xs.
  rename a into x, a0 into xs, Ha into Hx, Ha0 into Hxs'.
  cbn [length] in Hsum. cbn [Py.foldM].
  destruct xs as [| x' xs'] eqn:Exs.
  - (* the last token of the row *)
    destruct ts as [| t' ts']; [| simpl in Hxs'; crush].
    rewrite (fchk_coeffs_token_last s t x i c m) by (try assumption; simpl in Hsum; lia).
    cbn [Py.bind Py.foldM]. do 2 f_equal.
    rewrite insert_take_drop by (simpl in Hsum; lia).
    rewrite drop_ge by (simpl in Hsum; lia). reflexivity.
  - rewrite <- Exs in *.
    assert (Hlong : (1 <= length xs)%nat) by (subst xs; simpl; lia).
    rewrite (fchk_coeffs_token_inside s t x i c m)
      by (try assumption; lia).
    cbn [Py.bind].
    set (m1 := QC.set_mo_coeffs (<[Z.to_nat c := x]> (QC.mo_coeffs m)) m).
    set (s1 := Fchk.set_count (c + 1) _).
    assert (Hne1 : xs <> []) by (subst xs; discriminate).
    assert (Hi1 : Fchk.index s1 = Fchk.IdxInt i) by exact Hi.
    assert (Hc1 : Fchk.count s1 = Some (c + 1)) by reflexivity.
    assert (Hsum1 : c + 1 + Z.of_nat (length xs) = Fchk.basis_count s1).
    { unfold s1. cbn [Fchk.basis_count Fchk.set_count Fchk.set_qc]. lia. }
    assert (Hm1 : QC.mo_spec (Fchk.qc s1) !! Z.to_nat i = Some m1).
    { unfold s1. cbn [Fchk.qc Fchk.set_count Fchk.set_qc QC.mo_spec
                      QC.set_mo_spec].
      apply list_lookup_insert_eq. by eapply lookup_lt_Some. }
    assert (Hlen1 : Z.of_nat (length (QC.mo_coeffs m1))
                    = Fchk.basis_count s1).
    { unfold m1. cbn [QC.mo_coeffs QC.set_mo_coeffs].
      rewrite length_insert. exact Hlen. }
    assert (Hmod1 : i = 0 \/ i mod Fchk.basis_count s1 <> 0) by exact Hmod.
    assert (Hc1' : 0 <= c + 1) by lia.
    rewrite (IH xs s1 (c + 1) m1 Hxs' Hne1 Hi1 Hc1 Hi0 Hc1' Hsum1 Hm1 Hlen1
               Hmod1).
    f_equal. unfold fchk_row_read, s1, m1.
    cbn [Fchk.basis_count Fchk.set_count Fchk.set_qc Fchk.qc
         QC.mo_spec QC.set_mo_spec QC.mo_coeffs QC.set_mo_coeffs].
    rewrite list_insert_insert_eq.
    replace (Z.to_nat (c + 1)) with (S (Z.to_nat c)) by lia.
    erewrite take_S_r by (apply list_lookup_insert_eq; lia).
    rewrite take_insert. case_decide; [lia |].
    rewrite <- app_assoc. reflexivity.
Qed.

(** X13: the coefficients of one orbital in [read_gaussian_fchk].  As
    many tokens as there are basis functions, read from [count = 0] while
    [index] is the orbital [i] (and [i] is 0 or no multiple of
    [basis_count]), become the coefficient vector of that orbital, in
    their order; the other orbitals are untouched, [index] moves to
    [i + 1], [count] returns to 0, and the block is closed exactly when
    [i + 1] is a multiple of [basis_count]. *)
Theorem fchk_coefficient_row (s : Fchk.state) (ts : list string)
    (xs : list Q) (i : Z) (m : QC.MO) :
  Py.mapM Py.float ts = Ok xs ->
  Fchk.index s = Fchk.IdxInt i -> Fchk.count s = Some 0 -> 0 <= i ->
  0 < Fchk.basis_count s ->
  Z.of_nat (length xs) = Fchk.basis_count s ->
  QC.mo_spec (Fchk.qc s) !! Z.to_nat i = Some m ->
  Z.of_nat (length (QC.mo_coeffs m)) = Fchk.basis_count s ->
  i = 0 \/ i mod Fchk.basis_count s <> 0 ->
  Py.foldM Fchk.coeffs_token ts s = Ok (fchk_row_read s i xs m).
Proof.
  intros Hxs Hi Hc Hi0 HB Hlen Hm Hlenm Hmod.
  assert (Hne : xs <> []) by (destruct xs; [simpl in Hlen; lia | discriminate]).
  rewrite (fchk_row_rest i ts xs s 0 m Hxs Hne Hi Hc Hi0 (Z.le_refl 0));
    [reflexivity | lia | exact Hm | exact Hlenm | exact Hmod].
Qed.

Lemma fchk_coefficient_row_witness :
  Py.foldM Fchk.coeffs_token ["0.5"; "0.5"] Samples.fchk_alpha_state
  = Ok (fchk_row_read Samples.fchk_alpha_state 0 [1 # 2; 1 # 2]%Q
                      Samples.fchk_alpha_first).
Proof.
  apply (fchk_coefficient_row Samples.fchk_alpha_state ["0.5"; "0.5"]
           [1 # 2; 1 # 2]%Q 0 Samples.fchk_alpha_first).
  - vm_compute. reflexivity.
  - vm_compute. reflexivity.
  - vm_compute. reflexivity.
  - lia.
  - vm_compute. reflexivity.
  - vm_compute. reflexivity.
  - vm_compute. reflexivity.
  - vm_compute. reflexivity.
  - left. reflexivity.
Defined.

(** ** The symmetry labels of read_molden *)

Lemma setitem_last {A} (l : list A) (x y : A) :
  Py.setitem (l ++ [x]) (-1) y = Ok (l ++ [y]).
Proof.
  unfold Py.setitem. rewrite length_app. simpl.
  replace (length l + 1)%nat with (S (length l)) by lia.
  rewrite norm_index_last. f_equal.
  rewrite insert_app_r_alt by lia. by rewrite Nat.sub_diag.
Qed.

Lemma alteritem_last {A} (l : list A) (x : A) (f : A -> result A) :
  Py.alteritem (l ++ [x]) (-1) f = let* y := f x in Ok (l ++ [y]).
Proof.
  unfold Py.alteritem. rewrite getitem_last. cbn [Py.bind].
  destruct (f x) as [y |]; [| reflexivity]. cbn [Py.bind].
  apply setitem_last.
Qed.

Lemma span_digits_all (s : string) :
  all_digits s = true -> Py.span_digits s = (s, EmptyString).
Proof.
  induction s as [| c s IH]; [reflexivity |]. simpl. intros H.
  apply andb_true_iff in H as [Hc Hs]. by rewrite Hc, (IH Hs).
Qed.

Lemma span_digits_digits (s : string) :
  all_digits (fst (Py.span_digits s)) = true.
Proof.
  induction s as [| c s IH]; [reflexivity |]. simpl.
  destruct (Py.is_digit c) eqn:Hc; [| reflexivity].
  destruct (Py.span_digits s) as [d r]. simpl in *. by rewrite Hc, IH.
Qed.

Lemma first_digits_none (s : string) :
  no_digit s = true -> Molden.first_digits s = None.
Proof.
  induction s as [| c s IH]; [reflexivity |]. simpl. intros H.
  apply andb_true_iff in H as [Hc Hs]. apply negb_true_iff in Hc.
  rewrite Hc. by apply IH.
Qed.

Lemma first_digits_some (s : string) :
  no_digit s = false ->
  exists a, Molden.first_digits s = Some a /\ all_digits a = true
            /\ a <> EmptyString.
Proof.
  induction s as [| c s IH]; [discriminate |].
  cbn [no_digit Molden.first_digits]. intros H.
  destruct (Py.is_digit c) eqn:Hc.
  - eexists. split; [reflexivity |].
    pose proof (span_digits_digits (String c s)) as Hd.
    cbn [Py.span_digits] in Hd |- *. rewrite Hc in Hd |- *.
    destruct (Py.span_digits s) as [d r].
    split; [exact Hd | discriminate].
  - cbn [negb andb] in H. by apply IH.
Qed.

Lemma first_digits_all (s : string) :
  all_digits s = true -> s <> EmptyString ->
  Molden.first_digits s = Some s.
Proof.
  destruct s as [| c s]; [done |]. intros H _. simpl in H |- *.
  apply andb_true_iff in H as [Hc Hs]. rewrite Hc.
  by rewrite (span_digits_all s Hs).
Qed.

Lemma no_digit_all_digits (s : string) :
  no_digit s = false -> all_digits s = true -> s <> EmptyString.
Proof. by destruct s. Qed.

(** X14: the symmetry label of an orbital in [read_molden].  For a line
    that reads as [Sym=] and a label, met while an orbital is open: a
    label with a dot is stored as it is; a label without a dot and without
    a digit ends in [AttributeError]; a label of digits only is stored
    with [.1] appended; any other label is stored with a dot put after
    every occurrence of its first run of digits. *)
Theorem molden_symmetry_label (line lab : string) (s : Molden.state)
    (q : QC.QCinfo) (mos : list QC.MO) (m : QC.MO) :
  Py.split_on "=" (Py.replace " " "" (Py.replace Py.nl "" line))
  = ["Sym"; lab] ->
  Molden.bNew s = Some false ->
  Molden.qc s = Some q ->
  QC.mo_spec q = mos ++ [m] ->
  Molden.mo_info_line line s
  = if Py.contains "." lab then Ok (molden_labelled s q mos m lab)
    else if no_digit lab then Raise AttributeError
    else if all_digits lab
         then Ok (molden_labelled s q mos m (lab +:+ ".1"))
         else Ok (molden_labelled s q mos m
                    (Py.replace (default "" (Molden.first_digits lab))
                                (default "" (Molden.first_digits lab) +:+ ".")
                                lab)).
Proof.
  intros Hinfo Hb Hq Hmos. unfold Molden.mo_info_line, molden_labelled.
  rewrite Hb. cbn [Py.var Py.bind]. rewrite Hinfo.
  change (Py.getitem ["Sym"; lab] 0) with (Ok "Sym").
  change (Py.getitem ["Sym"; lab] 1) with (Ok lab).
  cbn [Py.bind]. change (Molden.mo_key_of "Sym") with (Some Molden.KSym).
  cbv iota. cbn [Py.bind].
  destruct (Py.contains "." lab); cbn [negb].
  { cbn [Py.bind]. rewrite Hq. cbn [Py.var Py.bind].
    rewrite Hmos, alteritem_last. reflexivity. }
  destruct (no_digit lab) eqn:Hnone.
  { by rewrite (first_digits_none lab Hnone). }
  destruct (first_digits_some lab Hnone) as (a & Ha & Hda & Hne).
  rewrite Ha. cbn [default].
  destruct (all_digits lab) eqn:Hall.
  - rewrite (first_digits_all lab Hall) in Ha
      by (by apply no_digit_all_digits).
    inversion Ha; subst a. rewrite String.eqb_refl.
    cbn [Py.bind]. rewrite Hq. cbn [Py.var Py.bind].
    rewrite Hmos, alteritem_last. reflexivity.
  - destruct (String.eqb_spec a lab) as [-> | _]; [congruence |].
    cbn [Py.bind]. rewrite Hq. cbn [Py.var Py.bind].
    rewrite Hmos, alteritem_last. reflexivity.
Qed.

Lemma molden_symmetry_label_witness :
  Molden.mo_info_line (Samples.ln "Sym= Ag") Samples.molden_h_state
  = Raise AttributeError.
Proof.
  rewrite (molden_symmetry_label (Samples.ln "Sym= Ag") "Ag"
             Samples.molden_h_state Samples.molden_h_state_record []
             Samples.molden_h_state_last);
    vm_compute; reflexivity.
Defined.

(** ** The files read_molden refuses *)

(** X15: Slater-type orbitals.  A molden file that has the line
    [[Molden Format]] is refused with [IOError('Not a valid input file')]
    at its first [[STO]] line, when the lines before it are read without
    exception, whatever the section in progress and whatever follows. *)
Theorem molden_slater_refused (pre post : list string) (l name : string)
    (s : Molden.state) (all_mo : bool) :
  existsb (String.eqb ("[Molden Format]" +:+ Py.nl)) (pre ++ l :: post)
  = true ->
  Molden.run pre = Ok s ->
  molden_slater_line l = true ->
  Molden.read_molden (Samples.only (pre ++ l :: post)) name all_mo
  = Raise (IOError "Not a valid input file").
Proof.
  intros Hmark Hrun Hl.
  unfold Molden.read_molden, read_lines, Samples.only. cbn [Py.bind].
  rewrite Hmark. cbn [negb]. unfold Molden.run in *.
  rewrite foldM_app, Hrun. cbn [Py.bind Py.foldM].
  unfold molden_slater_line, molden_keywords in Hl. simpl in Hl.
  rewrite !andb_true_iff, !negb_true_iff in Hl. destruct_and!.
  unfold Molden.step at 1.
  repeat match goal with
         | H : Py.contains _ l = _ |- _ => rewrite H; clear H
         end.
  reflexivity.
Qed.

Lemma molden_slater_refused_witness :
  Molden.read_molden
    (Samples.only (take 3 (Samples.molden_h [])
                   ++ Samples.ln "[STO]" :: drop 3 (Samples.molden_h [])))
    "h.molden" true
  = Raise (IOError "Not a valid input file").
Proof.
  apply (molden_slater_refused
           (take 3 (Samples.molden_h [])) (drop 3 (Samples.molden_h [])) _ _
           (Samples.final Molden.init
              (Molden.run (take 3 (Samples.molden_h []))))).
  - vm_compute. reflexivity.
  - vm_compute. reflexivity.
  - vm_compute. reflexivity.
Defined.

(** ** The shells of the atoms in read_gamess *)

Lemma complement_shells (serial : result QC.pyval) (n : Z)
    (shells : list Gamess.shell) :
  serial = Ok (QC.VInt n) ->
  forall aos,
    Py.foldM (fun acc sh =>
                let* serial := serial in
                match serial with
                | QC.VStr _ => Raise TypeError
                | QC.VInt n =>
                    Ok (acc ++ [QC.mkAO (Some (n - 1))
                                        (Some (Gamess.sh_type sh))
                                        (Some (Gamess.sh_pnum sh))
                                        (Some (Gamess.sh_coeffs sh))])
                end) shells aos
    = Ok (aos ++ map (shell_of_atom n) shells).
Proof.
  intros ->. induction shells as [| sh shells IH]; intros aos.
  - simpl. by rewrite app_nil_r.
  - cbn [Py.foldM map Py.bind]. rewrite IH. by rewrite <- app_assoc.
Qed.

Lemma complement_atom_basis (basis_set : gmap string (list Gamess.shell))
    (row : list QC.pyval) (block aos : list QC.AO) :
  atom_basis basis_set row = Some block ->
  Gamess.complement_atom basis_set aos row = Ok (aos ++ block).
Proof.
  unfold atom_basis, Gamess.complement_atom. intros H.
  destruct row as [| [label |] [| [| n] row]]; try discriminate.
  destruct (basis_set !! label) as [shells |] eqn:Hk; [| discriminate].
  inversion H; subst block.
  change (Py.getitem (QC.VStr label :: QC.VInt n :: row) 0)
    with (Ok (A := QC.pyval) (QC.VStr label)).
  cbn [Py.bind]. rewrite Hk. cbn [Py.bind Py.key].
  apply (complement_shells
           (Py.getitem (QC.VStr label :: QC.VInt n :: row) 1) n shells).
  exact (getitem_nat (QC.VStr label :: QC.VInt n :: row) 1 _ eq_refl).
Qed.

(** X17: how [read_gamess] gives the atoms their shells.  When every
    row of [geo_info] starts with a label and a serial number and a basis
    set is kept for each label, [ao_spec] grows by the kept shells of the
    label of each atom, atom after atom in the order of the geometry, each
    shell with the atom index [serial - 1]; the rest of the record stays
    as it is. *)
Theorem gamess_complement (basis_set : gmap string (list Gamess.shell))
    (q : QC.QCinfo) (blocks : list (list QC.AO)) :
  Forall2 (fun row block => atom_basis basis_set row = Some block)
          (QC.geo_info q) blocks ->
  Gamess.complement basis_set q
  = Ok (QC.set_ao_spec (QC.ao_spec q ++ concat blocks) q).
Proof.
  unfold Gamess.complement. intros H.
  assert (Hrun : forall aos,
             Py.foldM (Gamess.complement_atom basis_set) (QC.geo_info q) aos
             = Ok (aos ++ concat blocks)).
  { induction H as [| row block rows blocks Hrow _ IH]; intros aos.
    - simpl. by rewrite app_nil_r.
    - cbn [Py.foldM concat].
      rewrite (complement_atom_basis _ _ _ _ Hrow). cbn [Py.bind].
      rewrite IH. by rewrite <- app_assoc. }
  by rewrite Hrun.
Qed.

Lemma gamess_complement_witness :
  Gamess.complement {[ "H" := [Samples.hydrogen_shell 1] ]}
                    Samples.h2_geometry
  = Ok (QC.set_ao_spec
          [shell_of_atom 1 (Samples.hydrogen_shell 1);
           shell_of_atom 2 (Samples.hydrogen_shell 1)]
          Samples.h2_geometry).
Proof.
  apply (gamess_complement {[ "H" := [Samples.hydrogen_shell 1] ]}
           Samples.h2_geometry
           [[shell_of_atom 1 (Samples.hydrogen_shell 1)];
            [shell_of_atom 2 (Samples.hydrogen_shell 1)]]).
  repeat constructor.
Defined.

(** An atom of the geometry whose label has no basis set ends the
    reader in [KeyError]. *)
Example gamess_complement_missing_label :
  Gamess.complement {[ "O" := [Samples.hydrogen_shell 1] ]}
                    Samples.h2_geometry
  = Raise (KeyError "H").
Proof. vm_compute. reflexivity. Qed.

(** ** The keyboard in read_gaussian_log *)

Lemma int_raises (l : string) (e : Py.exn) :
  Py.int l = Raise e -> e = ValueError.
Proof.
  unfold Py.int. destruct (Py.take_sign (Py.strip l)) as [neg r].
  destruct (Py.span_digits r) as [d rest].
  destruct (String.eqb d ""); [by inversion 1 |].
  destruct (String.eqb rest ""); [discriminate | by inversion 1].
Qed.

(** X18: [check_sel] with the keyboard.  With more than one section the
    index passed by the caller is not read: the answer is the one
    [check_sel] gives without the keyboard for the integer typed; a line
    that is no integer ends in the [IOError] of the prompt, and a
    keyboard at its end in [EOFError]. *)
Theorem check_sel_asks (count i : Z) (kb : GaussianLog.keyboard) :
  count <> 0 -> count <> 1 ->
  GaussianLog.check_sel count i true kb
  = match kb with
    | [] => Raise EOFError
    | l :: kb' =>
        match Py.int l with
        | Ok j => GaussianLog.check_sel count j false kb'
        | Raise _ => Raise (IOError (Py.replace ":" "!"
                                       (GaussianLog.selection_message count)))
        end
    end.
Proof.
  intros H0 H1. unfold GaussianLog.check_sel.
  destruct (Z.eqb_spec count 0); [contradiction |].
  destruct (Z.eqb_spec count 1); [contradiction |].
  destruct kb as [| l kb']; [reflexivity |].
  cbn [GaussianLog.raw_input Py.bind].
  destruct (Py.int l) as [j | e] eqn:Hl; [reflexivity |].
  by rewrite (int_raises l e Hl).
Qed.

Lemma check_sel_asks_witness :
  GaussianLog.check_sel 3 0 true ["-1"; "7"] = Ok (2, ["7"]).
Proof.
  rewrite (check_sel_asks 3 0 ["-1"; "7"]); [reflexivity | lia | lia].
Defined.

(** ** Files of Gaussian that end inside a section *)



